(** * pandas-validation: a shallow embedding of [pandasvalidation.py]

    The module validates one pandas Series at a time.  Its functions are
    embedded here over an explicit object store (Series objects are
    mutable and reached through references), an append-only log of the
    messages handed to [warnings.warn], and an outcome that is either a
    returned value or a raised exception.

    pandas, numpy, the [%] formatting operator, [strftime] and the regular
    expression engine are external to the module.  What they do to a
    single element enters as the fields of the record [external];
    everything the module itself does (branching, masks, messages, copies,
    in-place assignments, exception handlers) is written out.

    Scope of the model.  Numbers are finite rationals (no infinities).
    A dtype is one of object, bool, number (the real numeric dtypes) and
    datetime64.  A name is [None] or a string without quotes to escape.
    Index labels are integers.  Where masks with different indexes meet
    in a frame, the union of the indexes keeps the order of first
    appearance. *)

From Stdlib Require Import List String Ascii ZArith QArith Bool Lia DecimalString.
Import ListNotations.

Local Close Scope Q_scope.
Local Open Scope string_scope.
Local Open Scope list_scope.

(** ** Python values held by a Series *)

Inductive value : Type :=
| VNone                      (* None *)
| VNaN                       (* float('nan'), numpy.nan *)
| VNaT                       (* pandas.NaT *)
| VBool (b : bool)
| VNum (q : Q)               (* a finite int or float *)
| VComplex (re im : Q)       (* a complex number *)
| VStr (s : string)
| VTime (t : Z)              (* datetime.datetime / pandas.Timestamp, in ns *)
| VObj (id : nat).           (* any other Python object: list, dict, ... *)

(** [pandas.isnull] on a scalar. *)
Definition isnull_value (v : value) : bool :=
  match v with
  | VNone | VNaN | VNaT => true
  | _ => false
  end.

Definition notnull_value (v : value) : bool := negb (isnull_value v).

(** [isinstance(x, str)]. *)
Definition isinstance_str (v : value) : bool :=
  match v with VStr _ => true | _ => false end.

(** [numpy.issubdtype(type(x), numpy.number)]: ints, floats (nan is a
    float) and complex numbers; booleans, strings and objects are not. *)
Definition issubdtype_number (v : value) : bool :=
  match v with
  | VNum _ | VNaN | VComplex _ _ => true
  | _ => false
  end.

(** [type(x)] is one of [datetime.datetime], [pandas.Timestamp]. *)
Definition type_is_datetime (v : value) : bool :=
  match v with VTime _ => true | _ => false end.

(** Equality as the pandas hash tables see it ([duplicated], [isin]). *)
Definition value_eqb (a b : value) : bool :=
  match a, b with
  | VNone, VNone | VNaN, VNaN | VNaT, VNaT => true
  | VBool x, VBool y => Bool.eqb x y
  | VNum x, VNum y => Qeq_bool x y
  | VComplex x1 x2, VComplex y1 y2 => Qeq_bool x1 y1 && Qeq_bool x2 y2
  | VStr x, VStr y => String.eqb x y
  | VTime x, VTime y => Z.eqb x y
  | VObj x, VObj y => Nat.eqb x y
  | _, _ => false
  end.

(** Python's [int(x)] on a finite number truncates toward zero. *)
Definition py_int (q : Q) : Z := Z.quot (Qnum q) (Zpos (Qden q)).

(** ** Columns, Series and the mask frame *)

(** Index labels are integers. *)
Abbreviation label := Z.

(** Labelled data: the index and the values of a Series, kept together. *)
Definition column (A : Type) := list (label * A).

Definition index {A} (c : column A) : list label := map fst c.
Definition values {A} (c : column A) : list A := map snd c.

Inductive dtype : Type := DObject | DBool | DNumber | DDatetime.

Record series : Type := mkSeries {
  name  : option string;
  dtype_of : dtype;
  items : column value
}.

(** [repr(series.name)] for a name that is [None] or a plain string. *)
Definition repr_name (n : option string) : string :=
  match n with
  | None => "None"
  | Some s => "'" ++ s ++ "'"
  end.

Definition index_eqb (a b : list label) : bool :=
  if list_eq_dec Z.eq_dec a b then true else false.

Fixpoint lookup {A} (l : label) (c : column A) : option A :=
  match c with
  | [] => None
  | (k, x) :: rest => if Z.eqb k l then Some x else lookup l rest
  end.

Fixpoint has_dup (ls : list label) : bool :=
  match ls with
  | [] => false
  | l :: rest => existsb (Z.eqb l) rest || has_dup rest
  end.

(** [Series.apply(f)] and the element-wise predicates. *)
Definition col_apply {A B} (f : A -> B) (c : column A) : column B :=
  map (fun kv => (fst kv, f (snd kv))) c.

Definition isnull (c : column value) : column bool := col_apply isnull_value c.
Definition notnull (c : column value) : column bool := col_apply notnull_value c.

(** [Series.dropna()]: the sub-column of the non-missing values, with the
    labels they had. *)
Definition dropna (c : column value) : column value :=
  filter (fun kv => notnull_value (snd kv)) c.

(** [a & b] on two masks.  Every use in the module combines masks derived
    from the same Series, whose indexes are identical, so pandas pairs
    the entries position by position. *)
Definition mask_and (a b : column bool) : column bool :=
  map (fun p : (label * bool) * (label * bool) =>
         (fst (fst p), snd (fst p) && snd (snd p))) (combine a b).

Definition mask_not (a : column bool) : column bool := col_apply negb a.

Definition mask_any (m : column bool) : bool := existsb (fun kv => snd kv) m.
Definition mask_all (m : column bool) : bool := forallb (fun kv => snd kv) m.

(** [Series.duplicated()] with [keep='first']: an entry is flagged when an
    equal value occurs earlier. *)
Fixpoint duplicated_from (seen : list value) (c : column value) : column bool :=
  match c with
  | [] => []
  | (l, v) :: rest =>
      (l, existsb (value_eqb v) seen) :: duplicated_from (seen ++ [v]) rest
  end.

Definition duplicated (c : column value) : column bool := duplicated_from [] c.

(** [pandas.Series(b, index=idx)]: a scalar broadcast over an index. *)
Definition broadcast (b : bool) (idx : list label) : column bool :=
  map (fun l => (l, b)) idx.

(** Comparisons of a numeric column with a number, and of a datetime
    column with a parsed bound; anything else compares false. *)
Definition num_lt (b : Q) (v : value) : bool :=
  match v with VNum q => if Qlt_le_dec q b then true else false | _ => false end.
Definition num_gt (b : Q) (v : value) : bool :=
  match v with VNum q => if Qlt_le_dec b q then true else false | _ => false end.
Definition time_lt (b : option Z) (v : value) : bool :=
  match v, b with VTime t, Some u => Z.ltb t u | _, _ => false end.
Definition time_gt (b : option Z) (v : value) : bool :=
  match v, b with VTime t, Some u => Z.ltb u t | _, _ => false end.

(** [int(x)] on one element of a numeric column. *)
Definition int_value (v : value) : value :=
  match v with
  | VNum q => VNum (inject_Z (py_int q))
  | _ => v
  end.

(** [a != b], element by element, on two columns with the same index. *)
Definition column_ne (a b : column value) : column bool :=
  map (fun p : (label * value) * (label * value) =>
         (fst (fst p), negb (value_eqb (snd (fst p)) (snd (snd p)))))
    (combine a b).

(** The mask frame: one row per label, one cell per named mask; a cell is
    [None] where that mask has no entry for the label. *)
Record frame : Type := mkFrame {
  columns : list string;
  rows : list (label * list (option bool))
}.

(** Ordered union of indexes, by first appearance. *)
Definition union_index (idxs : list (list label)) : list label :=
  fold_left
    (fun acc idx =>
       fold_left
         (fun acc' l => if existsb (Z.eqb l) acc' then acc' else acc' ++ [l])
         idx acc)
    idxs [].

Definition all_same_index (idxs : list (list label)) : bool :=
  match idxs with
  | [] => true
  | i :: rest => forallb (index_eqb i) rest
  end.

(** [DataFrame.any(axis=1)]: absent cells are skipped. *)
Definition cell_true (c : option bool) : bool :=
  match c with Some true => true | _ => false end.

Definition frame_any (f : frame) : column bool :=
  map (fun r => (fst r, existsb cell_true (snd r))) (rows f).

(** The column of a frame under a given key. *)
Fixpoint position (k : string) (ks : list string) : option nat :=
  match ks with
  | [] => None
  | k' :: rest =>
      if String.eqb k' k then Some O
      else option_map S (position k rest)
  end.

Definition frame_column (k : string) (f : frame) : option (column (option bool)) :=
  match position k (columns f) with
  | None => None
  | Some n => Some (map (fun r => (fst r, nth n (snd r) None)) (rows f))
  end.

(** ** Exceptions, the object store and the warning log *)

Inductive exn_kind : Type :=
| ValueError | TypeError | AttributeError | KeyError | OverflowError
| InvalidIndexError | ReferenceError.

Definition exn_kind_eqb (a b : exn_kind) : bool :=
  match a, b with
  | ValueError, ValueError | TypeError, TypeError
  | AttributeError, AttributeError | OverflowError, OverflowError
  | KeyError, KeyError
  | InvalidIndexError, InvalidIndexError
  | ReferenceError, ReferenceError => true
  | _, _ => false
  end.

Inductive outcome (A : Type) : Type :=
| Returned (a : A)
| Raised (k : exn_kind) (msg : string).
Arguments Returned {A} a.
Arguments Raised {A} k msg.

(** Sequencing of steps that can raise but touch no state. *)
Definition outcome_bind {A B} (o : outcome A) (k : A -> outcome B) : outcome B :=
  match o with
  | Returned a => k a
  | Raised e msg => Raised e msg
  end.

Definition ref := nat.

Record state : Type := mkState {
  heap : list series;        (* the Series objects alive, by reference *)
  log  : list string         (* messages passed to warnings.warn, oldest first *)
}.

Definition M (A : Type) : Type := state -> outcome A * state.

Definition ret {A} (a : A) : M A := fun st => (Returned a, st).

Definition bind {A B} (m : M A) (k : A -> M B) : M B :=
  fun st =>
    match m st with
    | (Returned a, st') => k a st'
    | (Raised e msg, st') => (Raised e msg, st')
    end.

Definition raise {A} (k : exn_kind) (msg : string) : M A :=
  fun st => (Raised k msg, st).

(** [try: body  except <kind>: handler]. *)
Definition try_except {A} (body : M A) (kind : exn_kind) (handler : M A) : M A :=
  fun st =>
    match body st with
    | (Raised e msg, st') =>
        if exn_kind_eqb e kind then handler st' else (Raised e msg, st')
    | r => r
    end.

(** [warnings.warn(msg, ValidationWarning)]. *)
Definition warn (msg : string) : M unit :=
  fun st => (Returned tt, mkState (heap st) (log st ++ [msg])).

(** Reading the object behind a reference. *)
Definition load (r : ref) : M series :=
  fun st =>
    match nth_error (heap st) r with
    | Some s => (Returned s, st)
    | None => (Raised ReferenceError "dangling reference", st)
    end.

(** A new Series object; the reference returned is fresh. *)
Definition alloc (s : series) : M ref :=
  fun st => (Returned (List.length (heap st)), mkState (heap st ++ [s]) (log st)).

Fixpoint replace_nth {A} (n : nat) (x : A) (l : list A) : list A :=
  match l, n with
  | [], _ => []
  | _ :: t, O => x :: t
  | h :: t, S n' => h :: replace_nth n' x t
  end.

(** In-place update of the object behind a reference. *)
Definition store (r : ref) (s : series) : M unit :=
  fun st => (Returned tt, mkState (replace_nth r s (heap st)) (log st)).

(** Lifting a fallible pure step. *)
Definition lift {A} (o : outcome A) : M A := fun st => (o, st).

Declare Scope monad_scope.
Delimit Scope monad_scope with monad.
Notation "x <- m ;; k" := (bind m (fun x => k))
  (at level 61, m at next level, right associativity) : monad_scope.
Notation "m ;; k" := (bind m (fun _ => k))
  (at level 61, right associativity) : monad_scope.
Local Open Scope monad_scope.

(** [series.copy()]. *)
Definition copy (r : ref) : M ref := s <- load r ;; alloc s.

Definition when (b : bool) (m : M unit) : M unit := if b then m else ret tt.

(** ** More pandas operations on columns *)

(** [pandas.concat(masks, axis='columns')] on the dictionary of masks.
    When all masks carry the same index the frame is assembled position
    by position.  Otherwise the masks are realigned on the union of their
    indexes, which pandas refuses when an index has duplicate labels. *)
Fixpoint rows_by_position (idx : list label) (cols : list (list bool))
  : list (label * list (option bool)) :=
  match idx with
  | [] => []
  | l :: idx' =>
      (l, map (fun c => hd_error c) cols)
        :: rows_by_position idx' (map (@tl bool) cols)
  end.

Definition rows_by_label (idx : list label) (masks : list (string * column bool))
  : list (label * list (option bool)) :=
  map (fun l => (l, map (fun kv => lookup l (snd kv)) masks)) idx.

Definition pandas_concat (masks : list (string * column bool)) : outcome frame :=
  let idxs := map (fun kv => index (snd kv)) masks in
  if all_same_index idxs then
    Returned (mkFrame (map fst masks)
                (rows_by_position (hd [] idxs)
                   (map (fun kv => values (snd kv)) masks)))
  else if existsb has_dup idxs then
    Raised InvalidIndexError "Reindexing only valid with uniquely valued Index objects"
  else
    Returned (mkFrame (map fst masks) (rows_by_label (union_index idxs) masks)).

(** [c.where(cond, other)] with a scalar [other]: entries where [cond]
    is false (or has no entry) are replaced. *)
Definition where_ (c : column value) (cond : column bool) (other : value)
  : column value :=
  if index_eqb (index c) (index cond) then
    map (fun p : (label * value) * (label * bool) =>
           (fst (fst p), if snd (snd p) then snd (fst p) else other))
      (combine c cond)
  else
    map (fun kv =>
           (fst kv,
            match lookup (fst kv) cond with
            | Some true => snd kv
            | _ => other
            end)) c.

(** [c.where(cond, other)] with [other] a Series on the same index. *)
Definition where_series (c : column value) (cond : column bool)
    (other : column value) : column value :=
  map (fun p : ((label * value) * (label * bool)) * (label * value) =>
         (fst (fst (fst p)),
          if snd (snd (fst p)) then snd (fst (fst p)) else snd (snd p)))
    (combine (combine c cond) other).

(** [c[mask]]: boolean indexing with a mask on the same index. *)
Definition select (c : column value) (mask : column bool) : column value :=
  map fst (filter (fun p : (label * value) * (label * bool) => snd (snd p))
             (combine c mask)).

(** [c[mask] = vals], where [vals] holds one entry for each selected
    position, in order: the entries are put back at those positions. *)
Fixpoint setitem_mask (c : column value) (mask : list bool)
    (vals : list value) : column value :=
  match c, mask with
  | (l, v) :: c', true :: mask' =>
      match vals with
      | x :: vals' => (l, x) :: setitem_mask c' mask' vals'
      | [] => (l, VNaN) :: setitem_mask c' mask' []
      end
  | (l, v) :: c', false :: mask' => (l, v) :: setitem_mask c' mask' vals
  | _, _ => c
  end.

(** [Series.apply(f)] for an [f] that can raise: the first exception
    leaves the loop. *)
Fixpoint apply_raising {A B} (f : A -> outcome B) (c : column A)
  : outcome (column B) :=
  match c with
  | [] => Returned []
  | (l, x) :: rest =>
      match f x with
      | Raised k msg => Raised k msg
      | Returned y =>
          match apply_raising f rest with
          | Raised k msg => Raised k msg
          | Returned ys => Returned ((l, y) :: ys)
          end
      end
  end.

(** Python truthiness of an optional number and of an optional string. *)
Definition truthy_num (o : option Q) : bool :=
  match o with Some q => negb (Qeq_bool q 0) | None => false end.

Definition truthy_str (o : option string) : bool :=
  match o with Some s => negb (String.eqb s "") | None => false end.

(** Arguments of the tolerant coercers: a Series (by reference) or a scalar. *)
Inductive pyarg : Type :=
| ArgSeries (r : ref)
| ArgScalar (v : value).

Inductive errors_mode : Type := errors_raise | errors_coerce.

(** Keyword arguments handed through to [pandas.to_datetime]. *)
Record dt_options : Type := mkDtOptions {
  dayfirst : bool;
  yearfirst : bool;
  utc : option bool;
  box : bool;
  format : option string;
  exact : bool
}.

Definition dt_defaults : dt_options := mkDtOptions false false None true None true.

(** What a validator returns. *)
Inductive retval : Type :=
| RNone
| RMaskFrame (f : frame)
| RMaskSeries (m : column bool)
| RValues (r : ref).

(** Dictionary lookup [d[key]]. *)
Fixpoint dict_get {A} (key : string) (d : list (string * A)) : option A :=
  match d with
  | [] => None
  | (k, x) :: rest => if String.eqb k key then Some x else dict_get key rest
  end.

Definition dtype_is_number (d : dtype) : bool :=
  match d with DNumber => true | _ => false end.

Definition dtype_is_datetime64 (d : dtype) : bool :=
  match d with DDatetime => true | _ => false end.

Definition dtype_is_object (d : dtype) : bool :=
  match d with DObject => true | _ => false end.

(** The missing marker [where] writes into a column of a given dtype. *)
Definition na_of (d : dtype) : value :=
  match d with DDatetime => VNaT | _ => VNaN end.

(** [str(n)] for an integer. *)
Definition str_of_Z (z : Z) : string := NilZero.string_of_int (Z.to_int z).

(** [repr(s)] for a plain string. *)
Definition repr_str (s : string) : string := "'" ++ s ++ "'".

(** ** String-accessor helpers *)

(** [c.str.len()]: the length of every string, missing elsewhere. *)
Definition str_len (c : column value) : column (option Z) :=
  col_apply (fun v => match v with
                      | VStr s => Some (Z.of_nat (String.length s))
                      | _ => None
                      end) c.

(** [min()] and [max()] of a column, skipping the missing entries. *)
Definition opt_min (a : option Z) (b : option Z) : option Z :=
  match a, b with
  | Some x, Some y => Some (Z.min x y)
  | Some x, None => Some x
  | None, b' => b'
  end.

Definition opt_max (a : option Z) (b : option Z) : option Z :=
  match a, b with
  | Some x, Some y => Some (Z.max x y)
  | Some x, None => Some x
  | None, b' => b'
  end.

Definition column_min (c : column (option Z)) : option Z :=
  fold_left (fun acc kv => opt_min acc (snd kv)) c None.

Definition column_max (c : column (option Z)) : option Z :=
  fold_left (fun acc kv => opt_max acc (snd kv)) c None.

(** [m < n] where [m] may be NaN (comparisons with NaN are false). *)
Definition opt_lt (m : option Z) (n : Z) : bool :=
  match m with Some x => Z.ltb x n | None => false end.

Definition opt_gt (m : option Z) (n : Z) : bool :=
  match m with Some x => Z.ltb n x | None => false end.

(** [c.isin(l)]. *)
Definition isin (c : column value) (l : list value) : column bool :=
  col_apply (fun v => existsb (value_eqb v) l) c.

(** POSIX [os.linesep]. *)
Definition os_linesep : string := String (ascii_of_nat 10) EmptyString.

(** ** The external collaborators

    What pandas, numpy and Python do to a single element.  A coercion
    either yields a number (a timestamp) or the missing marker, or it
    raises; with [errors='coerce'] pandas turns every raise into the
    missing marker, with [errors='raise'] the first one leaves the call. *)

Record external : Type := mkExternal {
  pd_numeric : value -> outcome (option Q);
  pd_datetime : dt_options -> value -> outcome (option Z);
  percent_format : string -> value -> outcome string;   (* fmt % x *)
  strftime : string -> Z -> outcome string;             (* x.strftime(fmt) *)
  py_str : value -> string;                             (* str(x) *)
  re_search : string -> string -> bool;                 (* re.search(pat, s) *)
  str_is : string -> option (string -> bool)            (* str.is<name> *)
}.

Section Validation.

Variable E : external.

(** *** pandas.to_numeric and pandas.to_datetime *)

Definition numeric_strict (v : value) : outcome value :=
  match pd_numeric E v with
  | Returned (Some q) => Returned (VNum q)
  | Returned None => Returned VNaN
  | Raised k msg => Raised k msg
  end.

Definition numeric_lenient (v : value) : value :=
  match pd_numeric E v with
  | Returned (Some q) => VNum q
  | _ => VNaN
  end.

Definition datetime_strict (o : dt_options) (v : value) : outcome value :=
  match pd_datetime E o v with
  | Returned (Some t) => Returned (VTime t)
  | Returned None => Returned VNaT
  | Raised k msg => Raised k msg
  end.

Definition datetime_lenient (o : dt_options) (v : value) : value :=
  match pd_datetime E o v with
  | Returned (Some t) => VTime t
  | _ => VNaT
  end.

(** Coercion of a whole Series: a new Series with the same name and index. *)
Definition coerce_series (d : dtype) (strict : value -> outcome value)
    (lenient : value -> value) (errors : errors_mode) (series : ref) : M ref :=
  s <- load series ;;
  match errors with
  | errors_coerce => alloc (mkSeries (name s) d (col_apply lenient (items s)))
  | errors_raise =>
      c <- lift (apply_raising strict (items s)) ;;
      alloc (mkSeries (name s) d c)
  end.

Definition coerce_scalar (strict : value -> outcome value)
    (lenient : value -> value) (errors : errors_mode) (v : value) : M value :=
  match errors with
  | errors_coerce => ret (lenient v)
  | errors_raise => lift (strict v)
  end.

Definition pandas_to_numeric_series (series : ref) (errors : errors_mode) : M ref :=
  coerce_series DNumber numeric_strict numeric_lenient errors series.

Definition pandas_to_datetime_series (series : ref) (errors : errors_mode)
    (o : dt_options) : M ref :=
  coerce_series DDatetime (datetime_strict o) (datetime_lenient o) errors series.

Definition pandas_to_numeric (arg : pyarg) (errors : errors_mode) : M pyarg :=
  match arg with
  | ArgSeries r => r' <- pandas_to_numeric_series r errors ;; ret (ArgSeries r')
  | ArgScalar v =>
      v' <- coerce_scalar numeric_strict numeric_lenient errors v ;;
      ret (ArgScalar v')
  end.

Definition pandas_to_datetime (arg : pyarg) (errors : errors_mode)
    (o : dt_options) : M pyarg :=
  match arg with
  | ArgSeries r => r' <- pandas_to_datetime_series r errors o ;; ret (ArgSeries r')
  | ArgScalar v =>
      v' <- coerce_scalar (datetime_strict o) (datetime_lenient o) errors v ;;
      ret (ArgScalar v')
  end.

(** *** _datetime_to_string *)

Definition datetime_formatter (fmt : string) (v : value) : outcome value :=
  match v with
  | VTime t =>
      match strftime E fmt t with
      | Returned s => Returned (VStr s)
      | Raised k msg => Raised k msg
      end
  | _ => Raised AttributeError "object has no attribute 'strftime'"
  end.

Definition _datetime_to_string (series : ref) (fmt : string) : M ref :=
  converted <- copy series ;;
  s <- load series ;;
  let datetime_mask := col_apply type_is_datetime (items s) in
  (if mask_any datetime_mask then
     s1 <- load series ;;
     strs <- lift (apply_raising (datetime_formatter fmt)
                     (select (items s1) datetime_mask)) ;;
     c <- load converted ;;
     store converted
       (mkSeries (name c) DObject
          (setitem_mask (items c) (values datetime_mask) (values strs)))
   else ret tt) ;;
  c <- load converted ;;
  s2 <- load series ;;
  alloc (mkSeries (name c) (dtype_of c)
           (where_series (items c) datetime_mask (items s2))).

(** *** _numeric_to_string *)

Definition numeric_formatter (float_format : string) (v : value) : outcome value :=
  match percent_format E float_format v with
  | Returned s => Returned (VStr s)
  | Raised k msg => Raised k msg
  end.

Definition _numeric_to_string (series : ref) (float_format : string) : M ref :=
  converted <- copy series ;;
  s <- load series ;;
  let numeric_mask :=
    mask_and (col_apply issubdtype_number (items s)) (notnull (items s)) in
  (if mask_any numeric_mask then
     s1 <- load series ;;
     strs <- lift (apply_raising (numeric_formatter float_format)
                     (select (items s1) numeric_mask)) ;;
     c <- load converted ;;
     store converted
       (mkSeries (name c) DObject
          (setitem_mask (items c) (values numeric_mask) (values strs)))
   else ret tt) ;;
  c <- load converted ;;
  s2 <- load series ;;
  alloc (mkSeries (name c) (dtype_of c)
           (where_series (items c) numeric_mask (items s2))).

(** *** _get_error_messages *)

Definition _get_error_messages (masks : list (string * column bool))
    (error_info : list (string * string)) : outcome (list string) :=
  fold_left
    (fun acc kv =>
       match acc with
       | Raised k msg => Raised k msg
       | Returned msg_list =>
           if mask_any (snd kv) then
             match dict_get (fst kv) error_info with
             | Some m => Returned (msg_list ++ [m])
             | None => Raised KeyError (fst kv)
             end
           else Returned msg_list
       end)
    masks (Returned []).

(** *** mask_nonconvertible *)

Definition mask_nonconvertible (series : ref) (to_datatype : string)
    (datetime_format : option string) (exact_date : bool) : M (column bool) :=
  converted <-
    (if String.eqb to_datatype "numeric" then
       pandas_to_numeric_series series errors_coerce
     else if String.eqb to_datatype "datetime" then
       pandas_to_datetime_series series errors_coerce
         (mkDtOptions false false None true datetime_format exact_date)
     else
       raise ValueError ("Invalid 'to_datatype': " ++ to_datatype)) ;;
  series_copy <- copy series ;;
  sc <- load series_copy ;;
  let notnull_ := notnull (items sc) in
  conv <- load converted ;;
  let mask := mask_and notnull_ (isnull (items conv)) in
  ret mask.

(** *** to_datetime and to_numeric *)

Definition to_datetime (arg : pyarg) (o : dt_options) : M pyarg :=
  try_except
    (pandas_to_datetime arg errors_raise o)
    ValueError
    (converted <- pandas_to_datetime arg errors_coerce o ;;
     match arg with
     | ArgSeries r =>
         s <- load r ;;
         warn (repr_name (name s)
               ++ ": value(s) not converted to datetime set as NaT")
     | ArgScalar _ =>
         warn "Value(s) not converted to datetime set as NaT"
     end ;;
     ret converted).

Definition to_numeric (arg : pyarg) : M pyarg :=
  try_except
    (pandas_to_numeric arg errors_raise)
    ValueError
    (converted <- pandas_to_numeric arg errors_coerce ;;
     match arg with
     | ArgSeries r =>
         s <- load r ;;
         warn (repr_name (name s)
               ++ ": value(s) not converted to numeric set as NaN")
     | ArgScalar _ =>
         warn "Value(s) not converted to numeric set as NaN"
     end ;;
     ret converted).

(** *** to_string *)

Definition astype_str (v : value) : value :=
  match v with
  | VStr s => VStr s
  | _ => VStr (py_str E v)
  end.

Definition to_string (series : ref) (float_format datetime_format : string)
  : M ref :=
  converted <- _numeric_to_string series float_format ;;
  converted <- _datetime_to_string converted datetime_format ;;
  c <- load converted ;;
  converted <- alloc (mkSeries (name c) DObject (col_apply astype_str (items c))) ;;
  c <- load converted ;;
  s <- load series ;;
  converted <- alloc (mkSeries (name c) DObject
                        (where_ (items c) (notnull (items s)) VNaN)) ;;
  ret converted.

(** *** validate_datetime *)

Definition datetime_error_info : list (string * string) :=
  [ ("nonconvertible", "Value(s) not converted to datetime set as NaT");
    ("isnull", "NaT value(s)");
    ("nonunique", "duplicates");
    ("too_low", "date(s) too early");
    ("too_high", "date(s) too late") ].

(** The bound of a comparison [column < 'some date']: pandas parses the
    string; a string it cannot parse makes the comparison raise. *)
Definition parse_bound (b : string) : outcome (option Z) :=
  pd_datetime E dt_defaults (VStr b).

(** The tail shared by the two validators that build masks: the return
    statement selected by [return_type]. *)
Definition return_view (converted : ref) (masks : list (string * column bool))
    (return_type : option string) : M retval :=
  match return_type with
  | None => ret RNone
  | Some rt =>
      mask_frame <- lift (pandas_concat masks) ;;
      if String.eqb rt "mask_frame" then ret (RMaskFrame mask_frame)
      else if String.eqb rt "mask_series" then
        ret (RMaskSeries (frame_any mask_frame))
      else if String.eqb rt "values" then
        c <- load converted ;;
        r <- alloc (mkSeries (name c) (dtype_of c)
                      (where_ (items c) (mask_not (frame_any mask_frame))
                         (na_of (dtype_of c)))) ;;
        ret (RValues r)
      else raise ValueError "Invalid return_type"
  end.

(** The warning both validators issue from the list of fragments. *)
Definition warn_messages (series_name : option string) (msg_list : list string)
  : M unit :=
  when (Nat.ltb 0 (List.length msg_list))
    (warn (repr_name series_name ++ ": " ++ String.concat "; " msg_list ++ ".")).

(** The statements of [validate_datetime] from [masks = {}] to the last
    conditional assignment into [masks]; [s] is the Series, [c] the
    coerced one. *)
Definition datetime_masks (s c : series) (nullable unique : bool)
    (min_datetime max_datetime : option string)
  : outcome (list (string * column bool)) :=
  let masks := [] in
  let masks :=
    masks ++ [("nonconvertible", mask_and (notnull (items s)) (isnull (items c)))] in
  let masks :=
    if negb nullable then masks ++ [("isnull", isnull (items c))] else masks in
  let masks :=
    if unique then masks ++ [("nonunique", duplicated (dropna (items c)))]
    else masks in
  outcome_bind
    (match min_datetime with
     | Some b =>
         if truthy_str min_datetime then
           outcome_bind (parse_bound b) (fun bound =>
           Returned
             (masks ++ [("too_low", col_apply (time_lt bound) (dropna (items c)))]))
         else Returned masks
     | None => Returned masks
     end) (fun masks =>
  outcome_bind
    (match max_datetime with
     | Some b =>
         if truthy_str max_datetime then
           outcome_bind (parse_bound b) (fun bound =>
           Returned
             (masks ++ [("too_high", col_apply (time_gt bound) (dropna (items c)))]))
         else Returned masks
     | None => Returned masks
     end) (fun masks =>
  Returned masks)).

Definition validate_datetime (series : ref) (nullable unique : bool)
    (min_datetime max_datetime : option string) (return_type : option string)
  : M retval :=
  let error_info := datetime_error_info in
  s <- load series ;;
  converted <-
    (if negb (dtype_is_datetime64 (dtype_of s)) then
       pandas_to_datetime_series series errors_coerce dt_defaults
     else copy series) ;;
  c <- load converted ;;
  masks <- lift (datetime_masks s c nullable unique min_datetime max_datetime) ;;
  msg_list <- lift (_get_error_messages masks error_info) ;;
  warn_messages (name s) msg_list ;;
  return_view converted masks return_type.

(** *** validate_numeric *)

Definition numeric_error_info : list (string * string) :=
  [ ("nonconvertible", "Value(s) not converted to datetime set as NaT");
    ("isnull", "NaN value(s)");
    ("nonunique", "duplicates");
    ("noninteger", "non-integer(s)");
    ("too_low", "value(s) too low");
    ("too_high", "values(s) too high") ].

(** The statements of [validate_numeric] from [masks = {}] to the last
    conditional assignment into [masks]; [s] is the Series, [c] the
    coerced one. *)
Definition numeric_masks (s c : series) (nullable unique integer : bool)
    (min_value max_value : option Q) : list (string * column bool) :=
  let masks := [] in
  let masks :=
    masks ++ [("nonconvertible", mask_and (notnull (items s)) (isnull (items c)))] in
  let masks :=
    if negb nullable then masks ++ [("isnull", isnull (items c))] else masks in
  let masks :=
    if unique then masks ++ [("nonunique", duplicated (dropna (items c)))]
    else masks in
  let masks :=
    if integer then
      let null_dropped :=
        mask_any (column_ne (dropna (items c))
                    (col_apply int_value (dropna (items c)))) in
      masks ++ [("noninteger", broadcast null_dropped (index (items s)))]
    else masks in
  let masks :=
    match min_value with
    | Some b =>
        if truthy_num min_value then
          masks ++ [("too_low", col_apply (num_lt b) (dropna (items c)))]
        else masks
    | None => masks
    end in
  let masks :=
    match max_value with
    | Some b =>
        if truthy_num max_value then
          masks ++ [("too_high", col_apply (num_gt b) (dropna (items c)))]
        else masks
    | None => masks
    end in
  masks.

Definition validate_numeric (series : ref) (nullable unique integer : bool)
    (min_value max_value : option Q) (return_type : option string)
  : M retval :=
  let error_info := numeric_error_info in
  s <- load series ;;
  converted <-
    (if negb (dtype_is_number (dtype_of s)) then
       pandas_to_numeric_series series errors_coerce
     else copy series) ;;
  c <- load converted ;;
  let masks :=
    numeric_masks s c nullable unique integer min_value max_value in
  msg_list <- lift (_get_error_messages masks error_info) ;;
  warn_messages (name s) msg_list ;;
  return_view converted masks return_type.

(** *** validate_string *)

(** [series.str]: pandas refuses the accessor on a column that is not of
    object dtype. *)
Definition str_accessor (s : series) : M (column value) :=
  if dtype_is_object (dtype_of s) then ret (items s)
  else raise AttributeError "Can only use .str accessor with string values".

(** [strs.contains(pat, na=na, regex=True)]. *)
Definition str_contains (pat : string) (na : bool) (c : column value)
  : column bool :=
  col_apply (fun v => match v with
                      | VStr s => re_search E pat s
                      | _ => na
                      end) c.

(** [getattr(strs, 'is' + case)()]. *)
Definition str_is_case (case : string) (c : column value) : M (column bool) :=
  match str_is E ("is" ++ case) with
  | Some f =>
      ret (col_apply (fun v => match v with VStr s => f s | _ => true end) c)
  | None =>
      raise AttributeError
        ("'StringMethods' object has no attribute 'is" ++ case ++ "'")
  end.

Definition dquote : string := String (ascii_of_nat 34) EmptyString.

Definition validate_string (series : ref) (nullable unique : bool)
    (min_length max_length : option Z) (case : option string)
    (newlines trailing_whitespace whitespace : bool)
    (matching_regex non_matching_regex : option string)
    (whitelist blacklist : option (list value)) (return_values : bool)
  : M (option ref) :=
  s <- load series ;;
  validated <-
    (if mask_any (col_apply (fun x => negb (isinstance_str x)) (dropna (items s)))
     then to_string series "%g" "%Y-%m-%d"
     else copy series) ;;
  v <- load validated ;;
  when (negb nullable && mask_any (isnull (items v)))
    (warn (repr_name (name v) ++ ": NaN value(s)")) ;;
  when (unique && mask_any (duplicated (items v)))
    (warn (repr_name (name v) ++ ": duplicates")) ;;
  too_short <-
    (match min_length with
     | Some n =>
         strs <- str_accessor v ;;
         ret (opt_lt (column_min (str_len strs)) n)
     | None => ret false
     end) ;;
  when too_short
    (warn (repr_name (name v) ++ ": string(s) too short (< "
           ++ str_of_Z (match min_length with Some n => n | None => 0%Z end)
           ++ " characters)")) ;;
  too_long <-
    (match max_length with
     | Some n =>
         strs <- str_accessor v ;;
         ret (opt_gt (column_max (str_len strs)) n)
     | None => ret false
     end) ;;
  when too_long
    (warn (repr_name (name v) ++ ": string(s) too long (> "
           ++ str_of_Z (match max_length with Some n => n | None => 0%Z end)
           ++ " characters)")) ;;
  wrong_case <-
    (match case with
     | Some cs =>
         if truthy_str case then
           strs <- str_accessor (mkSeries (name v) (dtype_of v) (dropna (items v))) ;;
           m <- str_is_case cs strs ;;
           ret (negb (mask_all m))
         else ret false
     | None => ret false
     end) ;;
  when wrong_case
    (warn (repr_name (name v) ++ ": wrong case letter(s) (non-"
           ++ (match case with Some cs => cs | None => "" end) ++ "case)")) ;;
  has_newline <-
    (if negb newlines then
       strs <- str_accessor v ;;
       ret (mask_any (str_contains os_linesep false strs))
     else ret false) ;;
  when has_newline
    (warn (repr_name (name v) ++ ": newline character(s)")) ;;
  has_trailing <-
    (if negb trailing_whitespace then
       strs <- str_accessor v ;;
       ret (mask_any (str_contains "^\s|\s$" false strs))
     else ret false) ;;
  when has_trailing
    (warn (repr_name (name v) ++ ": trailing whitespace")) ;;
  has_whitespace <-
    (if negb whitespace then
       strs <- str_accessor v ;;
       ret (mask_any (str_contains "\s" false strs))
     else ret false) ;;
  when has_whitespace
    (warn (repr_name (name v) ++ ": whitespace")) ;;
  mismatch <-
    (match matching_regex with
     | Some re =>
         if truthy_str matching_regex then
           strs <- str_accessor (mkSeries (name v) (dtype_of v) (dropna (items v))) ;;
           ret (negb (mask_all (str_contains re true strs)))
         else ret false
     | None => ret false
     end) ;;
  when mismatch
    (warn (repr_name (name v) ++ ": mismatch(es) for " ++ dquote
           ++ "matching regular expression" ++ dquote ++ " ("
           ++ repr_str (match matching_regex with Some re => re | None => "" end)
           ++ ")")) ;;
  forbidden <-
    (match non_matching_regex with
     | Some re =>
         if truthy_str non_matching_regex then
           strs <- str_accessor (mkSeries (name v) (dtype_of v) (dropna (items v))) ;;
           ret (mask_any (str_contains re false strs))
         else ret false
     | None => ret false
     end) ;;
  when forbidden
    (warn (repr_name (name v) ++ ": match(es) for " ++ dquote
           ++ "non-matching regular expression" ++ dquote ++ " ("
           ++ repr_str (match non_matching_regex with Some re => re | None => "" end)
           ++ ")")) ;;
  when (match whitelist with
        | Some wl => negb (mask_all (isin (dropna (items v)) wl))
        | None => false
        end)
    (warn (repr_name (name v) ++ ": Value(s) not in whitelist")) ;;
  when (match blacklist with
        | Some bl => mask_any (isin (dropna (items v)) bl)
        | None => false
        end)
    (warn (repr_name (name v) ++ ": Value(s) in blacklist")) ;;
  if return_values then ret (Some validated) else ret None.

End Validation.

(** ** A reference instance of the external collaborators

    A small stand-in for pandas and Python on which the functions above
    can be run: decimal integer strings parse as numbers (and, for dates,
    as nanoseconds since the epoch), other strings are refused with
    [ValueError], and objects that are neither strings nor numbers with
    [TypeError], which is what the pandas parsers do on such input. *)

Definition is_digit (a : ascii) : bool :=
  let n := nat_of_ascii a in (Nat.leb 48 n && Nat.leb n 57)%bool.

Fixpoint parse_digits (acc : Z) (s : string) : option Z :=
  match s with
  | EmptyString => Some acc
  | String a rest =>
      if is_digit a
      then parse_digits (10 * acc + Z.of_nat (nat_of_ascii a - 48))%Z rest
      else None
  end.

Definition parse_decimal (s : string) : option Z :=
  match s with
  | EmptyString => None
  | String "-" rest =>
      match rest with
      | EmptyString => None
      | _ => option_map Z.opp (parse_digits 0%Z rest)
      end
  | _ => parse_digits 0%Z s
  end.

Definition ref_numeric (v : value) : outcome (option Q) :=
  match v with
  | VNone | VNaN | VNaT => Returned None
  | VBool b => Returned (Some (if b then 1%Q else 0%Q))
  | VNum q => Returned (Some q)
  | VStr s =>
      match parse_decimal s with
      | Some z => Returned (Some (inject_Z z))
      | None => Raised ValueError ("Unable to parse string " ++ repr_str s)
      end
  | VComplex _ _ | VTime _ | VObj _ => Raised TypeError "Invalid object type"
  end.

Definition ref_datetime (o : dt_options) (v : value) : outcome (option Z) :=
  match v with
  | VNone | VNaN | VNaT => Returned None
  | VTime t => Returned (Some t)
  | VNum q => Returned (Some (py_int q))
  | VStr s =>
      match parse_decimal s with
      | Some z => Returned (Some z)
      | None => Raised ValueError ("Unknown string format: " ++ s)
      end
  | VBool _ | VComplex _ _ | VObj _ =>
      Raised TypeError "object is not convertible to datetime"
  end.

Definition ref_percent_format (fmt : string) (v : value) : outcome string :=
  match v with
  | VNum q =>
      if Pos.eqb (Qden q) 1 then Returned (str_of_Z (Qnum q))
      else Returned (str_of_Z (Qnum q) ++ "/" ++ str_of_Z (Zpos (Qden q)))%string
  | VBool b => Returned (if b then "1" else "0")
  | VComplex _ _ => Raised TypeError "must be real number, not complex"
  | _ => Raised TypeError "must be real number"
  end.

Definition ref_strftime (fmt : string) (t : Z) : outcome string :=
  Returned (str_of_Z t).

Definition ref_str (v : value) : string :=
  match v with
  | VNone => "None"
  | VNaN => "nan"
  | VNaT => "NaT"
  | VBool b => if b then "True" else "False"
  | VNum q =>
      if Pos.eqb (Qden q) 1 then str_of_Z (Qnum q)
      else (str_of_Z (Qnum q) ++ "/" ++ str_of_Z (Zpos (Qden q)))%string
  | VComplex _ _ => "(complex)"
  | VStr s => s
  | VTime t => str_of_Z t
  | VObj _ => "<object>"
  end.

Definition is_space (a : ascii) : bool :=
  let n := nat_of_ascii a in
  (Nat.eqb n 32 || (Nat.leb 9 n && Nat.leb n 13))%bool.

Fixpoint string_exists (p : ascii -> bool) (s : string) : bool :=
  match s with
  | EmptyString => false
  | String a rest => p a || string_exists p rest
  end.

Fixpoint last_char (s : string) : option ascii :=
  match s with
  | EmptyString => None
  | String a EmptyString => Some a
  | String _ rest => last_char rest
  end.

(** [needle] occurs in [s]. *)
Fixpoint occurs_in (needle s : string) : bool :=
  String.prefix needle s
  || match s with
     | EmptyString => false
     | String _ rest => occurs_in needle rest
     end.

Definition ref_re_search (pat s : string) : bool :=
  if String.eqb pat "\s" then string_exists is_space s
  else if String.eqb pat "^\s|\s$" then
    match s with
    | EmptyString => false
    | String a _ =>
        is_space a || match last_char s with Some z => is_space z | None => false end
    end
  else occurs_in pat s.

Definition is_upper (a : ascii) : bool :=
  let n := nat_of_ascii a in (Nat.leb 65 n && Nat.leb n 90)%bool.
Definition is_lower (a : ascii) : bool :=
  let n := nat_of_ascii a in (Nat.leb 97 n && Nat.leb n 122)%bool.

Definition ref_str_is (method : string) : option (string -> bool) :=
  if String.eqb method "islower" then
    Some (fun s => string_exists is_lower s && negb (string_exists is_upper s))
  else if String.eqb method "isupper" then
    Some (fun s => string_exists is_upper s && negb (string_exists is_lower s))
  else None.

Definition reference : external :=
  mkExternal ref_numeric ref_datetime ref_percent_format ref_strftime
    ref_str ref_re_search ref_str_is.

(** Running a computation from a store that holds the given objects and
    an empty warning log. *)
Definition run {A} (m : M A) (objects : list series) : outcome A * state :=
  m (mkState objects []).

(** ** Vocabulary of the statements *)

(** The column the validators work on after their first step: the lenient
    coercion of [s], or [s] itself when it already has the target dtype. *)
Definition coerced_numeric (E : external) (s : series) : series :=
  if negb (dtype_is_number (dtype_of s))
  then mkSeries (name s) DNumber (col_apply (numeric_lenient E) (items s))
  else s.

Definition coerced_datetime (E : external) (s : series) : series :=
  if negb (dtype_is_datetime64 (dtype_of s))
  then mkSeries (name s) DDatetime
         (col_apply (datetime_lenient E dt_defaults) (items s))
  else s.

(** A mask [m] marks the nonconvertible entries of [s] for the lenient
    coercion [lenient]: same index, and an entry is true exactly when the
    value is non-missing and its coercion is missing. *)
Definition marks_nonconvertible (lenient : value -> value) (s : series)
    (m : column bool) : Prop :=
  index m = index (items s) /\
  forall i l v, nth_error (items s) i = Some (l, v) ->
    exists b, nth_error m i = Some (l, b) /\
      (b = true <-> isnull_value v = false /\ isnull_value (lenient v) = true).

(** The fragments of the checks whose mask has a true entry, in the
    order in which the masks were entered. *)
Definition triggered_fragments (error_info : list (string * string))
    (masks : list (string * column bool)) : list string :=
  flat_map
    (fun kv =>
       if mask_any (snd kv) then
         match dict_get (fst kv) error_info with
         | Some m => [m]
         | None => []
         end
       else [])
    masks.

(** The notification made of a list of fragments: none for no fragment,
    otherwise the single message [<name>: f1; f2; ... .] *)
Definition notification (n : option string) (msg_list : list string)
  : list string :=
  match msg_list with
  | [] => []
  | _ => [(repr_name n ++ ": " ++ String.concat "; " msg_list ++ ".")%string]
  end.

(** [l1] is a subsequence of [l2]: some entries dropped, order kept. *)
Inductive subseq {A} : list A -> list A -> Prop :=
| subseq_nil : subseq [] []
| subseq_skip x l1 l2 : subseq l1 l2 -> subseq l1 (x :: l2)
| subseq_take x l1 l2 : subseq l1 l2 -> subseq (x :: l1) (x :: l2).

(** The twelve notifications [validate_string] can issue, in the order of
    its checks. *)
Definition string_notifications (n : option string)
    (min_length max_length : option Z) (case : option string)
    (matching_regex non_matching_regex : option string) : list string :=
  [ (repr_name n ++ ": NaN value(s)")%string;
    (repr_name n ++ ": duplicates")%string;
    (repr_name n ++ ": string(s) too short (< "
      ++ str_of_Z (match min_length with Some k => k | None => 0%Z end)
      ++ " characters)")%string;
    (repr_name n ++ ": string(s) too long (> "
      ++ str_of_Z (match max_length with Some k => k | None => 0%Z end)
      ++ " characters)")%string;
    (repr_name n ++ ": wrong case letter(s) (non-"
      ++ (match case with Some cs => cs | None => "" end) ++ "case)")%string;
    (repr_name n ++ ": newline character(s)")%string;
    (repr_name n ++ ": trailing whitespace")%string;
    (repr_name n ++ ": whitespace")%string;
    (repr_name n ++ ": mismatch(es) for " ++ dquote
      ++ "matching regular expression" ++ dquote ++ " ("
      ++ repr_str (match matching_regex with Some re => re | None => "" end)
      ++ ")")%string;
    (repr_name n ++ ": match(es) for " ++ dquote
      ++ "non-matching regular expression" ++ dquote ++ " ("
      ++ repr_str (match non_matching_regex with Some re => re | None => "" end)
      ++ ")")%string;
    (repr_name n ++ ": Value(s) not in whitelist")%string;
    (repr_name n ++ ": Value(s) in blacklist")%string ].

(** A computation that leaves the store alone and whose warnings,
    whatever its outcome, are a subsequence of [cands] appended to the
    log. *)
Definition emits {A} (cands : list string) (m : M A) : Prop :=
  forall st, exists msgs,
    heap (snd (m st)) = heap st /\
    log (snd (m st)) = log st ++ msgs /\
    subseq msgs cands.

(** A computation whose result, when it returns one, satisfies [P]. *)
Definition returns_only {A} (P : A -> Prop) (m : M A) : Prop :=
  forall st a, fst (m st) = Returned a -> P a.

(** A reference that did not exist in [st] and does in [st']: the object
    behind it was created in between. *)
Definition created_between (st st' : state) (r : ref) : Prop :=
  List.length (heap st) <= r < List.length (heap st').

(** Every object of [st] is still there in [st'], unchanged. *)
Definition store_preserved (st st' : state) : Prop :=
  exists ext, heap st' = heap st ++ ext.

(** A computation that only adds objects to the store. *)
Definition grows_store {A} (m : M A) : Prop :=
  forall st, store_preserved st (snd (m st)).

(** The row-wise OR of a collection of masks at a label: true when some
    mask has a true entry for it; a mask without an entry counts as false. *)
Definition row_any (masks : list (string * column bool)) (l : label) : bool :=
  existsb (fun kv => cell_true (lookup l (snd kv))) masks.

(** The masks of a validator on a column with index [idx]: the first one
    covers the index, the others carry distinct labels taken from it. *)
Definition well_indexed (idx : list label) (masks : list (string * column bool))
  : Prop :=
  match masks with
  | [] => False
  | kv :: rest =>
      index (snd kv) = idx /\
      Forall (fun kv' => NoDup (index (snd kv')) /\ incl (index (snd kv')) idx) rest
  end.

(** The coerced column with the missing marker written at every label
    where the row-wise OR of the masks is true. *)
Definition masked_values (masks : list (string * column bool)) (c : series)
  : series :=
  mkSeries (name c) (dtype_of c)
    (map (fun kv =>
            (fst kv,
             if row_any masks (fst kv) then na_of (dtype_of c) else snd kv))
       (items c)).

(** The names [return_type] may take. *)
Definition recognized_return_type (rt : string) : bool :=
  String.eqb rt "mask_frame" || String.eqb rt "mask_series"
  || String.eqb rt "values".

(** What [to_string] makes of one value, given the strings the two
    formatters produce. *)
Definition rendered (E : external) (float_format datetime_format : string)
    (v w : value) : Prop :=
  match v with
  | VNone | VNaN | VNaT => w = VNaN
  | VTime t => exists x, strftime E datetime_format t = Returned x /\ w = VStr x
  | VNum _ | VComplex _ _ =>
      exists x, percent_format E float_format v = Returned x /\ w = VStr x
  | VStr x => w = VStr x
  | VBool _ | VObj _ => w = VStr (py_str E v)
  end.

(** The formatters accept every value of the column they are applied to. *)
Definition formattable (E : external) (float_format datetime_format : string)
    (c : column value) : Prop :=
  forall l v, In (l, v) c ->
    match v with
    | VTime t => exists x, strftime E datetime_format t = Returned x
    | VNum _ | VComplex _ _ =>
        exists x, percent_format E float_format v = Returned x
    | _ => True
    end.

(** A numeric (datetime) column holds numbers (timestamps) and the
    missing marker only. *)
Definition numeric_column (s : series) : Prop :=
  dtype_of s = DNumber /\
  forall l v, In (l, v) (items s) -> v = VNaN \/ exists q, v = VNum q.

Definition datetime_column (s : series) : Prop :=
  dtype_of s = DDatetime /\
  forall l v, In (l, v) (items s) -> v = VNaT \/ exists t, v = VTime t.

(** One element after a formatting helper: formatted when the helper's
    mask selects it, unchanged otherwise. *)
Definition render_with (p : value -> bool) (f : value -> outcome value)
    (v : value) : value :=
  if p v then match f v with Returned w => w | Raised _ _ => v end else v.

Definition numeric_selected (v : value) : bool :=
  issubdtype_number v && notnull_value v.

(** One element through [to_string]: the numeric helper, the datetime
    helper, [astype(str)], and the final [where] on the missing entries. *)
Definition to_string_value (E : external) (float_format datetime_format : string)
    (v : value) : value :=
  if notnull_value v then
    astype_str E
      (render_with type_is_datetime (datetime_formatter E datetime_format)
         (render_with numeric_selected (numeric_formatter E float_format) v))
  else VNaN.

(** ** Example columns *)

(** The column ["1", "2", "x", None]. *)
Definition column_1_2_x_None : series :=
  mkSeries None DObject
    [(0%Z, VStr "1"); (1%Z, VStr "2"); (2%Z, VStr "x"); (3%Z, VNone)].

(** The numeric column [-1]. *)
Definition column_minus_1 : series :=
  mkSeries None DNumber [(0%Z, VNum (-1))].

(** The numeric column [1.0, 2.5, nan]. *)
Definition column_1_2half_nan : series :=
  mkSeries (Some "x") DNumber
    [(0%Z, VNum 1); (1%Z, VNum (5 # 2)); (2%Z, VNaN)].

(** The datetime column [t=10, NaT]. *)
Definition column_t10_NaT : series :=
  mkSeries (Some "when") DDatetime [(0%Z, VTime 10); (1%Z, VNaT)].

(** The string column ["a", "a", None], named [a]. *)
Definition column_a_a_None : series :=
  mkSeries (Some "a") DObject
    [(0%Z, VStr "a"); (1%Z, VStr "a"); (2%Z, VNone)].

(** An object column holding a complex number and a string. *)
Definition column_complex : series :=
  mkSeries None DObject [(0%Z, VComplex 1 2); (1%Z, VStr "a")].

(** An object column holding a dictionary. *)
Definition column_dict : series :=
  mkSeries None DObject [(0%Z, VObj 0)].

(** A mixed object column. *)
Definition column_mixed : series :=
  mkSeries (Some "m") DObject
    [(0%Z, VNum 3); (1%Z, VTime 5); (2%Z, VStr "x"); (3%Z, VNone);
     (4%Z, VBool true)].

(** ** Vocabulary of the further statements *)

(** The key of the first mask with a true entry that has no fragment in
    [error_info], if there is one. *)
Fixpoint first_unknown_key (error_info : list (string * string))
    (masks : list (string * column bool)) : option string :=
  match masks with
  | [] => None
  | kv :: rest =>
      if mask_any (snd kv) then
        match dict_get (fst kv) error_info with
        | None => Some (fst kv)
        | Some _ => first_unknown_key error_info rest
        end
      else first_unknown_key error_info rest
  end.

(** Every non-missing value of the column is a string. *)
Definition strings_or_missing (c : column value) : Prop :=
  forall l v, In (l, v) c -> isnull_value v = true \/ exists x, v = VStr x.

(** A value with every kind of missing marker turned into NaN. *)
Definition missing_as_nan (v : value) : value :=
  if notnull_value v then v else VNaN.

(** [out] holds, position by position and under the same labels, a
    string where [c] holds a non-missing value and a missing marker where
    [c] holds one. *)
Definition stringified (c out : column value) : Prop :=
  index out = index c /\
  forall i l v, nth_error c i = Some (l, v) ->
    exists w, nth_error out i = Some (l, w) /\
      (isnull_value v = true -> isnull_value w = true) /\
      (isnull_value v = false -> exists x, w = VStr x).

(** The notification for a nonconvertible mask alone. *)
Definition nonconvertible_notification (n : option string) (m : column bool)
  : list string :=
  if mask_any m
  then [(repr_name n ++ ": Value(s) not converted to datetime set as NaT.")%string]
  else [].

(** Some string of the column has fewer (more) than [n] characters. *)
Definition some_shorter (n : Z) (c : column value) : bool :=
  existsb (fun kv => match snd kv with
                     | VStr x => Z.ltb (Z.of_nat (String.length x)) n
                     | _ => false
                     end) c.

Definition some_longer (n : Z) (c : column value) : bool :=
  existsb (fun kv => match snd kv with
                     | VStr x => Z.ltb n (Z.of_nat (String.length x))
                     | _ => false
                     end) c.

(** Some non-missing value of the column is not in (is in) the list. *)
Definition outside_list (wl : list value) (c : column value) : bool :=
  existsb (fun kv => notnull_value (snd kv)
                     && negb (existsb (value_eqb (snd kv)) wl)) c.

Definition inside_list (bl : list value) (c : column value) : bool :=
  existsb (fun kv => notnull_value (snd kv)
                     && existsb (value_eqb (snd kv)) bl) c.

(** * Properties *)

(** ** Stepping through the store *)

Lemma nth_error_snoc_old {A} (h : list A) (x : A) (r : nat) (a : A) :
  nth_error h r = Some a -> nth_error (h ++ [x]) r = Some a.
Proof.
  intros H. rewrite nth_error_app1; [exact H|].
  apply nth_error_Some. congruence.
Qed.

Lemma nth_error_app_old {A} (h ext : list A) (r : nat) (a : A) :
  nth_error h r = Some a -> nth_error (h ++ ext) r = Some a.
Proof.
  intros H. rewrite nth_error_app1; [exact H|].
  apply nth_error_Some. congruence.
Qed.

Lemma nth_error_snoc_new {A} (h : list A) (x : A) :
  nth_error (h ++ [x]) (List.length h) = Some x.
Proof.
  rewrite nth_error_app2 by lia. now rewrite Nat.sub_diag.
Qed.

Lemma load_ok (r : ref) (s : series) (st : state) :
  nth_error (heap st) r = Some s -> load r st = (Returned s, st).
Proof. intros H. unfold load. now rewrite H. Qed.

Lemma bind_ok {A B} (m : M A) (k : A -> M B) st a st' :
  m st = (Returned a, st') -> bind m k st = k a st'.
Proof. intros H. unfold bind. now rewrite H. Qed.

Lemma bind_raised {A B} (m : M A) (k : A -> M B) st e msg st' :
  m st = (Raised e msg, st') -> bind m k st = (Raised e msg, st').
Proof. intros H. unfold bind. now rewrite H. Qed.

(** Finding an object in a store that has grown by allocations. *)
Ltac find_object :=
  cbn [heap];
  first [ eassumption
        | apply nth_error_snoc_new
        | apply nth_error_snoc_old; find_object ].

(** One statement of a [;;] sequence, run with a known outcome. *)
Ltac step tac := (erewrite bind_ok by tac); cbv beta.

Lemma copy_ok (r : ref) (s : series) (st : state) :
  nth_error (heap st) r = Some s ->
  copy r st = (Returned (List.length (heap st)),
               mkState (heap st ++ [s]) (log st)).
Proof. intros H. unfold copy, bind. now rewrite (load_ok _ _ _ H). Qed.

Lemma index_col_apply {A B} (f : A -> B) (c : column A) :
  index (col_apply f c) = index c.
Proof.
  unfold index, col_apply. rewrite map_map. reflexivity.
Qed.

Lemma nth_error_col_apply {A B} (f : A -> B) (c : column A) i l v :
  nth_error c i = Some (l, v) ->
  nth_error (col_apply f c) i = Some (l, f v).
Proof.
  intros H. unfold col_apply. rewrite nth_error_map, H. reflexivity.
Qed.

(** The mask [notnull(c) & isnull(col_apply g c)], entry by entry. *)
Lemma nonconvertible_mask_entries (g : value -> value) (c : column value) :
  mask_and (notnull c) (isnull (col_apply g c))
  = col_apply (fun v => notnull_value v && isnull_value (g v)) c.
Proof.
  unfold mask_and, notnull, isnull, col_apply.
  induction c as [|[l v] c IH]; simpl; [reflexivity|].
  now rewrite IH.
Qed.

Section Properties.

Variable E : external.

Lemma coerce_series_coerce d strict lenient (r : ref) (s : series) (st : state) :
  nth_error (heap st) r = Some s ->
  coerce_series d strict lenient errors_coerce r st
  = (Returned (List.length (heap st)),
     mkState (heap st ++ [mkSeries (name s) d (col_apply lenient (items s))])
       (log st)).
Proof.
  intros H. unfold coerce_series, bind. now rewrite (load_ok _ _ _ H).
Qed.

Lemma marks_nonconvertible_entries lenient s :
  marks_nonconvertible lenient s
    (col_apply (fun v => notnull_value v && isnull_value (lenient v)) (items s)).
Proof.
  split; [apply index_col_apply|].
  intros i l v H. eexists. split; [apply nth_error_col_apply, H|].
  unfold notnull_value. rewrite andb_true_iff, negb_true_iff. tauto.
Qed.

(** C1: for a target type in numeric, datetime, [mask_nonconvertible]
    returns a mask on the index of the column whose entry at a position is
    true exactly when the value there is non-missing and its lenient
    coercion is missing; any other target type raises [ValueError]. *)
Theorem mask_nonconvertible_spec (r : ref) (s : series) (st : state)
    (datetime_format : option string) (exact_date : bool) :
  nth_error (heap st) r = Some s ->
  (exists m st',
      mask_nonconvertible E r "numeric" datetime_format exact_date st
      = (Returned m, st') /\
      marks_nonconvertible (numeric_lenient E) s m) /\
  (exists m st',
      mask_nonconvertible E r "datetime" datetime_format exact_date st
      = (Returned m, st') /\
      marks_nonconvertible
        (datetime_lenient E
           (mkDtOptions false false None true datetime_format exact_date)) s m) /\
  (forall to_datatype,
      to_datatype <> "numeric" -> to_datatype <> "datetime" ->
      exists msg,
        mask_nonconvertible E r to_datatype datetime_format exact_date st
        = (Raised ValueError msg, st)).
Proof.
  intros H.
  assert (Hrun : forall d strict lenient (first : M ref),
             first st = coerce_series d strict lenient errors_coerce r st ->
             exists st',
               (converted <- first ;;
                series_copy <- copy r ;;
                sc <- load series_copy ;;
                conv <- load converted ;;
                ret (mask_and (notnull (items sc)) (isnull (items conv)))) st
               = (Returned
                    (col_apply
                       (fun v => notnull_value v && isnull_value (lenient v))
                       (items s)), st')).
  { intros d strict lenient first Hfirst.
    rewrite (coerce_series_coerce _ _ _ _ _ _ H) in Hfirst.
    step ltac:(exact Hfirst).
    step ltac:(apply copy_ok; find_object).
    step ltac:(apply load_ok; find_object).
    step ltac:(apply load_ok; find_object).
    cbn [items]. rewrite nonconvertible_mask_entries.
    eexists. reflexivity. }
  repeat split.
  - destruct (Hrun DNumber (numeric_strict E) (numeric_lenient E)
                (pandas_to_numeric_series E r errors_coerce) eq_refl)
      as [st' Hst'].
    exists (col_apply
              (fun v => notnull_value v && isnull_value (numeric_lenient E v))
              (items s)), st'.
    split; [exact Hst' | apply marks_nonconvertible_entries].
  - set (o := mkDtOptions false false None true datetime_format exact_date).
    destruct (Hrun DDatetime (datetime_strict E o) (datetime_lenient E o)
                (pandas_to_datetime_series E r errors_coerce o) eq_refl)
      as [st' Hst'].
    exists (col_apply
              (fun v => notnull_value v && isnull_value (datetime_lenient E o v))
              (items s)), st'.
    split; [exact Hst' | apply marks_nonconvertible_entries].
  - intros to_datatype Hn Hd.
    unfold mask_nonconvertible.
    apply String.eqb_neq in Hn, Hd. rewrite Hn, Hd.
    eexists. apply bind_raised. reflexivity.
Qed.


(** ** The message list and the single notification *)

Lemma get_error_messages_from (error_info : list (string * string))
    (masks : list (string * column bool)) (acc : list string) :
  Forall (fun kv => dict_get (fst kv) error_info <> None) masks ->
  fold_left
    (fun acc kv =>
       match acc with
       | Raised k msg => Raised k msg
       | Returned msg_list =>
           if mask_any (snd kv) then
             match dict_get (fst kv) error_info with
             | Some m => Returned (msg_list ++ [m])
             | None => Raised KeyError (fst kv)
             end
           else Returned msg_list
       end)
    masks (Returned acc)
  = Returned (acc ++ triggered_fragments error_info masks).
Proof.
  intros Hkeys. revert acc.
  induction Hkeys as [|kv masks Hkv _ IH]; intros acc; simpl.
  - now rewrite app_nil_r.
  - destruct (mask_any (snd kv)).
    + destruct (dict_get (fst kv) error_info) as [m|]; [|congruence].
      rewrite IH. now rewrite <- app_assoc.
    + apply IH.
Qed.

Lemma get_error_messages_triggered error_info masks :
  Forall (fun kv => dict_get (fst kv) error_info <> None) masks ->
  _get_error_messages masks error_info
  = Returned (triggered_fragments error_info masks).
Proof.
  intros Hkeys. unfold _get_error_messages.
  now rewrite get_error_messages_from.
Qed.

Lemma warn_messages_run (n : option string) (msg_list : list string) st :
  warn_messages n msg_list st
  = (Returned tt, mkState (heap st) (log st ++ notification n msg_list)).
Proof.
  unfold warn_messages, when, notification.
  destruct msg_list as [|m rest]; simpl.
  - unfold ret. rewrite app_nil_r. now destruct st.
  - reflexivity.
Qed.

Lemma notification_at_most_one n msg_list :
  List.length (notification n msg_list) <= 1.
Proof. destruct msg_list; simpl; lia. Qed.

Ltac known_key := cbn [fst]; vm_compute; discriminate.

Lemma numeric_masks_keys s c nullable unique integer min_value max_value :
  Forall (fun kv => dict_get (fst kv) numeric_error_info <> None)
    (numeric_masks s c nullable unique integer min_value max_value).
Proof.
  unfold numeric_masks.
  destruct nullable, unique, integer, min_value as [lo|], max_value as [hi|];
    try destruct (truthy_num (Some lo)); try destruct (truthy_num (Some hi));
    cbn [negb app]; repeat (constructor; [known_key|]); constructor.
Qed.

Lemma datetime_masks_keys s c nullable unique min_datetime max_datetime masks :
  datetime_masks E s c nullable unique min_datetime max_datetime = Returned masks ->
  Forall (fun kv => dict_get (fst kv) datetime_error_info <> None) masks.
Proof.
  unfold datetime_masks, outcome_bind.
  destruct nullable, unique, min_datetime as [lo|], max_datetime as [hi|];
    try destruct (truthy_str (Some lo)); try destruct (truthy_str (Some hi));
    try destruct (parse_bound E lo); try destruct (parse_bound E hi);
    cbn [negb app]; intros Hm; inversion Hm; subst;
    repeat (constructor; [known_key|]); constructor.
Qed.

(** The validators up to their return statement. *)
Lemma validate_numeric_run (r : ref) (s : series) (st : state)
    nullable unique integer min_value max_value return_type :
  nth_error (heap st) r = Some s ->
  validate_numeric E r nullable unique integer min_value max_value return_type st
  = return_view (List.length (heap st))
      (numeric_masks s (coerced_numeric E s) nullable unique integer
         min_value max_value)
      return_type
      (mkState (heap st ++ [coerced_numeric E s])
         (log st ++
            notification (name s)
              (triggered_fragments numeric_error_info
                 (numeric_masks s (coerced_numeric E s) nullable unique integer
                    min_value max_value)))).
Proof.
  intros H. unfold validate_numeric.
  step ltac:(apply load_ok; find_object).
  assert (Hc : (if negb (dtype_is_number (dtype_of s))
                then pandas_to_numeric_series E r errors_coerce
                else copy r) st
               = (Returned (List.length (heap st)),
                  mkState (heap st ++ [coerced_numeric E s]) (log st))).
  { unfold coerced_numeric. destruct (negb (dtype_is_number (dtype_of s))).
    - now apply coerce_series_coerce.
    - now apply copy_ok. }
  step ltac:(exact Hc).
  step ltac:(apply load_ok; find_object).
  rewrite get_error_messages_triggered by apply numeric_masks_keys.
  step ltac:(reflexivity).
  step ltac:(apply warn_messages_run).
  reflexivity.
Qed.

Lemma validate_datetime_run (r : ref) (s : series) (st : state)
    nullable unique min_datetime max_datetime return_type :
  nth_error (heap st) r = Some s ->
  validate_datetime E r nullable unique min_datetime max_datetime return_type st
  = match datetime_masks E s (coerced_datetime E s) nullable unique
            min_datetime max_datetime with
    | Returned masks =>
        return_view (List.length (heap st)) masks return_type
          (mkState (heap st ++ [coerced_datetime E s])
             (log st ++
                notification (name s)
                  (triggered_fragments datetime_error_info masks)))
    | Raised k msg =>
        (Raised k msg, mkState (heap st ++ [coerced_datetime E s]) (log st))
    end.
Proof.
  intros H. unfold validate_datetime.
  step ltac:(apply load_ok; find_object).
  assert (Hc : (if negb (dtype_is_datetime64 (dtype_of s))
                then pandas_to_datetime_series E r errors_coerce dt_defaults
                else copy r) st
               = (Returned (List.length (heap st)),
                  mkState (heap st ++ [coerced_datetime E s]) (log st))).
  { unfold coerced_datetime. destruct (negb (dtype_is_datetime64 (dtype_of s))).
    - now apply coerce_series_coerce.
    - now apply copy_ok. }
  step ltac:(exact Hc).
  step ltac:(apply load_ok; find_object).
  destruct (datetime_masks E s (coerced_datetime E s) nullable unique
              min_datetime max_datetime) as [masks|k msg] eqn:Hm.
  - step ltac:(reflexivity).
    rewrite get_error_messages_triggered by (eapply datetime_masks_keys, Hm).
    step ltac:(reflexivity).
    step ltac:(apply warn_messages_run).
    reflexivity.
  - apply bind_raised. reflexivity.
Qed.


(** ** The formatting helpers *)

Lemma mask_and_col_apply {A} (p q : A -> bool) (c : column A) :
  mask_and (col_apply p c) (col_apply q c) = col_apply (fun v => p v && q v) c.
Proof.
  unfold mask_and, col_apply.
  induction c as [|[l v] c IH]; simpl; [reflexivity|]. now rewrite IH.
Qed.

Lemma select_col_apply (p : value -> bool) (c : column value) :
  select c (col_apply p c) = filter (fun kv => p (snd kv)) c.
Proof.
  unfold select, col_apply.
  induction c as [|[l v] c IH]; simpl; [reflexivity|].
  destruct (p v); simpl; now rewrite IH.
Qed.

Lemma mask_any_col_apply (p : value -> bool) (c : column value) :
  mask_any (col_apply p c) = existsb (fun kv => p (snd kv)) c.
Proof.
  unfold mask_any, col_apply.
  induction c as [|[l v] c IH]; simpl; [reflexivity|]. now rewrite IH.
Qed.

Lemma where_series_self (p : value -> bool) (c : column value) :
  where_series c (col_apply p c) c = c.
Proof.
  unfold where_series, col_apply.
  induction c as [|[l v] c IH]; simpl; [reflexivity|].
  rewrite IH. now destruct (p v).
Qed.

Lemma render_with_unselected p f (c : column value) :
  existsb (fun kv => p (snd kv)) c = false ->
  col_apply (render_with p f) c = c.
Proof.
  unfold col_apply, render_with.
  induction c as [|[l v] c IH]; simpl; [reflexivity|].
  intros H. apply orb_false_iff in H as [Hv Hc].
  rewrite Hv, (IH Hc). reflexivity.
Qed.

(** The in-place assignment followed by [where]: selected entries carry
    the formatted value, the others the original one. *)
Lemma setitem_then_where p f (c : column value) (strs : column value) :
  apply_raising f (filter (fun kv => p (snd kv)) c) = Returned strs ->
  where_series (setitem_mask c (values (col_apply p c)) (values strs))
    (col_apply p c) c
  = col_apply (render_with p f) c.
Proof.
  revert strs.
  induction c as [|[l v] c IH]; intros strs H; [reflexivity|].
  unfold where_series, render_with in *. simpl in *.
  destruct (p v) eqn:Hp; simpl in *.
  - destruct (f v) as [w|k msg]; [|discriminate].
    destruct (apply_raising f (filter (fun kv => p (snd kv)) c)) as [ys|k msg];
      [|discriminate].
    inversion H; subst. simpl.
    f_equal. apply (IH ys eq_refl).
  - f_equal. apply (IH strs H).
Qed.

Lemma apply_raising_nil_unselected {B} (f : value -> outcome B) p (c : column value) :
  existsb (fun kv => p (snd kv)) c = false ->
  apply_raising f (filter (fun kv => p (snd kv)) c) = Returned [].
Proof.
  induction c as [|[l v] c IH]; simpl; [reflexivity|].
  intros H. apply orb_false_iff in H as [Hv Hc]. simpl in Hv.
  rewrite Hv. now apply IH.
Qed.

Lemma replace_nth_snoc {A} (h : list A) (x y : A) :
  replace_nth (List.length h) y (h ++ [x]) = h ++ [y].
Proof. induction h as [|a h IH]; simpl; [reflexivity|]. now rewrite IH. Qed.

Lemma store_fresh (h : list series) (x y : series) (lg : list string) :
  store (List.length h) y (mkState (h ++ [x]) lg)
  = (Returned tt, mkState (h ++ [y]) lg).
Proof. unfold store. cbn [heap log]. now rewrite replace_nth_snoc. Qed.


Lemma lift_run {A} (o : outcome A) st : lift o st = (o, st).
Proof. reflexivity. Qed.

(** The three ways through a formatting helper: the selected values are
    formatted and assigned in place, a formatter raises, or nothing is
    selected. *)
Ltac helper_formats s strs Hf :=
  eexists (mkSeries (name s) DObject (setitem_mask (items s) _ (values strs)));
  erewrite bind_ok;
  [ | step ltac:(apply load_ok; find_object);
      rewrite select_col_apply, Hf;
      step ltac:(apply lift_run);
      step ltac:(apply load_ok; find_object);
      apply store_fresh ];
  cbv beta;
  step ltac:(apply load_ok; find_object);
  step ltac:(apply load_ok; find_object);
  cbn [name dtype_of items];
  rewrite (setitem_then_where _ _ _ _ Hf);
  unfold alloc; cbn [heap log]; rewrite length_app, <- app_assoc;
  cbn [List.length app]; rewrite Nat.add_1_r; reflexivity.

Ltac helper_raises s Hf :=
  exists s; apply bind_raised;
  step ltac:(apply load_ok; find_object);
  rewrite select_col_apply, Hf;
  apply bind_raised; reflexivity.

Ltac helper_skips s Hany :=
  exists s;
  rewrite (apply_raising_nil_unselected _ _ _ Hany);
  step ltac:(reflexivity);
  step ltac:(apply load_ok; find_object);
  step ltac:(apply load_ok; find_object);
  rewrite where_series_self, (render_with_unselected _ _ _ Hany);
  unfold alloc; cbn [heap log]; rewrite length_app, <- app_assoc;
  cbn [List.length app]; rewrite Nat.add_1_r; now destruct s.

Lemma numeric_to_string_run (r : ref) (s : series) (st : state) (fmt : string) :
  nth_error (heap st) r = Some s ->
  exists c',
    _numeric_to_string E r fmt st
    = match apply_raising (numeric_formatter E fmt)
              (filter (fun kv => numeric_selected (snd kv)) (items s)) with
      | Returned _ =>
          (Returned (S (List.length (heap st))),
           mkState
             (heap st ++
                [c'; mkSeries (name s) (dtype_of c')
                       (col_apply
                          (render_with numeric_selected (numeric_formatter E fmt))
                          (items s))])
             (log st))
      | Raised k msg => (Raised k msg, mkState (heap st ++ [c']) (log st))
      end.
Proof.
  intros H. unfold _numeric_to_string.
  step ltac:(apply copy_ok; find_object).
  step ltac:(apply load_ok; find_object).
  unfold notnull. rewrite mask_and_col_apply.
  change (fun v : value => issubdtype_number v && notnull_value v) with numeric_selected.
  rewrite mask_any_col_apply.
  destruct (existsb (fun kv => numeric_selected (snd kv)) (items s)) eqn:Hany.
  - destruct (apply_raising (numeric_formatter E fmt)
                (filter (fun kv => numeric_selected (snd kv)) (items s)))
      as [strs|k msg] eqn:Hf.
    + helper_formats s strs Hf.
    + helper_raises s Hf.
  - helper_skips s Hany.
Qed.

Lemma datetime_to_string_run (r : ref) (s : series) (st : state) (fmt : string) :
  nth_error (heap st) r = Some s ->
  exists c',
    _datetime_to_string E r fmt st
    = match apply_raising (datetime_formatter E fmt)
              (filter (fun kv => type_is_datetime (snd kv)) (items s)) with
      | Returned _ =>
          (Returned (S (List.length (heap st))),
           mkState
             (heap st ++
                [c'; mkSeries (name s) (dtype_of c')
                       (col_apply
                          (render_with type_is_datetime (datetime_formatter E fmt))
                          (items s))])
             (log st))
      | Raised k msg => (Raised k msg, mkState (heap st ++ [c']) (log st))
      end.
Proof.
  intros H. unfold _datetime_to_string.
  step ltac:(apply copy_ok; find_object).
  step ltac:(apply load_ok; find_object).
  rewrite mask_any_col_apply.
  destruct (existsb (fun kv => type_is_datetime (snd kv)) (items s)) eqn:Hany.
  - destruct (apply_raising (datetime_formatter E fmt)
                (filter (fun kv => type_is_datetime (snd kv)) (items s)))
      as [strs|k msg] eqn:Hf.
    + helper_formats s strs Hf.
    + helper_raises s Hf.
  - helper_skips s Hany.
Qed.


Lemma index_eqb_refl (a : list label) : index_eqb a a = true.
Proof. unfold index_eqb. destruct (list_eq_dec Z.eq_dec a a); congruence. Qed.

Lemma col_apply_col_apply {A B C} (f : B -> C) (g : A -> B) (c : column A) :
  col_apply f (col_apply g c) = col_apply (fun v => f (g v)) c.
Proof. unfold col_apply. rewrite map_map. reflexivity. Qed.

Lemma where_col_apply (g : value -> value) (q : value -> bool)
    (c : column value) (other : value) :
  where_ (col_apply g c) (col_apply q c) other
  = col_apply (fun v => if q v then g v else other) c.
Proof.
  unfold where_. rewrite !index_col_apply, index_eqb_refl.
  unfold col_apply.
  induction c as [|[l v] c IH]; simpl; [reflexivity|]. now rewrite IH.
Qed.

(** [to_string], statement by statement: it returns a new object that
    holds [to_string_value] of every element, unless a formatter raises;
    the objects already in the store and the log are left as they are. *)
Lemma to_string_run (r : ref) (s : series) (st : state)
    (float_format datetime_format : string) :
  nth_error (heap st) r = Some s ->
  exists ext,
    to_string E r float_format datetime_format st
    = match apply_raising (numeric_formatter E float_format)
              (filter (fun kv => numeric_selected (snd kv)) (items s)) with
      | Raised k msg => (Raised k msg, mkState (heap st ++ ext) (log st))
      | Returned _ =>
          match apply_raising (datetime_formatter E datetime_format)
                  (filter (fun kv => type_is_datetime (snd kv))
                     (col_apply
                        (render_with numeric_selected
                           (numeric_formatter E float_format))
                        (items s))) with
          | Raised k msg => (Raised k msg, mkState (heap st ++ ext) (log st))
          | Returned _ =>
              (Returned (List.length (heap st ++ ext)),
               mkState
                 (heap st ++ ext ++
                    [mkSeries (name s) DObject
                       (col_apply
                          (to_string_value E float_format datetime_format)
                          (items s))])
                 (log st))
          end
      end.
Proof.
  intros H. unfold to_string.
  destruct (numeric_to_string_run r s st float_format H) as [c1 Hnum].
  destruct (apply_raising (numeric_formatter E float_format)
              (filter (fun kv => numeric_selected (snd kv)) (items s)))
    as [strs|k msg].
  - step ltac:(exact Hnum).
    match type of Hnum with
    | _ = (_, mkState (_ ++ [_; ?o]) _) => set (o1 := o) in *
    end.
    destruct (datetime_to_string_run (S (List.length (heap st))) o1
                (mkState (heap st ++ [c1; o1]) (log st)) datetime_format)
      as [c2 Hdt].
    { cbn [heap]. rewrite nth_error_app2 by lia.
      replace (S (List.length (heap st)) - List.length (heap st)) with 1 by lia.
      reflexivity. }
    cbn [items o1] in Hdt.
    destruct (apply_raising (datetime_formatter E datetime_format)
                (filter (fun kv => type_is_datetime (snd kv))
                   (col_apply
                      (render_with numeric_selected
                         (numeric_formatter E float_format))
                      (items s))))
      as [strs2|k msg].
    + step ltac:(exact Hdt).
      cbn [heap log name o1].
      match type of Hdt with
      | _ = (_, mkState (_ ++ [_; ?o]) _) => set (o2 := o) in *
      end.
      step ltac:(apply load_ok; cbn [heap];
                 rewrite nth_error_app2 by lia;
                 replace (S (List.length (heap st ++ [c1; o1]))
                          - List.length (heap st ++ [c1; o1])) with 1 by lia;
                 reflexivity).
      step ltac:(reflexivity).
      step ltac:(apply load_ok; find_object).
      step ltac:(apply load_ok; cbn [heap];
                 rewrite <- !app_assoc; apply nth_error_app_old, H).
      step ltac:(reflexivity).
      exists [c1; o1; c2; o2;
              mkSeries (name s) DObject (col_apply (astype_str E) (items o2))].
      subst o2 o1. unfold ret. cbn [heap log name items].
      rewrite !col_apply_col_apply. unfold notnull. rewrite where_col_apply.
      rewrite <- !app_assoc. cbn [app].
      reflexivity.
    + exists [c1; o1; c2]. erewrite bind_raised; [reflexivity|].
      rewrite Hdt. cbn [heap log]. rewrite <- app_assoc. reflexivity.
  - exists [c1]. apply bind_raised. exact Hnum.
Qed.


(** ** Warnings of a sequence of checks *)

Lemma subseq_nil_l {A} (l : list A) : subseq [] l.
Proof. induction l; constructor; assumption. Qed.

Lemma subseq_refl {A} (l : list A) : subseq l l.
Proof. induction l; constructor; assumption. Qed.

Lemma subseq_app {A} (a b c d : list A) :
  subseq a b -> subseq c d -> subseq (a ++ c) (b ++ d).
Proof.
  intros Hab Hcd. induction Hab; simpl; try (constructor; assumption).
  exact Hcd.
Qed.

Lemma subseq_length {A} (a b : list A) :
  subseq a b -> List.length a <= List.length b.
Proof. induction 1; simpl; lia. Qed.

Lemma emits_ret {A} (a : A) : emits [] (ret a).
Proof.
  intros st. exists []. simpl. rewrite app_nil_r. repeat split. constructor.
Qed.

Lemma emits_raise {A} k msg : emits [] (@raise A k msg).
Proof.
  intros st. exists []. simpl. rewrite app_nil_r. repeat split. constructor.
Qed.

Lemma emits_load r : emits [] (load r).
Proof.
  intros st. exists []. unfold load.
  destruct (nth_error (heap st) r); simpl; rewrite app_nil_r;
    repeat split; constructor.
Qed.

Lemma emits_when_warn (b : bool) (msg : string) : emits [msg] (when b (warn msg)).
Proof.
  intros st. destruct b; simpl.
  - exists [msg]. repeat split. apply subseq_refl.
  - exists []. rewrite app_nil_r. repeat split. apply subseq_nil_l.
Qed.

Lemma emits_bind {A B} c1 c2 (m : M A) (k : A -> M B) :
  emits c1 m -> (forall a, emits c2 (k a)) -> emits (c1 ++ c2) (bind m k).
Proof.
  intros Hm Hk st. unfold bind.
  destruct (Hm st) as (msgs1 & Hh1 & Hl1 & Hs1).
  destruct (m st) as [[a|e msg] st1]; simpl in *.
  - destruct (Hk a st1) as (msgs2 & Hh2 & Hl2 & Hs2).
    exists (msgs1 ++ msgs2). rewrite Hh2, Hl2, Hl1, Hh1, app_assoc.
    repeat split. now apply subseq_app.
  - exists msgs1. repeat split; try assumption.
    rewrite <- (app_nil_r msgs1). apply subseq_app; [assumption|].
    apply subseq_nil_l.
Qed.

Lemma emits_then_quiet {A B} c (m : M A) (k : A -> M B) :
  emits [] m -> (forall a, emits c (k a)) -> emits c (bind m k).
Proof. intros Hm Hk. apply (emits_bind [] c); assumption. Qed.

Lemma emits_then_one {A B} x c (m : M A) (k : A -> M B) :
  emits [x] m -> (forall a, emits c (k a)) -> emits (x :: c) (bind m k).
Proof. intros Hm Hk. apply (emits_bind [x] c); assumption. Qed.

Lemma emits_str_accessor s : emits [] (str_accessor s).
Proof.
  unfold str_accessor. destruct (dtype_is_object (dtype_of s)).
  - apply emits_ret.
  - apply emits_raise.
Qed.

Lemma emits_str_is_case case c : emits [] (str_is_case E case c).
Proof.
  unfold str_is_case. destruct (str_is E ("is" ++ case)).
  - apply emits_ret.
  - apply emits_raise.
Qed.


Lemma returns_only_bind {A B} (P : B -> Prop) (m : M A) (k : A -> M B) :
  (forall a, returns_only P (k a)) -> returns_only P (bind m k).
Proof.
  intros Hk st b. unfold bind.
  destruct (m st) as [[a|e msg] st1]; simpl; [apply Hk | discriminate].
Qed.

Lemma returns_only_ret {A} (P : A -> Prop) (a : A) : P a -> returns_only P (ret a).
Proof. intros Ha st b Hb. simpl in Hb. congruence. Qed.

(** Conditions and checks that touch neither the store nor, beyond their
    own message, the log. *)
Ltac quiet :=
  repeat match goal with
         | |- emits [] (bind _ _) => apply emits_then_quiet; [|intros ?]
         | |- emits [] (ret _) => apply emits_ret
         | |- emits [] (raise _ _) => apply emits_raise
         | |- emits [] (str_accessor _) => apply emits_str_accessor
         | |- emits [] (str_is_case _ _ _) => apply emits_str_is_case
         | |- emits [] (match ?x with Some _ => _ | None => _ end) => destruct x
         | |- emits [] (if ?b then _ else _) => destruct b
         end.

Ltac checks :=
  repeat match goal with
         | |- emits (_ :: _) (bind (when _ (warn _)) _) =>
             apply emits_then_one; [apply emits_when_warn | intros ?]
         | |- emits _ (bind _ _) => apply emits_then_quiet; [solve [quiet] | intros ?]
         end.

Lemma validate_string_run (r : ref) (s : series) (st : state)
    nullable unique min_length max_length case newlines trailing_whitespace
    whitespace matching_regex non_matching_regex whitelist blacklist
    return_values :
  nth_error (heap st) r = Some s ->
  let res :=
    validate_string E r nullable unique min_length max_length case newlines
      trailing_whitespace whitespace matching_regex non_matching_regex
      whitelist blacklist return_values st in
  exists ext msgs,
    heap (snd res) = heap st ++ ext /\
    log (snd res) = log st ++ msgs /\
    subseq msgs
      (string_notifications (name s) min_length max_length case
         matching_regex non_matching_regex) /\
    (forall r', fst res = Returned (Some r') ->
                List.length (heap st) <= r' < List.length (heap (snd res))).
Proof.
  intros H res. subst res. unfold validate_string.
  step ltac:(apply load_ok; find_object).
  assert (Hrest : forall (validated : ref) (v : series) (rest : M (option ref))
                    (st1 : state) (ext : list series),
             name v = name s ->
             heap st1 = heap st ++ ext ->
             log st1 = log st ->
             List.length (heap st) <= validated < List.length (heap st1) ->
             emits (string_notifications (name v) min_length max_length case
                      matching_regex non_matching_regex) rest ->
             returns_only (fun o => o = Some validated \/ o = None) rest ->
             exists ext msgs,
               heap (snd (rest st1)) = heap st ++ ext /\
               log (snd (rest st1)) = log st ++ msgs /\
               subseq msgs
                 (string_notifications (name s) min_length max_length case
                    matching_regex non_matching_regex) /\
               (forall r', fst (rest st1) = Returned (Some r') ->
                  List.length (heap st) <= r' < List.length (heap (snd (rest st1))))).
  { intros validated v rest st1 ext Hn Hh Hl Hv Hemits Hret.
    destruct (Hemits st1) as (msgs & Hh' & Hl' & Hs').
    exists ext, msgs. rewrite Hh', Hl', Hh, Hl, <- Hn.
    rewrite Hh in Hv.
    split; [reflexivity|]. split; [reflexivity|]. split; [assumption|].
    intros r' Hr'.
    destruct (Hret st1 _ Hr') as [Hr|Hr]; [|discriminate].
    inversion Hr; subst. exact Hv. }
  destruct (mask_any
              (col_apply (fun x => negb (isinstance_str x)) (dropna (items s)))).
  - destruct (to_string_run r s st "%g" "%Y-%m-%d" H) as [ext Hts].
    destruct (apply_raising (numeric_formatter E "%g")
                (filter (fun kv => numeric_selected (snd kv)) (items s)))
      as [strs|k msg].
    + destruct (apply_raising (datetime_formatter E "%Y-%m-%d")
                  (filter (fun kv => type_is_datetime (snd kv))
                     (col_apply
                        (render_with numeric_selected (numeric_formatter E "%g"))
                        (items s))))
        as [strs2|k msg].
      * step ltac:(exact Hts).
        step ltac:(apply load_ok; cbn [heap]; rewrite app_assoc;
                   apply nth_error_snoc_new).
        eapply Hrest with (ext := ext ++ [_])
                          (validated := List.length (heap st ++ ext)).
        -- reflexivity.
        -- reflexivity.
        -- reflexivity.
        -- cbn [heap]. rewrite !length_app. cbn [List.length]. lia.
        -- cbn [name]. unfold string_notifications. checks.
           destruct return_values; apply emits_ret.
        -- repeat (apply returns_only_bind; intros ?).
           destruct return_values; apply returns_only_ret; auto.
      * exists ext, []. erewrite bind_raised by exact Hts.
        cbn [fst snd heap log]. rewrite app_nil_r.
        repeat split; [apply subseq_nil_l | discriminate | discriminate].
    + exists ext, []. erewrite bind_raised by exact Hts.
      cbn [fst snd heap log]. rewrite app_nil_r.
      repeat split; [apply subseq_nil_l | discriminate | discriminate].
  - step ltac:(apply copy_ok; find_object).
    step ltac:(apply load_ok; find_object).
    eapply Hrest with (ext := [s]) (validated := List.length (heap st)).
    + reflexivity.
    + reflexivity.
    + reflexivity.
    + cbn [heap]. rewrite !length_app. cbn [List.length]. lia.
    + unfold string_notifications. checks.
      destruct return_values; apply emits_ret.
    + repeat (apply returns_only_bind; intros ?).
      destruct return_values; apply returns_only_ret; auto.
Qed.


(** ** The return statement of the mask validators *)

Lemma return_view_effects (c : ref) masks return_type st :
  exists ext,
    heap (snd (return_view c masks return_type st)) = heap st ++ ext /\
    log (snd (return_view c masks return_type st)) = log st /\
    (forall r', fst (return_view c masks return_type st) = Returned (RValues r') ->
       List.length (heap st) <= r'
       < List.length (heap (snd (return_view c masks return_type st)))).
Proof.
  unfold return_view.
  destruct return_type as [rt|];
    [|exists []; cbn; rewrite app_nil_r; repeat split; discriminate].
  unfold bind, lift.
  destruct (pandas_concat masks) as [f|k msg];
    [|exists []; cbn; rewrite app_nil_r; repeat split; discriminate].
  destruct (String.eqb rt "mask_frame");
    [exists []; cbn; rewrite app_nil_r; repeat split; discriminate|].
  destruct (String.eqb rt "mask_series");
    [exists []; cbn; rewrite app_nil_r; repeat split; discriminate|].
  destruct (String.eqb rt "values");
    [|exists []; cbn; rewrite app_nil_r; repeat split; discriminate].
  unfold load. destruct (nth_error (heap st) c) as [conv|];
    [|exists []; cbn; rewrite app_nil_r; repeat split; discriminate].
  eexists [_]. cbn. split; [reflexivity|]. split; [reflexivity|].
  intros r' Hr'. inversion Hr'; subst. rewrite length_app. cbn. lia.
Qed.


(** ** Computations that only allocate *)

Lemma grows_ret {A} (a : A) : grows_store (ret a).
Proof. intros st. exists []. simpl. now rewrite app_nil_r. Qed.

Lemma grows_raise {A} k msg : grows_store (@raise A k msg).
Proof. intros st. exists []. simpl. now rewrite app_nil_r. Qed.

Lemma grows_lift {A} (o : outcome A) : grows_store (lift o).
Proof. intros st. exists []. simpl. now rewrite app_nil_r. Qed.

Lemma grows_load r : grows_store (load r).
Proof.
  intros st. exists []. unfold load.
  destruct (nth_error (heap st) r); simpl; now rewrite app_nil_r.
Qed.

Lemma grows_alloc s : grows_store (alloc s).
Proof. intros st. exists [s]. reflexivity. Qed.

Lemma grows_bind {A B} (m : M A) (k : A -> M B) :
  grows_store m -> (forall a, grows_store (k a)) -> grows_store (bind m k).
Proof.
  intros Hm Hk st. unfold bind. destruct (Hm st) as [ext1 H1].
  destruct (m st) as [[a|e msg] st1]; simpl in *.
  - destruct (Hk a st1) as [ext2 H2]. exists (ext1 ++ ext2).
    now rewrite H2, H1, app_assoc.
  - now exists ext1.
Qed.

Ltac grows :=
  repeat match goal with
         | |- grows_store (bind _ _) => apply grows_bind; [|intros ?]
         | |- grows_store (ret _) => apply grows_ret
         | |- grows_store (raise _ _) => apply grows_raise
         | |- grows_store (lift _) => apply grows_lift
         | |- grows_store (load _) => apply grows_load
         | |- grows_store (alloc _) => apply grows_alloc
         | |- grows_store (copy _) => unfold copy
         | |- grows_store (coerce_series _ _ _ _ _) => unfold coerce_series
         | |- grows_store (match ?x with errors_raise => _ | errors_coerce => _ end) =>
             destruct x
         | |- grows_store (if ?b then _ else _) => destruct b
         end.

Lemma mask_nonconvertible_grows r to_datatype datetime_format exact_date :
  grows_store (mask_nonconvertible E r to_datatype datetime_format exact_date).
Proof.
  unfold mask_nonconvertible, pandas_to_numeric_series, pandas_to_datetime_series.
  grows.
Qed.

Lemma store_preserved_lookup st st' r s :
  store_preserved st st' -> nth_error (heap st) r = Some s ->
  nth_error (heap st') r = Some s.
Proof. intros [ext Hext] H. rewrite Hext. now apply nth_error_app_old. Qed.

(** C10: no public operation modifies its input: after a call to
    [mask_nonconvertible], [to_string], [validate_datetime],
    [validate_numeric] or [validate_string] every object that was in the
    store, the input column among them, is unchanged, and a Series that
    is returned is an object created by the call. *)
Theorem public_operations_do_not_mutate (r : ref) (s : series) (st : state) :
  nth_error (heap st) r = Some s ->
  (forall to_datatype datetime_format exact_date,
      let res := mask_nonconvertible E r to_datatype datetime_format exact_date st in
      store_preserved st (snd res) /\ nth_error (heap (snd res)) r = Some s) /\
  (forall float_format datetime_format,
      let res := to_string E r float_format datetime_format st in
      store_preserved st (snd res) /\ nth_error (heap (snd res)) r = Some s /\
      forall r', fst res = Returned r' -> created_between st (snd res) r') /\
  (forall nullable unique min_datetime max_datetime return_type,
      let res := validate_datetime E r nullable unique min_datetime max_datetime
                   return_type st in
      store_preserved st (snd res) /\ nth_error (heap (snd res)) r = Some s /\
      forall r', fst res = Returned (RValues r') -> created_between st (snd res) r') /\
  (forall nullable unique integer min_value max_value return_type,
      let res := validate_numeric E r nullable unique integer min_value max_value
                   return_type st in
      store_preserved st (snd res) /\ nth_error (heap (snd res)) r = Some s /\
      forall r', fst res = Returned (RValues r') -> created_between st (snd res) r') /\
  (forall nullable unique min_length max_length case newlines trailing_whitespace
          whitespace matching_regex non_matching_regex whitelist blacklist
          return_values,
      let res := validate_string E r nullable unique min_length max_length case
                   newlines trailing_whitespace whitespace matching_regex
                   non_matching_regex whitelist blacklist return_values st in
      store_preserved st (snd res) /\ nth_error (heap (snd res)) r = Some s /\
      forall r', fst res = Returned (Some r') -> created_between st (snd res) r').
Proof.
  intros H.
  assert (Hkeep : forall st', store_preserved st st' ->
                    store_preserved st st' /\ nth_error (heap st') r = Some s).
  { intros st' Hp. split; [exact Hp|]. eapply store_preserved_lookup; eassumption. }
  split; [|split; [|split; [|split]]].
  - intros to_datatype datetime_format exact_date res. apply Hkeep.
    apply mask_nonconvertible_grows.
  - intros float_format datetime_format res. subst res.
    destruct (to_string_run r s st float_format datetime_format H) as [ext Hts].
    rewrite Hts.
    destruct (apply_raising (numeric_formatter E float_format) _) as [?|k msg].
    + destruct (apply_raising (datetime_formatter E datetime_format) _)
        as [?|k msg]; cbn [fst snd].
      * rewrite <- and_assoc. split.
        -- apply Hkeep. eexists. cbn [heap]. reflexivity.
        -- intros r' Hr'. inversion Hr'; subst. unfold created_between.
           cbn [heap]. rewrite !length_app. cbn [List.length]. lia.
      * rewrite <- and_assoc. split; [|discriminate].
        apply Hkeep. now exists ext.
    + cbn [fst snd]. rewrite <- and_assoc. split; [|discriminate].
      apply Hkeep. now exists ext.
  - intros nullable unique min_datetime max_datetime return_type res. subst res.
    rewrite (validate_datetime_run r s st _ _ _ _ _ H).
    destruct (datetime_masks E s (coerced_datetime E s) nullable unique
                min_datetime max_datetime) as [masks|k msg].
    + match goal with
      | |- context [return_view ?c ?m ?rt ?st1] =>
          destruct (return_view_effects c m rt st1) as (ext & Hh & _ & Hr)
      end.
      cbn [heap] in Hh, Hr.
      rewrite <- and_assoc. split.
      * apply Hkeep. exists ([coerced_datetime E s] ++ ext).
        now rewrite Hh, app_assoc.
      * intros r' Hr'. apply Hr in Hr'. unfold created_between.
        rewrite length_app in Hr'. cbn [List.length] in Hr'. lia.
    + cbn [fst snd]. rewrite <- and_assoc. split; [|discriminate].
      apply Hkeep. now eexists.
  - intros nullable unique integer min_value max_value return_type res. subst res.
    rewrite (validate_numeric_run r s st _ _ _ _ _ _ H).
    match goal with
    | |- context [return_view ?c ?m ?rt ?st1] =>
        destruct (return_view_effects c m rt st1) as (ext & Hh & _ & Hr)
    end.
    cbn [heap] in Hh, Hr.
    rewrite <- and_assoc. split.
    + apply Hkeep. exists ([coerced_numeric E s] ++ ext).
      now rewrite Hh, app_assoc.
    + intros r' Hr'. apply Hr in Hr'. unfold created_between.
      rewrite length_app in Hr'. cbn [List.length] in Hr'. lia.
  - intros. subst res.
    destruct (validate_string_run r s st nullable unique min_length max_length
                case newlines trailing_whitespace whitespace matching_regex
                non_matching_regex whitelist blacklist return_values H)
      as (ext & msgs & Hh & _ & _ & Hr).
    rewrite <- and_assoc. split.
    + apply Hkeep. now exists ext.
    + exact Hr.
Qed.



(** ** The tolerant coercers *)

Lemma coerce_series_raise d strict lenient (r : ref) (s : series) (st : state) :
  nth_error (heap st) r = Some s ->
  coerce_series d strict lenient errors_raise r st
  = match apply_raising strict (items s) with
    | Returned c =>
        (Returned (List.length (heap st)),
         mkState (heap st ++ [mkSeries (name s) d c]) (log st))
    | Raised k msg => (Raised k msg, st)
    end.
Proof.
  intros H. unfold coerce_series.
  step ltac:(apply load_ok; find_object).
  destruct (apply_raising strict (items s)) as [c|k msg].
  - step ltac:(apply lift_run). reflexivity.
  - apply bind_raised. reflexivity.
Qed.

(** Where the strict coercion succeeds it agrees with the lenient one. *)
Lemma strict_agrees_with_lenient (strict : value -> outcome value)
    (lenient : value -> value) (c c' : column value) :
  (forall v w, strict v = Returned w -> lenient v = w) ->
  apply_raising strict c = Returned c' -> c' = col_apply lenient c.
Proof.
  intros Hsl. revert c'.
  induction c as [|[l v] c IH]; simpl; intros c' H.
  - now inversion H.
  - destruct (strict v) as [w|k msg] eqn:Hv; [|discriminate].
    destruct (apply_raising strict c) as [ys|k msg]; [|discriminate].
    inversion H; subst. unfold col_apply in *. simpl.
    now rewrite (Hsl v w Hv), <- (IH ys eq_refl).
Qed.

Lemma numeric_strict_lenient v w :
  numeric_strict E v = Returned w -> numeric_lenient E v = w.
Proof.
  unfold numeric_strict, numeric_lenient.
  destruct (pd_numeric E v) as [[q|]|k msg]; congruence.
Qed.

Lemma datetime_strict_lenient o v w :
  datetime_strict E o v = Returned w -> datetime_lenient E o v = w.
Proof.
  unfold datetime_strict, datetime_lenient.
  destruct (pd_datetime E o v) as [[t|]|k msg]; congruence.
Qed.

Lemma strict_series_run d strict lenient (r : ref) (s : series) (st : state) :
  nth_error (heap st) r = Some s ->
  (r' <- coerce_series d strict lenient errors_raise r ;; ret (ArgSeries r')) st
  = match apply_raising strict (items s) with
    | Returned c =>
        (Returned (ArgSeries (List.length (heap st))),
         mkState (heap st ++ [mkSeries (name s) d c]) (log st))
    | Raised k msg => (Raised k msg, st)
    end.
Proof.
  intros H. unfold bind. rewrite (coerce_series_raise _ _ _ _ _ _ H).
  destruct (apply_raising strict (items s)); reflexivity.
Qed.

Lemma lenient_series_run d strict lenient (r : ref) (s : series) (st : state) :
  nth_error (heap st) r = Some s ->
  (r' <- coerce_series d strict lenient errors_coerce r ;; ret (ArgSeries r')) st
  = (Returned (ArgSeries (List.length (heap st))),
     mkState (heap st ++ [mkSeries (name s) d (col_apply lenient (items s))])
       (log st)).
Proof.
  intros H. unfold bind. now rewrite (coerce_series_coerce _ _ _ _ _ _ H).
Qed.



(** ** The examples of the specification *)

(** C3: on the column ["1", "2", "x", None], [validate_numeric] with
    [nullable=True] has the nonconvertible mask [F, F, T, F], issues a
    notification that contains the fragment "Value(s) not converted to
    datetime set as NaT", and its [mask_series] is [F, F, T, F]. *)
Theorem validate_numeric_example (r : ref) (st : state) :
  nth_error (heap st) r = Some column_1_2_x_None ->
  isnull_value (numeric_lenient E (VStr "1")) = false ->
  isnull_value (numeric_lenient E (VStr "2")) = false ->
  isnull_value (numeric_lenient E (VStr "x")) = true ->
  (exists st' msg,
      validate_numeric E r true false false None None (Some "mask_frame") st
      = (Returned
           (RMaskFrame
              (mkFrame ["nonconvertible"]
                 [(0%Z, [Some false]); (1%Z, [Some false]);
                  (2%Z, [Some true]); (3%Z, [Some false])])), st') /\
      log st' = log st ++ [msg] /\
      occurs_in "Value(s) not converted to datetime set as NaT" msg = true) /\
  (exists st' msg,
      validate_numeric E r true false false None None (Some "mask_series") st
      = (Returned
           (RMaskSeries [(0%Z, false); (1%Z, false); (2%Z, true); (3%Z, false)]),
         st') /\
      log st' = log st ++ [msg] /\
      occurs_in "Value(s) not converted to datetime set as NaT" msg = true).
Proof.
  intros H H1 H2 Hx.
  assert (Hmasks :
    numeric_masks column_1_2_x_None (coerced_numeric E column_1_2_x_None)
      true false false None None
    = [("nonconvertible",
        [(0%Z, false); (1%Z, false); (2%Z, true); (3%Z, false)])]).
  { unfold numeric_masks, coerced_numeric, column_1_2_x_None.
    cbn [negb dtype_is_number dtype_of items app].
    rewrite nonconvertible_mask_entries. unfold col_apply.
    cbn [map fst snd notnull_value isnull_value negb andb].
    now rewrite H1, H2, Hx. }
  split.
  - rewrite (validate_numeric_run r _ st _ _ _ _ _ _ H), Hmasks.
    do 2 eexists. split; [reflexivity|]. split; [reflexivity|].
    vm_compute. reflexivity.
  - rewrite (validate_numeric_run r _ st _ _ _ _ _ _ H), Hmasks.
    do 2 eexists. split; [reflexivity|]. split; [reflexivity|].
    vm_compute. reflexivity.
Qed.

(** C5 at a bound of zero: on the numeric column [-1], [min_value=0]
    builds no [too_low] mask and notifies nothing, although -1 is below
    the bound; with [min_value=1] the mask is built and the value is
    reported. *)
Theorem zero_bound_builds_no_mask :
  run (validate_numeric E 0 true false false (Some 0%Q) None (Some "mask_frame"))
    [column_minus_1]
  = (Returned
       (RMaskFrame (mkFrame ["nonconvertible"] [(0%Z, [Some false])])),
     mkState [column_minus_1; column_minus_1] []) /\
  run (validate_numeric E 0 true false false (Some 1%Q) None (Some "mask_frame"))
    [column_minus_1]
  = (Returned
       (RMaskFrame
          (mkFrame ["nonconvertible"; "too_low"]
             [(0%Z, [Some false; Some true])])),
     mkState [column_minus_1; column_minus_1] ["None: value(s) too low."]).
Proof. split; reflexivity. Qed.


(** ** to_string *)

Lemma apply_raising_total {B} (f : value -> outcome B) (c : column value) :
  (forall l v, In (l, v) c -> exists w, f v = Returned w) ->
  exists ys, apply_raising f c = Returned ys.
Proof.
  induction c as [|[l v] c IH]; intros Hf; simpl.
  - now exists [].
  - destruct (Hf l v (or_introl eq_refl)) as [w Hw]. rewrite Hw.
    destruct IH as [ys Hys].
    { intros l' v' Hin. apply (Hf l' v'). now right. }
    rewrite Hys. now eexists.
Qed.

Lemma numeric_selected_cases v :
  numeric_selected v = true -> (exists q, v = VNum q) \/ exists a b, v = VComplex a b.
Proof.
  destruct v; cbn; try discriminate; intros _; [left|right]; eauto.
Qed.

Lemma formattable_numeric float_format datetime_format (c : column value) :
  formattable E float_format datetime_format c ->
  exists ys,
    apply_raising (numeric_formatter E float_format)
      (filter (fun kv => numeric_selected (snd kv)) c) = Returned ys.
Proof.
  intros Hf. apply apply_raising_total. intros l v Hin.
  apply filter_In in Hin as [Hin Hsel]. cbn [snd] in Hsel.
  specialize (Hf l v Hin). unfold numeric_formatter.
  destruct (numeric_selected_cases v Hsel) as [[q ->]|(a & b & ->)];
    destruct Hf as [x ->]; eauto.
Qed.

Lemma rendered_datetime_is_original float_format v t :
  render_with numeric_selected (numeric_formatter E float_format) v = VTime t ->
  v = VTime t.
Proof.
  unfold render_with, numeric_formatter.
  destruct (numeric_selected v) eqn:Hsel; [|trivial].
  destruct (percent_format E float_format v); [discriminate|].
  intros ->. discriminate.
Qed.

Lemma formattable_datetime float_format datetime_format (c : column value) :
  formattable E float_format datetime_format c ->
  exists ys,
    apply_raising (datetime_formatter E datetime_format)
      (filter (fun kv => type_is_datetime (snd kv))
         (col_apply (render_with numeric_selected (numeric_formatter E float_format))
            c)) = Returned ys.
Proof.
  intros Hf. apply apply_raising_total. intros l w Hin.
  apply filter_In in Hin as [Hin Hdt]. cbn [snd] in Hdt.
  unfold col_apply in Hin. apply in_map_iff in Hin as ([l' v] & Heq & Hin).
  cbn [fst snd] in Heq. inversion Heq; subst.
  destruct (render_with numeric_selected (numeric_formatter E float_format) v)
    as [| | | | | | |t|] eqn:Hr; try discriminate.
  apply rendered_datetime_is_original in Hr. subst v.
  destruct (Hf l (VTime t) Hin) as [x Hx].
  unfold datetime_formatter. rewrite Hx. eauto.
Qed.

Lemma to_string_value_rendered float_format datetime_format v :
  match v with
  | VTime t => exists x, strftime E datetime_format t = Returned x
  | VNum _ | VComplex _ _ =>
      exists x, percent_format E float_format v = Returned x
  | _ => True
  end ->
  rendered E float_format datetime_format v
    (to_string_value E float_format datetime_format v).
Proof.
  unfold to_string_value, render_with, numeric_formatter, datetime_formatter.
  destruct v; cbn; intros Hv; try reflexivity;
    destruct Hv as [x Hx]; rewrite Hx; cbn; eauto.
Qed.


(** C8: on a column that already has the target type the coercion step
    of the validators is a plain copy (the object it creates equals the
    input), and the strict coercion of [to_numeric] / [to_datetime]
    succeeds, returns an equal column and notifies nothing, provided the
    external parser hands numbers (timestamps) and the missing marker
    back as they are. *)
Theorem coercion_of_typed_column (rn rd : ref) (sn sd : series) (st : state)
    (o : dt_options) :
  nth_error (heap st) rn = Some sn -> numeric_column sn ->
  (forall v, v = VNaN \/ (exists q, v = VNum q) -> numeric_strict E v = Returned v) ->
  nth_error (heap st) rd = Some sd -> datetime_column sd ->
  (forall v, v = VNaT \/ (exists t, v = VTime t) ->
             datetime_strict E o v = Returned v) ->
  (coerced_numeric E sn = sn /\
   (forall nullable unique integer min_value max_value return_type,
       nth_error
         (heap (snd (validate_numeric E rn nullable unique integer min_value
                       max_value return_type st)))
         (List.length (heap st)) = Some sn) /\
   to_numeric E (ArgSeries rn) st
   = (Returned (ArgSeries (List.length (heap st))),
      mkState (heap st ++ [sn]) (log st))) /\
  (coerced_datetime E sd = sd /\
   (forall nullable unique min_datetime max_datetime return_type,
       nth_error
         (heap (snd (validate_datetime E rd nullable unique min_datetime
                       max_datetime return_type st)))
         (List.length (heap st)) = Some sd) /\
   to_datetime E (ArgSeries rd) o st
   = (Returned (ArgSeries (List.length (heap st))),
      mkState (heap st ++ [sd]) (log st))).
Proof.
  intros Hn [Hdn Hvn] Hen Hd [Hdd Hvd] Hed.
  assert (Hcn : coerced_numeric E sn = sn)
    by (unfold coerced_numeric; now rewrite Hdn).
  assert (Hcd : coerced_datetime E sd = sd)
    by (unfold coerced_datetime; now rewrite Hdd).
  assert (Hid : forall (strict : value -> outcome value) (P : value -> Prop)
                  (c : column value),
             (forall v, P v -> strict v = Returned v) ->
             (forall l v, In (l, v) c -> P v) ->
             apply_raising strict c = Returned c).
  { intros strict P c Hs. induction c as [|[l v] c IH]; intros Hc; [reflexivity|].
    simpl. rewrite (Hs v (Hc l v (or_introl eq_refl))).
    rewrite IH; [reflexivity|]. intros l' v' Hin. apply (Hc l' v'). now right. }
  split; (split; [assumption|split]).
  - intros. rewrite (validate_numeric_run rn sn st _ _ _ _ _ _ Hn), Hcn.
    match goal with
    | |- context [return_view ?c ?m ?rt ?st1] =>
        destruct (return_view_effects c m rt st1) as (ext & Hh & _ & _)
    end.
    rewrite Hh. cbn [heap]. rewrite <- app_assoc.
    rewrite nth_error_app2 by lia. now rewrite Nat.sub_diag.
  - unfold to_numeric, try_except, pandas_to_numeric, pandas_to_numeric_series.
    rewrite (strict_series_run _ _ _ _ _ _ Hn), (Hid _ _ _ Hen Hvn).
    rewrite <- Hdn. now destruct sn.
  - intros. rewrite (validate_datetime_run rd sd st _ _ _ _ _ Hd), Hcd.
    destruct (datetime_masks E sd sd nullable unique min_datetime max_datetime).
    + match goal with
      | |- context [return_view ?c ?m ?rt ?st1] =>
          destruct (return_view_effects c m rt st1) as (ext & Hh & _ & _)
      end.
      rewrite Hh. cbn [heap]. rewrite <- app_assoc.
      rewrite nth_error_app2 by lia. now rewrite Nat.sub_diag.
    + cbn [snd heap]. apply nth_error_snoc_new.
  - unfold to_datetime, try_except, pandas_to_datetime, pandas_to_datetime_series.
    rewrite (strict_series_run _ _ _ _ _ _ Hd), (Hid _ _ _ Hed Hvd).
    rewrite <- Hdd. now destruct sd.
Qed.


(** ** Indexes and the mask frame *)

Lemma lookup_here {A} (l : label) (x : A) (c : column A) :
  lookup l ((l, x) :: c) = Some x.
Proof. simpl. now rewrite Z.eqb_refl. Qed.

Lemma lookup_later {A} (l k : label) (x : A) (c : column A) :
  k <> l -> lookup l ((k, x) :: c) = lookup l c.
Proof. intros Hkl. simpl. apply Z.eqb_neq in Hkl. now rewrite Hkl. Qed.

Lemma has_dup_NoDup (ls : list label) : NoDup ls -> has_dup ls = false.
Proof.
  induction 1 as [|l ls Hl _ IH]; simpl; [reflexivity|].
  rewrite IH, orb_false_r.
  destruct (existsb (Z.eqb l) ls) eqn:Hex; [|reflexivity].
  apply existsb_exists in Hex as (k & Hk & Hlk).
  apply Z.eqb_eq in Hlk. subst k. contradiction.
Qed.

Lemma index_eqb_eq (a b : list label) : index_eqb a b = true -> a = b.
Proof. unfold index_eqb. destruct (list_eq_dec Z.eq_dec a b); congruence. Qed.

Lemma index_mask_and (a b : column bool) :
  index a = index b -> index (mask_and a b) = index a.
Proof.
  unfold mask_and, index. revert b.
  induction a as [|[l x] a IH]; intros [|[k y] b] Hab; simpl in *;
    try discriminate; [reflexivity|].
  inversion Hab; subst. f_equal. now apply IH.
Qed.

Lemma index_duplicated_from seen (c : column value) :
  index (duplicated_from seen c) = index c.
Proof.
  revert seen. induction c as [|[l v] c IH]; intros seen; simpl; [reflexivity|].
  f_equal. apply IH.
Qed.

Lemma index_broadcast b idx : index (broadcast b idx) = idx.
Proof. unfold index, broadcast. rewrite map_map. simpl. apply map_id. Qed.

Lemma index_dropna_incl (c : column value) : incl (index (dropna c)) (index c).
Proof.
  unfold index, dropna. intros l Hl.
  apply in_map_iff in Hl as ([k v] & <- & Hin).
  apply filter_In in Hin as [Hin _]. now apply (in_map fst) in Hin.
Qed.

Lemma index_dropna_NoDup (c : column value) :
  NoDup (index c) -> NoDup (index (dropna c)).
Proof.
  unfold index, dropna.
  induction c as [|[l v] c IH]; simpl; intros Hnd; [constructor|].
  inversion Hnd as [|? ? Hl Hc]; subst.
  destruct (notnull_value v); simpl; [|now apply IH].
  constructor; [|now apply IH].
  intros Hin. apply Hl.
  apply in_map_iff in Hin as ([k w] & <- & Hin).
  apply filter_In in Hin as [Hin _]. now apply (in_map fst) in Hin.
Qed.

Lemma index_coerced_numeric s :
  index (items (coerced_numeric E s)) = index (items s).
Proof.
  unfold coerced_numeric. destruct (negb (dtype_is_number (dtype_of s)));
    [apply index_col_apply | reflexivity].
Qed.

Lemma index_coerced_datetime s :
  index (items (coerced_datetime E s)) = index (items s).
Proof.
  unfold coerced_datetime. destruct (negb (dtype_is_datetime64 (dtype_of s)));
    [apply index_col_apply | reflexivity].
Qed.

(** The ordered union of an index without duplicates and of indexes that
    are taken from it is that index. *)
Lemma add_labels_new (acc i : list label) :
  NoDup (acc ++ i) ->
  fold_left (fun acc' l => if existsb (Z.eqb l) acc' then acc' else acc' ++ [l])
    i acc = acc ++ i.
Proof.
  revert acc. induction i as [|l i IH]; intros acc Hnd; simpl.
  - now rewrite app_nil_r.
  - destruct (existsb (Z.eqb l) acc) eqn:Hex.
    + apply existsb_exists in Hex as (k & Hk & Hlk).
      apply Z.eqb_eq in Hlk. subst k.
      apply NoDup_remove_2 in Hnd. exfalso. apply Hnd.
      apply in_or_app. now left.
    + rewrite IH; rewrite <- app_assoc; simpl; [reflexivity | assumption].
Qed.

Lemma add_labels_known (acc i : list label) :
  incl i acc ->
  fold_left (fun acc' l => if existsb (Z.eqb l) acc' then acc' else acc' ++ [l])
    i acc = acc.
Proof.
  induction i as [|l i IH]; intros Hincl; simpl; [reflexivity|].
  assert (Hex : existsb (Z.eqb l) acc = true).
  { apply existsb_exists. exists l. split; [apply Hincl; now left|].
    apply Z.eqb_refl. }
  rewrite Hex. apply IH. intros k Hk. apply Hincl. now right.
Qed.

Lemma union_index_of_subindexes (idx : list label) (rest : list (list label)) :
  NoDup idx -> Forall (fun i => incl i idx) rest ->
  union_index (idx :: rest) = idx.
Proof.
  intros Hnd Hrest. unfold union_index. cbn [fold_left].
  rewrite (add_labels_new [] idx Hnd). cbn [app].
  induction Hrest as [|i rest Hi _ IH]; cbn [fold_left]; [reflexivity|].
  now rewrite (add_labels_known idx i Hi).
Qed.

Lemma rows_by_position_by_label (idx : list label)
    (masks : list (string * column bool)) :
  NoDup idx ->
  Forall (fun kv => index (snd kv) = idx) masks ->
  rows_by_position idx (map (fun kv => values (snd kv)) masks)
  = rows_by_label idx masks.
Proof.
  revert masks. induction idx as [|l idx IH]; intros masks Hnd Hall;
    [reflexivity|].
  inversion Hnd as [|? ? Hl Hnd']; subst.
  unfold rows_by_label. simpl. f_equal.
  - f_equal. rewrite map_map. apply map_ext_in. intros [k m] Hin.
    rewrite Forall_forall in Hall. specialize (Hall _ Hin). simpl in *.
    destruct m as [|[l' b] m]; [discriminate|].
    simpl in Hall. inversion Hall; subst. simpl. now rewrite Z.eqb_refl.
  - set (masks' := map (fun kv => (fst kv, tl (snd kv))) masks).
    assert (Hcols : map (@tl bool) (map (fun kv => values (snd kv)) masks)
                    = map (fun kv => values (snd kv)) masks').
    { unfold masks'. rewrite !map_map. apply map_ext. intros [k m].
      simpl. now destruct m. }
    rewrite Hcols, (IH masks' Hnd').
    2:{ rewrite Forall_forall in *. intros kv Hkv.
        apply in_map_iff in Hkv as ([k m] & <- & Hin).
        specialize (Hall _ Hin). simpl in *.
        destruct m as [|[l' b] m]; [discriminate|].
        simpl in *. now inversion Hall. }
    unfold rows_by_label, masks'. apply map_ext_in. intros l' Hl'.
    f_equal. rewrite map_map. apply map_ext_in. intros [k m] Hin.
    rewrite Forall_forall in Hall. specialize (Hall _ Hin). simpl in *.
    destruct m as [|[l'' b] m]; [discriminate|].
    simpl in Hall. inversion Hall; subst. simpl tl.
    symmetry. apply lookup_later. intros ->. contradiction.
Qed.

(** Under [well_indexed], [pandas.concat] succeeds and realigns every
    mask on the index of the column. *)
Lemma pandas_concat_aligned (idx : list label) masks :
  NoDup idx -> well_indexed idx masks ->
  pandas_concat masks = Returned (mkFrame (map fst masks) (rows_by_label idx masks)).
Proof.
  intros Hnd Hwi. destruct masks as [|[k0 m0] rest]; [contradiction|].
  destruct Hwi as [H0 Hrest]. simpl in H0.
  unfold pandas_concat.
  destruct (all_same_index
              (map (fun kv => index (snd kv)) ((k0, m0) :: rest))) eqn:Hsame.
  - simpl in Hsame. simpl hd. rewrite H0 in *.
    rewrite rows_by_position_by_label; [reflexivity|assumption|].
    constructor; [assumption|].
    rewrite forallb_forall in Hsame. apply Forall_forall. intros kv Hkv.
    symmetry. apply index_eqb_eq, Hsame.
    apply (in_map (fun kv' : string * column bool => index (snd kv')) _ _ Hkv).
  - assert (Hnodup : existsb has_dup
                       (map (fun kv => index (snd kv)) ((k0, m0) :: rest)) = false).
    { simpl. rewrite H0, (has_dup_NoDup idx Hnd). simpl.
      clear Hsame. induction Hrest as [|kv rest [Hkv _] _ IH]; simpl; [reflexivity|].
      now rewrite (has_dup_NoDup _ Hkv). }
    rewrite Hnodup. simpl map at 2. rewrite H0.
    rewrite union_index_of_subindexes; [reflexivity|assumption|].
    clear Hsame Hnodup. induction Hrest as [|kv rest [_ Hkv] _ IH]; simpl;
      constructor; assumption.
Qed.


Lemma full_index_ok (idx : list label) (m : column bool) :
  NoDup idx -> index m = idx -> NoDup (index m) /\ incl (index m) idx.
Proof. intros Hnd ->. split; [assumption | apply incl_refl]. Qed.

Lemma dropna_index_ok (idx : list label) (c : column value) (m : column bool) :
  NoDup idx -> index c = idx -> index m = index (dropna c) ->
  NoDup (index m) /\ incl (index m) idx.
Proof.
  intros Hnd <- ->. split; [now apply index_dropna_NoDup | apply index_dropna_incl].
Qed.

Ltac mask_index :=
  unfold isnull, notnull, duplicated;
  rewrite ?index_col_apply, ?index_duplicated_from, ?index_broadcast;
  try reflexivity; try assumption.

Ltac masks_well_indexed Hnd Hc :=
  cbn [negb app snd]; split;
  [ rewrite index_mask_and; mask_index; now rewrite Hc
  | repeat (constructor;
            [ cbn [snd];
              first [ solve [apply (full_index_ok _ _ Hnd); mask_index]
                    | solve [apply (dropna_index_ok _ _ _ Hnd Hc); mask_index] ]
            | ]);
    constructor ].

Lemma numeric_masks_well_indexed s c nullable unique integer min_value max_value :
  NoDup (index (items s)) -> index (items c) = index (items s) ->
  well_indexed (index (items s))
    (numeric_masks s c nullable unique integer min_value max_value).
Proof.
  intros Hnd Hc. unfold numeric_masks, well_indexed.
  destruct nullable, unique, integer, min_value as [lo|], max_value as [hi|];
    try destruct (truthy_num (Some lo)); try destruct (truthy_num (Some hi));
    masks_well_indexed Hnd Hc.
Qed.

Lemma datetime_masks_well_indexed s c nullable unique min_datetime max_datetime
    masks :
  NoDup (index (items s)) -> index (items c) = index (items s) ->
  datetime_masks E s c nullable unique min_datetime max_datetime = Returned masks ->
  well_indexed (index (items s)) masks.
Proof.
  intros Hnd Hc. unfold datetime_masks, outcome_bind, well_indexed.
  destruct nullable, unique, min_datetime as [lo|], max_datetime as [hi|];
    try destruct (truthy_str (Some lo)); try destruct (truthy_str (Some hi));
    try destruct (parse_bound E lo); try destruct (parse_bound E hi);
    intros Hm; inversion Hm; subst;
    masks_well_indexed Hnd Hc.
Qed.


Lemma frame_any_aligned ks (idx : list label) masks :
  frame_any (mkFrame ks (rows_by_label idx masks))
  = map (fun l => (l, row_any masks l)) idx.
Proof.
  unfold frame_any, rows_by_label, row_any. cbn [rows]. rewrite map_map.
  apply map_ext. intros l. cbn [fst snd]. f_equal.
  induction masks as [|kv masks IH]; simpl; [reflexivity|]. now rewrite IH.
Qed.

Lemma where_on_own_index (c : column value) (g : label -> bool) (other : value) :
  where_ c (map (fun l => (l, g l)) (index c)) other
  = map (fun kv => (fst kv, if g (fst kv) then snd kv else other)) c.
Proof.
  unfold where_.
  replace (index (map (fun l => (l, g l)) (index c))) with (index c).
  2:{ unfold index. rewrite map_map. simpl. now rewrite map_id. }
  rewrite index_eqb_refl. unfold index.
  induction c as [|[l v] c IH]; simpl; [reflexivity|]. now rewrite IH.
Qed.

Section ReturnView.

Variables (c : ref) (conv : series) (st : state)
          (masks : list (string * column bool)).
Hypothesis Hconv : nth_error (heap st) c = Some conv.
Hypothesis Hnd : NoDup (index (items conv)).
Hypothesis Hwi : well_indexed (index (items conv)) masks.

Lemma return_view_mask_frame :
  return_view c masks (Some "mask_frame") st
  = (Returned
       (RMaskFrame (mkFrame (map fst masks)
                      (rows_by_label (index (items conv)) masks))), st).
Proof.
  unfold return_view. rewrite (pandas_concat_aligned _ _ Hnd Hwi).
  step ltac:(apply lift_run). reflexivity.
Qed.

Lemma return_view_mask_series :
  return_view c masks (Some "mask_series") st
  = (Returned
       (RMaskSeries (map (fun l => (l, row_any masks l)) (index (items conv)))),
     st).
Proof.
  unfold return_view. rewrite (pandas_concat_aligned _ _ Hnd Hwi).
  step ltac:(apply lift_run). cbn [String.eqb Ascii.eqb Bool.eqb].
  now rewrite frame_any_aligned.
Qed.

Lemma return_view_values :
  return_view c masks (Some "values") st
  = (Returned (RValues (List.length (heap st))),
     mkState (heap st ++ [masked_values masks conv]) (log st)).
Proof.
  unfold return_view. rewrite (pandas_concat_aligned _ _ Hnd Hwi).
  step ltac:(apply lift_run). cbn [String.eqb Ascii.eqb Bool.eqb].
  step ltac:(apply load_ok; find_object).
  rewrite frame_any_aligned. unfold mask_not, col_apply. rewrite map_map.
  cbn [fst snd].
  rewrite (where_on_own_index (items conv) (fun l => negb (row_any masks l))).
  unfold bind, alloc, ret, masked_values. cbn [heap log].
  do 3 f_equal. f_equal. f_equal. apply map_ext. intros [l v]. cbn [fst snd].
  now destruct (row_any masks l).
Qed.

Lemma return_view_unrecognized (rt : string) :
  recognized_return_type rt = false ->
  return_view c masks (Some rt) st = (Raised ValueError "Invalid return_type", st).
Proof.
  unfold recognized_return_type. intros Hrt.
  apply orb_false_iff in Hrt as [Hrt Hv]. apply orb_false_iff in Hrt as [Hf Hs].
  unfold return_view. rewrite (pandas_concat_aligned _ _ Hnd Hwi).
  step ltac:(apply lift_run). now rewrite Hf, Hs, Hv.
Qed.

End ReturnView.



(** ** The noninteger check *)

Lemma value_eqb_refl v : value_eqb v v = true.
Proof.
  destruct v; simpl; trivial.
  - now destruct b.
  - apply Qeq_bool_iff. reflexivity.
  - apply andb_true_iff. split; apply Qeq_bool_iff; reflexivity.
  - apply String.eqb_refl.
  - apply Z.eqb_refl.
  - apply Nat.eqb_refl.
Qed.

Lemma column_ne_int_value (c : column value) :
  column_ne c (col_apply int_value c)
  = col_apply (fun v => negb (value_eqb v (int_value v))) c.
Proof.
  unfold column_ne, col_apply.
  induction c as [|[l v] c IH]; simpl; [reflexivity|]. now rewrite IH.
Qed.

Lemma noninteger_flag_iff (c : column value) :
  mask_any (column_ne (dropna c) (col_apply int_value (dropna c))) = true <->
  exists l q, In (l, VNum q) c /\ ~ (q == inject_Z (py_int q))%Q.
Proof.
  rewrite column_ne_int_value, mask_any_col_apply, existsb_exists. split.
  - intros ([l v] & Hin & Hne). cbn [snd] in Hne.
    apply filter_In in Hin as [Hin _].
    destruct v; try (rewrite value_eqb_refl in Hne; discriminate).
    exists l, q. split; [assumption|].
    cbn in Hne. apply negb_true_iff in Hne. intros Heq.
    apply Qeq_bool_iff in Heq. congruence.
  - intros (l & q & Hin & Hne). exists (l, VNum q). split.
    + apply filter_In. split; [assumption | reflexivity].
    + cbn. apply negb_true_iff.
      destruct (Qeq_bool q (inject_Z (py_int q))) eqn:Heq; [|reflexivity].
      apply Qeq_bool_iff in Heq. contradiction.
Qed.

Lemma lookup_broadcast (b : bool) (idx : list label) (l : label) :
  In l idx -> lookup l (broadcast b idx) = Some b.
Proof.
  unfold broadcast. induction idx as [|k idx IH]; simpl; [contradiction|].
  intros [->|Hin]; [now rewrite Z.eqb_refl|].
  destruct (Z.eqb k l); [reflexivity | now apply IH].
Qed.

Lemma frame_column_aligned (k : string) (idx : list label) masks n m :
  position k (map fst masks) = Some n ->
  nth_error masks n = Some (k, m) ->
  frame_column k (mkFrame (map fst masks) (rows_by_label idx masks))
  = Some (map (fun l => (l, lookup l m)) idx).
Proof.
  intros Hpos Hnth. unfold frame_column, rows_by_label. cbn [columns rows].
  rewrite Hpos, map_map. f_equal. apply map_ext. intros l. cbn [fst snd].
  f_equal. apply nth_error_nth.
  rewrite nth_error_map, Hnth. reflexivity.
Qed.

Lemma has_dup_false_NoDup (ls : list label) : has_dup ls = false -> NoDup ls.
Proof.
  induction ls as [|l ls IH]; simpl; intros H; [constructor|].
  apply orb_false_iff in H as [Hl Hls].
  constructor; [|now apply IH].
  intros Hin.
  assert (Hex : existsb (Z.eqb l) ls = true)
    by (apply existsb_exists; exists l; split; [assumption | apply Z.eqb_refl]).
  congruence.
Qed.

Lemma nth_error_broadcast (b : bool) (idx : list label) i l :
  nth_error idx i = Some l -> nth_error (broadcast b idx) i = Some (l, b).
Proof. intros H. unfold broadcast. now rewrite nth_error_map, H. Qed.



(** ** Further properties *)

Lemma get_error_messages_raised error_info masks k msg :
  fold_left
    (fun acc kv =>
       match acc with
       | Raised k' msg' => Raised k' msg'
       | Returned msg_list =>
           if mask_any (snd kv) then
             match dict_get (fst kv) error_info with
             | Some m => Returned (msg_list ++ [m])
             | None => Raised KeyError (fst kv)
             end
           else Returned msg_list
       end)
    masks (@Raised (list string) k msg)
  = Raised k msg.
Proof. induction masks as [|kv masks IH]; simpl; [reflexivity | exact IH]. Qed.

Lemma triggered_fragments_length error_info masks :
  List.length (triggered_fragments error_info masks) <= List.length masks.
Proof.
  unfold triggered_fragments.
  induction masks as [|kv masks IH]; simpl; [lia|].
  rewrite length_app.
  destruct (mask_any (snd kv)); [destruct (dict_get (fst kv) error_info)|];
    simpl; lia.
Qed.

(** X1: [_get_error_messages] returns, in the order of the masks, the
    fragment of every mask that has a true entry, so never more
    fragments than masks; a mask with a true entry whose key has no
    fragment makes the lookup fail with [KeyError] on that key, while the
    key of a mask without a true entry is never looked up. *)
Theorem get_error_messages_spec (error_info : list (string * string))
    (masks : list (string * column bool)) :
  _get_error_messages masks error_info
  = match first_unknown_key error_info masks with
    | Some k => Raised KeyError k
    | None => Returned (triggered_fragments error_info masks)
    end /\
  List.length (triggered_fragments error_info masks) <= List.length masks /\
  (if mask_any (flat_map snd masks) then True
   else _get_error_messages masks error_info = Returned []).
Proof.
  assert (Hgen : forall acc,
    fold_left
      (fun acc kv =>
         match acc with
         | Raised k' msg' => Raised k' msg'
         | Returned msg_list =>
             if mask_any (snd kv) then
               match dict_get (fst kv) error_info with
               | Some m => Returned (msg_list ++ [m])
               | None => Raised KeyError (fst kv)
               end
             else Returned msg_list
         end)
      masks (Returned acc)
    = match first_unknown_key error_info masks with
      | Some k => Raised KeyError k
      | None => Returned (acc ++ triggered_fragments error_info masks)
      end).
  { induction masks as [|kv masks IH]; intros acc; simpl.
    - now rewrite app_nil_r.
    - destruct (mask_any (snd kv)).
      + destruct (dict_get (fst kv) error_info) as [m|].
        * rewrite IH. destruct (first_unknown_key error_info masks);
            [reflexivity|]. now rewrite <- app_assoc.
        * apply get_error_messages_raised.
      + apply IH. }
  split; [apply (Hgen [])|]. split; [apply triggered_fragments_length|].
  destruct (mask_any (flat_map snd masks)) eqn:Hnone; [trivial|].
  unfold _get_error_messages. rewrite Hgen.
  assert (Hall : forall kv, In kv masks -> mask_any (snd kv) = false).
  { intros kv Hin. unfold mask_any in *.
    destruct (existsb (fun kv0 => snd kv0) (snd kv)) eqn:Hex; [|reflexivity].
    apply existsb_exists in Hex as (x & Hx & Hb).
    assert (Hany : existsb (fun kv0 : label * bool => snd kv0)
                     (flat_map snd masks) = true).
    { apply existsb_exists. exists x. split; [|assumption].
      apply in_flat_map. now exists kv. }
    congruence. }
  clear Hnone Hgen.
  induction masks as [|kv masks IH]; [reflexivity|].
  simpl. unfold triggered_fragments in *. simpl.
  rewrite (Hall kv (or_introl eq_refl)).
  apply IH. intros kv' Hin. apply Hall. now right.
Qed.

Lemma nth_error_two_new {A} (h : list A) (x y : A) :
  nth_error (h ++ [x; y]) (S (List.length h)) = Some y.
Proof.
  rewrite nth_error_app2 by lia.
  replace (S (List.length h) - List.length h) with 1 by lia. reflexivity.
Qed.

(** X2: [_numeric_to_string] changes the non-missing numbers and nothing
    else.  When the float format accepts every such number, it returns a
    new column with the name and index of the input in which those
    entries are the formatted strings and every other entry (strings,
    datetimes, booleans, missing values) is the one of the input; a
    column without numbers comes back as an equal copy whatever the
    format.  The input and the log are not touched. *)
Theorem numeric_to_string_spec (r : ref) (s : series) (st : state) (fmt : string) :
  nth_error (heap st) r = Some s ->
  (forall l v, In (l, v) (items s) -> numeric_selected v = true ->
               exists x, percent_format E fmt v = Returned x) ->
  exists out st',
    _numeric_to_string E r fmt st = (Returned (S (List.length (heap st))), st') /\
    nth_error (heap st') (S (List.length (heap st))) = Some out /\
    nth_error (heap st') r = Some s /\
    log st' = log st /\
    name out = name s /\
    index (items out) = index (items s) /\
    forall i l v, nth_error (items s) i = Some (l, v) ->
      exists w, nth_error (items out) i = Some (l, w) /\
        if numeric_selected v
        then exists x, percent_format E fmt v = Returned x /\ w = VStr x
        else w = v.
Proof.
  intros H Hfmt.
  destruct (numeric_to_string_run r s st fmt H) as [c' Hrun].
  destruct (apply_raising_total (numeric_formatter E fmt)
              (filter (fun kv => numeric_selected (snd kv)) (items s)))
    as [ys Hys].
  { intros l v Hin. apply filter_In in Hin as [Hin Hsel]. cbn [snd] in Hsel.
    destruct (Hfmt l v Hin Hsel) as [x Hx]. unfold numeric_formatter.
    rewrite Hx. eauto. }
  rewrite Hys in Hrun.
  do 2 eexists. split; [exact Hrun|]. cbn [heap log].
  split; [apply nth_error_two_new|].
  split; [now apply nth_error_app_old|].
  split; [reflexivity|]. split; [reflexivity|]. cbn [items].
  split; [apply index_col_apply|].
  intros i l v Hi. eexists. split; [apply nth_error_col_apply, Hi|].
  unfold render_with, numeric_formatter.
  destruct (numeric_selected v) eqn:Hsel; [|reflexivity].
  destruct (Hfmt l v (nth_error_In _ _ Hi) Hsel) as [x Hx].
  rewrite Hx. eauto.
Qed.


(** *** to_string on strings *)

Lemma strings_not_numeric (c : column value) :
  strings_or_missing c ->
  existsb (fun kv => numeric_selected (snd kv)) c = false.
Proof.
  intros Hc. destruct (existsb _ c) eqn:Hex; [|reflexivity].
  apply existsb_exists in Hex as ([l v] & Hin & Hsel). cbn [snd] in Hsel.
  destruct (Hc l v Hin) as [Hnull|[x ->]]; [|discriminate].
  unfold numeric_selected, notnull_value in Hsel. rewrite Hnull in Hsel.
  now rewrite andb_false_r in Hsel.
Qed.

Lemma strings_not_datetime (c : column value) :
  strings_or_missing c ->
  existsb (fun kv => type_is_datetime (snd kv)) c = false.
Proof.
  intros Hc. destruct (existsb _ c) eqn:Hex; [|reflexivity].
  apply existsb_exists in Hex as ([l v] & Hin & Hsel). cbn [snd] in Hsel.
  destruct (Hc l v Hin) as [Hnull|[x ->]]; [|discriminate].
  destruct v; discriminate.
Qed.

Lemma to_string_value_shape float_format datetime_format v :
  if notnull_value v
  then exists x, to_string_value E float_format datetime_format v = VStr x
  else to_string_value E float_format datetime_format v = VNaN.
Proof.
  unfold to_string_value. destruct (notnull_value v); [|reflexivity].
  unfold astype_str.
  destruct (render_with type_is_datetime _ _); eauto.
Qed.

Lemma to_string_value_of_string float_format datetime_format (c : column value) :
  strings_or_missing c ->
  col_apply (to_string_value E float_format datetime_format) c
  = col_apply missing_as_nan c.
Proof.
  intros Hc. unfold col_apply. apply map_ext_in. intros [l v] Hin.
  cbn [fst snd]. f_equal.
  destruct (Hc l v Hin) as [Hnull|[x ->]]; [|reflexivity].
  unfold to_string_value, missing_as_nan, notnull_value. now rewrite Hnull.
Qed.

Lemma to_string_of_strings_run (r : ref) (s : series) (st : state)
    (float_format datetime_format : string) :
  nth_error (heap st) r = Some s ->
  strings_or_missing (items s) ->
  exists ext,
    to_string E r float_format datetime_format st
    = (Returned (List.length (heap st ++ ext)),
       mkState
         (heap st ++ ext ++
            [mkSeries (name s) DObject (col_apply missing_as_nan (items s))])
         (log st)).
Proof.
  intros H Hs.
  destruct (to_string_run r s st float_format datetime_format H) as [ext Hts].
  rewrite (apply_raising_nil_unselected _ _ _ (strings_not_numeric _ Hs)) in Hts.
  rewrite (render_with_unselected _ _ _ (strings_not_numeric _ Hs)) in Hts.
  rewrite (apply_raising_nil_unselected _ _ _ (strings_not_datetime _ Hs)) in Hts.
  rewrite (to_string_value_of_string _ _ _ Hs) in Hts.
  now exists ext.
Qed.

(** X4: on a column that holds only strings and missing values
    [to_string] calls no formatter and cannot raise: whatever the format
    strings, it returns a new object column with the same name and index
    in which every string is unchanged and every missing value is NaN,
    and it leaves the input and the log as they are. *)
Theorem to_string_of_strings (r : ref) (s : series) (st : state)
    (float_format datetime_format : string) :
  nth_error (heap st) r = Some s ->
  strings_or_missing (items s) ->
  exists r' st',
    to_string E r float_format datetime_format st = (Returned r', st') /\
    nth_error (heap st') r'
    = Some (mkSeries (name s) DObject (col_apply missing_as_nan (items s))) /\
    created_between st st' r' /\
    nth_error (heap st') r = Some s /\
    log st' = log st.
Proof.
  intros H Hs.
  destruct (to_string_of_strings_run r s st float_format datetime_format H Hs)
    as [ext Hts].
  do 2 eexists. split; [exact Hts|]. cbn [heap log].
  split; [rewrite app_assoc; apply nth_error_snoc_new|].
  split; [unfold created_between; cbn [heap]; rewrite !length_app;
          cbn [List.length]; lia|].
  split; [now apply nth_error_app_old | reflexivity].
Qed.

Lemma to_string_dangling (r : ref) (st : state) float_format datetime_format :
  nth_error (heap st) r = None ->
  to_string E r float_format datetime_format st
  = (Raised ReferenceError "dangling reference", st).
Proof.
  intros H. unfold to_string, _numeric_to_string, copy.
  repeat apply bind_raised. unfold load. now rewrite H.
Qed.

(** X5: [to_string] is idempotent: the column it returns holds strings
    and NaN only, so a second call on that column, with any format
    strings, cannot raise and returns a column equal to the first
    result. *)
Theorem to_string_idempotent (r r1 : ref) (st st1 : state)
    (float_format datetime_format float_format' datetime_format' : string) :
  to_string E r float_format datetime_format st = (Returned r1, st1) ->
  exists o r2 st2,
    nth_error (heap st1) r1 = Some o /\
    to_string E r1 float_format' datetime_format' st1 = (Returned r2, st2) /\
    nth_error (heap st2) r2 = Some o /\
    r2 <> r1.
Proof.
  intros Hfirst.
  destruct (nth_error (heap st) r) as [s|] eqn:H.
  2:{ rewrite (to_string_dangling _ _ _ _ H) in Hfirst. discriminate. }
  destruct (to_string_run r s st float_format datetime_format H) as [ext Hts].
  rewrite Hfirst in Hts.
  destruct (apply_raising (numeric_formatter E float_format) _); [|discriminate].
  destruct (apply_raising (datetime_formatter E datetime_format) _);
    [|discriminate].
  inversion Hts; subst. clear Hts.
  set (o := mkSeries (name s) DObject
              (col_apply (to_string_value E float_format datetime_format)
                 (items s))).
  assert (Ho : nth_error (heap (mkState (heap st ++ ext ++ [o]) (log st)))
                 (List.length (heap st ++ ext)) = Some o).
  { cbn [heap]. rewrite app_assoc. apply nth_error_snoc_new. }
  assert (Hstr : strings_or_missing (items o)).
  { intros l w Hin. cbn [items o] in Hin. unfold col_apply in Hin.
    apply in_map_iff in Hin as ([l' v] & Heq & _). cbn [fst snd] in Heq.
    inversion Heq; subst.
    pose proof (to_string_value_shape float_format datetime_format v) as Hv.
    destruct (notnull_value v); [right; exact Hv | left; now rewrite Hv]. }
  destruct (to_string_of_strings_run _ _ _ float_format' datetime_format' Ho Hstr)
    as (ext2 & Hsecond).
  do 3 eexists. split; [exact Ho|]. split; [exact Hsecond|].
  cbn [heap]. split.
  - rewrite app_assoc, nth_error_snoc_new. f_equal.
    unfold o. cbn [name items]. f_equal.
    rewrite col_apply_col_apply. unfold col_apply. apply map_ext.
    intros [l v]. cbn [fst snd]. f_equal.
    pose proof (to_string_value_shape float_format datetime_format v) as Hv.
    destruct (notnull_value v).
    + destruct Hv as [x ->]. reflexivity.
    + now rewrite Hv.
  - rewrite !length_app. cbn [List.length]. lia.
Qed.

(** *** The validators with their default options *)

Lemma rows_of_single_mask (m : column bool) :
  rows_by_position (index m) [values m]
  = map (fun kv => (fst kv, [Some (snd kv)])) m.
Proof.
  induction m as [|[l b] m IH]; [reflexivity|].
  cbn [index values map fst snd rows_by_position hd_error tl].
  f_equal. exact IH.
Qed.

Lemma frame_any_single_mask (k : string) (m : column bool) :
  pandas_concat [(k, m)]
  = Returned (mkFrame [k] (map (fun kv => (fst kv, [Some (snd kv)])) m)) /\
  frame_any (mkFrame [k] (map (fun kv => (fst kv, [Some (snd kv)])) m)) = m.
Proof.
  split.
  - unfold pandas_concat. cbn [map fst snd all_same_index forallb hd].
    now rewrite rows_of_single_mask.
  - unfold frame_any. cbn [rows].
    induction m as [|[l b] m IH]; [reflexivity|].
    cbn [map fst snd existsb cell_true]. rewrite IH.
    now destruct b.
Qed.

Lemma col_apply_id {A} (c : column A) : col_apply (fun v => v) c = c.
Proof.
  unfold col_apply. induction c as [|[l v] c IH]; simpl; [reflexivity|].
  now rewrite IH.
Qed.

Lemma mask_not_col_apply {A} (p : A -> bool) (c : column A) :
  mask_not (col_apply p c) = col_apply (fun v => negb (p v)) c.
Proof. unfold mask_not. apply col_apply_col_apply. Qed.

(** Writing the missing marker where the nonconvertible mask is true
    changes nothing: those entries are missing already. *)
Lemma where_not_nonconvertible (g : value -> value) (na : value)
    (c : column value) :
  (forall v, isnull_value (g v) = true -> g v = na) ->
  where_ (col_apply g c)
    (mask_not (mask_and (notnull c) (isnull (col_apply g c)))) na
  = col_apply g c.
Proof.
  intros Hna. rewrite nonconvertible_mask_entries, mask_not_col_apply.
  rewrite where_col_apply. unfold col_apply. apply map_ext. intros [l v].
  cbn [fst snd]. f_equal.
  destruct (notnull_value v); cbn [andb negb]; [|reflexivity].
  destruct (isnull_value (g v)) eqn:Hg; cbn [negb]; [|reflexivity].
  symmetry. now apply Hna.
Qed.

Lemma where_not_nonconvertible_numeric s :
  where_ (items (coerced_numeric E s))
    (mask_not (mask_and (notnull (items s))
                 (isnull (items (coerced_numeric E s)))))
    (na_of (dtype_of (coerced_numeric E s)))
  = items (coerced_numeric E s).
Proof.
  unfold coerced_numeric. destruct (negb (dtype_is_number (dtype_of s))).
  - cbn [items dtype_of na_of]. apply where_not_nonconvertible.
    intros v. unfold numeric_lenient.
    destruct (pd_numeric E v) as [[q|]|]; cbn; congruence.
  - unfold notnull, isnull.
    rewrite mask_and_col_apply, mask_not_col_apply.
    rewrite <- (col_apply_id (items s)) at 1.
    rewrite where_col_apply. rewrite <- (col_apply_id (items s)) at 2.
    unfold col_apply. apply map_ext. intros [l v]. cbn [fst snd]. f_equal.
    unfold notnull_value. now destruct (isnull_value v).
Qed.



Lemma where_not_nonconvertible_datetime s :
  where_ (items (coerced_datetime E s))
    (mask_not (mask_and (notnull (items s))
                 (isnull (items (coerced_datetime E s)))))
    (na_of (dtype_of (coerced_datetime E s)))
  = items (coerced_datetime E s).
Proof.
  unfold coerced_datetime. destruct (negb (dtype_is_datetime64 (dtype_of s))).
  - cbn [items dtype_of na_of]. apply where_not_nonconvertible.
    intros v. unfold datetime_lenient.
    destruct (pd_datetime E dt_defaults v) as [[t|]|]; cbn; congruence.
  - unfold notnull, isnull.
    rewrite mask_and_col_apply, mask_not_col_apply.
    rewrite <- (col_apply_id (items s)) at 1.
    rewrite where_col_apply. rewrite <- (col_apply_id (items s)) at 2.
    unfold col_apply. apply map_ext. intros [l v]. cbn [fst snd]. f_equal.
    unfold notnull_value. now destruct (isnull_value v).
Qed.

Lemma return_view_single_mask (c : ref) (conv : series) (st : state)
    (k : string) (m : column bool) :
  nth_error (heap st) c = Some conv ->
  return_view c [(k, m)] (Some "mask_series") st = (Returned (RMaskSeries m), st) /\
  return_view c [(k, m)] (Some "values") st
  = (Returned (RValues (List.length (heap st))),
     mkState
       (heap st ++
          [mkSeries (name conv) (dtype_of conv)
             (where_ (items conv) (mask_not m) (na_of (dtype_of conv)))])
       (log st)).
Proof.
  intros Hc. destruct (frame_any_single_mask k m) as [Hconcat Hany].
  unfold return_view. rewrite Hconcat. split.
  - step ltac:(apply lift_run). cbn [String.eqb Ascii.eqb Bool.eqb].
    now rewrite Hany.
  - step ltac:(apply lift_run). cbn [String.eqb Ascii.eqb Bool.eqb].
    step ltac:(apply load_ok; find_object).
    now rewrite Hany.
Qed.

Lemma notification_of_nonconvertible (n : option string) error_info m :
  dict_get "nonconvertible" error_info
  = Some "Value(s) not converted to datetime set as NaT" ->
  notification n (triggered_fragments error_info [("nonconvertible", m)])
  = nonconvertible_notification n m.
Proof.
  intros Hget. unfold triggered_fragments, nonconvertible_notification.
  cbn [flat_map fst snd]. rewrite Hget.
  destruct (mask_any m); reflexivity.
Qed.

Lemma series_eta (s : series) : mkSeries (name s) (dtype_of s) (items s) = s.
Proof. now destruct s. Qed.

Lemma validate_numeric_default_run (r : ref) (s : series) (st : state) :
  nth_error (heap st) r = Some s ->
  let c := coerced_numeric E s in
  let nonconv := mask_and (notnull (items s)) (isnull (items c)) in
  let lg := log st ++ nonconvertible_notification (name s) nonconv in
  validate_numeric E r true false false None None (Some "mask_series") st
  = (Returned (RMaskSeries nonconv), mkState (heap st ++ [c]) lg) /\
  validate_numeric E r true false false None None (Some "values") st
  = (Returned (RValues (S (List.length (heap st)))),
     mkState (heap st ++ [c; c]) lg).
Proof.
  intros H c nonconv lg.
  assert (Hrun : forall rt,
             validate_numeric E r true false false None None rt st
             = return_view (List.length (heap st)) [("nonconvertible", nonconv)]
                 rt (mkState (heap st ++ [c]) lg)).
  { intros rt.
    rewrite (validate_numeric_run r s st true false false None None rt H).
    change (numeric_masks s (coerced_numeric E s) true false false None None)
      with [("nonconvertible", nonconv)].
    now rewrite (notification_of_nonconvertible _ numeric_error_info _ eq_refl). }
  rewrite !Hrun.
  destruct (return_view_single_mask (List.length (heap st)) c
              (mkState (heap st ++ [c]) lg) "nonconvertible" nonconv)
    as [Hms Hv]; [apply nth_error_snoc_new|].
  split; [exact Hms|]. rewrite Hv. cbn [heap log].
  unfold nonconv, c. rewrite where_not_nonconvertible_numeric, series_eta.
  rewrite length_app, Nat.add_1_r, <- app_assoc. reflexivity.
Qed.

Lemma validate_datetime_default_run (r : ref) (s : series) (st : state) :
  nth_error (heap st) r = Some s ->
  let c := coerced_datetime E s in
  let nonconv := mask_and (notnull (items s)) (isnull (items c)) in
  let lg := log st ++ nonconvertible_notification (name s) nonconv in
  validate_datetime E r true false None None (Some "mask_series") st
  = (Returned (RMaskSeries nonconv), mkState (heap st ++ [c]) lg) /\
  validate_datetime E r true false None None (Some "values") st
  = (Returned (RValues (S (List.length (heap st)))),
     mkState (heap st ++ [c; c]) lg).
Proof.
  intros H c nonconv lg.
  assert (Hrun : forall rt,
             validate_datetime E r true false None None rt st
             = return_view (List.length (heap st)) [("nonconvertible", nonconv)]
                 rt (mkState (heap st ++ [c]) lg)).
  { intros rt.
    rewrite (validate_datetime_run r s st true false None None rt H).
    change (datetime_masks E s (coerced_datetime E s) true false None None)
      with (Returned [("nonconvertible", nonconv)]).
    cbv iota.
    now rewrite (notification_of_nonconvertible _ datetime_error_info _ eq_refl). }
  rewrite !Hrun.
  destruct (return_view_single_mask (List.length (heap st)) c
              (mkState (heap st ++ [c]) lg) "nonconvertible" nonconv)
    as [Hms Hv]; [apply nth_error_snoc_new|].
  split; [exact Hms|]. rewrite Hv. cbn [heap log].
  unfold nonconv, c. rewrite where_not_nonconvertible_datetime, series_eta.
  rewrite length_app, Nat.add_1_r, <- app_assoc. reflexivity.
Qed.

(** X6: with their default options (only the nonconvertible check) the
    two mask validators are the lenient coercion, whatever the index of
    the column: [mask_series] is the nonconvertible mask, [values] is a
    column equal to the coerced one (the flagged entries are missing in
    it already), and the only notification, issued exactly when the mask
    has a true entry, is the nonconvertible one. *)
Theorem default_validation_is_the_coercion (r : ref) (s : series) (st : state) :
  nth_error (heap st) r = Some s ->
  (let c := coerced_numeric E s in
   let nonconv := mask_and (notnull (items s)) (isnull (items c)) in
   let lg := log st ++ nonconvertible_notification (name s) nonconv in
   validate_numeric E r true false false None None (Some "mask_series") st
   = (Returned (RMaskSeries nonconv), mkState (heap st ++ [c]) lg) /\
   validate_numeric E r true false false None None (Some "values") st
   = (Returned (RValues (S (List.length (heap st)))),
      mkState (heap st ++ [c; c]) lg)) /\
  (let c := coerced_datetime E s in
   let nonconv := mask_and (notnull (items s)) (isnull (items c)) in
   let lg := log st ++ nonconvertible_notification (name s) nonconv in
   validate_datetime E r true false None None (Some "mask_series") st
   = (Returned (RMaskSeries nonconv), mkState (heap st ++ [c]) lg) /\
   validate_datetime E r true false None None (Some "values") st
   = (Returned (RValues (S (List.length (heap st)))),
      mkState (heap st ++ [c; c]) lg)).
Proof.
  intros H. split.
  - now apply validate_numeric_default_run.
  - now apply validate_datetime_default_run.
Qed.

Lemma nothing_is_both_missing_and_not (c : column value) :
  mask_and (notnull c) (isnull c) = col_apply (fun _ => false) c.
Proof.
  unfold notnull, isnull. rewrite mask_and_col_apply.
  unfold col_apply. apply map_ext. intros [l v]. cbn [fst snd]. f_equal.
  unfold notnull_value. now destruct (isnull_value v).
Qed.

Lemma mask_any_all_false {A} (c : column A) :
  mask_any (col_apply (fun _ => false) c) = false.
Proof.
  unfold mask_any, col_apply. induction c as [|kv c IH]; simpl; [reflexivity|].
  exact IH.
Qed.

(** X7: a column that already has the target dtype passes validation
    with the default options silently, whatever its values and index:
    no notification, an all-false [mask_series], and [values] is a new
    column equal to the input. *)
Theorem typed_column_passes_default_validation (rn rd : ref) (sn sd : series)
    (st : state) :
  nth_error (heap st) rn = Some sn -> dtype_of sn = DNumber ->
  nth_error (heap st) rd = Some sd -> dtype_of sd = DDatetime ->
  (validate_numeric E rn true false false None None (Some "mask_series") st
   = (Returned (RMaskSeries (col_apply (fun _ => false) (items sn))),
      mkState (heap st ++ [sn]) (log st)) /\
   validate_numeric E rn true false false None None (Some "values") st
   = (Returned (RValues (S (List.length (heap st)))),
      mkState (heap st ++ [sn; sn]) (log st))) /\
  (validate_datetime E rd true false None None (Some "mask_series") st
   = (Returned (RMaskSeries (col_apply (fun _ => false) (items sd))),
      mkState (heap st ++ [sd]) (log st)) /\
   validate_datetime E rd true false None None (Some "values") st
   = (Returned (RValues (S (List.length (heap st)))),
      mkState (heap st ++ [sd; sd]) (log st))).
Proof.
  intros Hn Hdn Hd Hdd. split.
  - pose proof (validate_numeric_default_run rn sn st Hn) as Hrun.
    cbv zeta in Hrun.
    replace (coerced_numeric E sn) with sn in Hrun
      by (unfold coerced_numeric; now rewrite Hdn).
    rewrite nothing_is_both_missing_and_not in Hrun.
    unfold nonconvertible_notification in Hrun.
    rewrite mask_any_all_false, app_nil_r in Hrun. exact Hrun.
  - pose proof (validate_datetime_default_run rd sd st Hd) as Hrun.
    cbv zeta in Hrun.
    replace (coerced_datetime E sd) with sd in Hrun
      by (unfold coerced_datetime; now rewrite Hdd).
    rewrite nothing_is_both_missing_and_not in Hrun.
    unfold nonconvertible_notification in Hrun.
    rewrite mask_any_all_false, app_nil_r in Hrun. exact Hrun.
Qed.

(** *** mask_nonconvertible and the validators *)

Lemma mask_nonconvertible_run (first : M ref) d strict lenient
    (r : ref) (s : series) (st : state) :
  nth_error (heap st) r = Some s ->
  first st = coerce_series d strict lenient errors_coerce r st ->
  (converted <- first ;;
   series_copy <- copy r ;;
   sc <- load series_copy ;;
   conv <- load converted ;;
   ret (mask_and (notnull (items sc)) (isnull (items conv)))) st
  = (Returned
       (mask_and (notnull (items s)) (isnull (col_apply lenient (items s)))),
     mkState
       (heap st ++ [mkSeries (name s) d (col_apply lenient (items s)); s])
       (log st)).
Proof.
  intros H Hfirst.
  rewrite (coerce_series_coerce _ _ _ _ _ _ H) in Hfirst.
  step ltac:(exact Hfirst).
  step ltac:(apply copy_ok; find_object).
  step ltac:(apply load_ok; find_object).
  step ltac:(apply load_ok; find_object).
  cbn [items heap log]. rewrite <- app_assoc. reflexivity.
Qed.

(** X8: on a column that has neither a numeric nor a datetime64 dtype,
    the probe and the validators agree: [mask_nonconvertible(series,
    'numeric')] is the [mask_series] of [validate_numeric] with its
    default options, and [mask_nonconvertible(series, 'datetime')] with
    its default format options is the [mask_series] of
    [validate_datetime]; the probe itself notifies nothing. *)
Theorem probe_agrees_with_validators (r : ref) (s : series) (st : state)
    (datetime_format : option string) (exact_date : bool) :
  nth_error (heap st) r = Some s ->
  dtype_is_number (dtype_of s) = false ->
  dtype_is_datetime64 (dtype_of s) = false ->
  (exists m,
      fst (mask_nonconvertible E r "numeric" datetime_format exact_date st)
      = Returned m /\
      fst (validate_numeric E r true false false None None (Some "mask_series") st)
      = Returned (RMaskSeries m)) /\
  (exists m,
      fst (mask_nonconvertible E r "datetime" None true st) = Returned m /\
      fst (validate_datetime E r true false None None (Some "mask_series") st)
      = Returned (RMaskSeries m)) /\
  log (snd (mask_nonconvertible E r "numeric" datetime_format exact_date st))
  = log st /\
  log (snd (mask_nonconvertible E r "datetime" datetime_format exact_date st))
  = log st.
Proof.
  intros H Hn Hd.
  pose proof (mask_nonconvertible_run
                (pandas_to_numeric_series E r errors_coerce)
                DNumber (numeric_strict E) (numeric_lenient E) r s st H eq_refl)
    as Hprobe_n.
  pose proof (fun o =>
                mask_nonconvertible_run
                  (pandas_to_datetime_series E r errors_coerce o)
                  DDatetime (datetime_strict E o) (datetime_lenient E o)
                  r s st H eq_refl)
    as Hprobe_d.
  split; [|split; [|split]].
  - eexists. split.
    + change (mask_nonconvertible E r "numeric" datetime_format exact_date st)
        with ((converted <- pandas_to_numeric_series E r errors_coerce ;;
               series_copy <- copy r ;;
               sc <- load series_copy ;;
               conv <- load converted ;;
               ret (mask_and (notnull (items sc)) (isnull (items conv)))) st).
      rewrite Hprobe_n. reflexivity.
    + destruct (validate_numeric_default_run r s st H) as [Hms _].
      rewrite Hms. unfold coerced_numeric. rewrite Hn. reflexivity.
  - eexists. split.
    + change (mask_nonconvertible E r "datetime" None true st)
        with ((converted <- pandas_to_datetime_series E r errors_coerce
                              dt_defaults ;;
               series_copy <- copy r ;;
               sc <- load series_copy ;;
               conv <- load converted ;;
               ret (mask_and (notnull (items sc)) (isnull (items conv)))) st).
      rewrite Hprobe_d. reflexivity.
    + destruct (validate_datetime_default_run r s st H) as [Hms _].
      rewrite Hms. unfold coerced_datetime. rewrite Hd. reflexivity.
  - change (mask_nonconvertible E r "numeric" datetime_format exact_date st)
      with ((converted <- pandas_to_numeric_series E r errors_coerce ;;
             series_copy <- copy r ;;
             sc <- load series_copy ;;
             conv <- load converted ;;
             ret (mask_and (notnull (items sc)) (isnull (items conv)))) st).
    now rewrite Hprobe_n.
  - change (mask_nonconvertible E r "datetime" datetime_format exact_date st)
      with ((converted <- pandas_to_datetime_series E r errors_coerce
                            (mkDtOptions false false None true datetime_format
                               exact_date) ;;
             series_copy <- copy r ;;
             sc <- load series_copy ;;
             conv <- load converted ;;
             ret (mask_and (notnull (items sc)) (isnull (items conv)))) st).
    now rewrite Hprobe_d.
Qed.

(** *** Coercion first, validation next *)

Lemma dangling_coercion d strict lenient errors (r : ref) (st : state) :
  nth_error (heap st) r = None ->
  (r' <- coerce_series d strict lenient errors r ;; ret (ArgSeries r')) st
  = (Raised ReferenceError "dangling reference", st).
Proof.
  intros H. apply bind_raised. unfold coerce_series. apply bind_raised.
  unfold load. now rewrite H.
Qed.

Lemma to_numeric_series_result (r : ref) (st st1 : state) (out : pyarg) :
  to_numeric E (ArgSeries r) st = (Returned out, st1) ->
  exists s,
    nth_error (heap st) r = Some s /\
    out = ArgSeries (List.length (heap st)) /\
    heap st1
    = heap st ++ [mkSeries (name s) DNumber
                    (col_apply (numeric_lenient E) (items s))].
Proof.
  unfold to_numeric, try_except, pandas_to_numeric, pandas_to_numeric_series.
  destruct (nth_error (heap st) r) as [s|] eqn:H.
  - rewrite (strict_series_run _ _ _ _ _ _ H).
    destruct (apply_raising (numeric_strict E) (items s)) as [c|k msg] eqn:Hs.
    + intros Hret. inversion Hret; subst. exists s. cbn [heap].
      rewrite (strict_agrees_with_lenient _ _ _ _ numeric_strict_lenient Hs).
      auto.
    + destruct k; cbn [exn_kind_eqb]; try discriminate.
      erewrite bind_ok by (apply lenient_series_run; exact H). cbv beta.
      erewrite bind_ok
        by (step ltac:(apply load_ok; find_object); reflexivity).
      intros Hret. inversion Hret; subst. exists s. auto.
  - rewrite (dangling_coercion _ _ _ _ _ _ H). discriminate.
Qed.

Lemma to_datetime_series_result (r : ref) (o : dt_options) (st st1 : state)
    (out : pyarg) :
  to_datetime E (ArgSeries r) o st = (Returned out, st1) ->
  exists s,
    nth_error (heap st) r = Some s /\
    out = ArgSeries (List.length (heap st)) /\
    heap st1
    = heap st ++ [mkSeries (name s) DDatetime
                    (col_apply (datetime_lenient E o) (items s))].
Proof.
  unfold to_datetime, try_except, pandas_to_datetime, pandas_to_datetime_series.
  destruct (nth_error (heap st) r) as [s|] eqn:H.
  - rewrite (strict_series_run _ _ _ _ _ _ H).
    destruct (apply_raising (datetime_strict E o) (items s)) as [c|k msg] eqn:Hs.
    + intros Hret. inversion Hret; subst. exists s. cbn [heap].
      rewrite (strict_agrees_with_lenient _ _ _ _ (datetime_strict_lenient o) Hs).
      auto.
    + destruct k; cbn [exn_kind_eqb]; try discriminate.
      erewrite bind_ok by (apply lenient_series_run; exact H). cbv beta.
      erewrite bind_ok
        by (step ltac:(apply load_ok; find_object); reflexivity).
      intros Hret. inversion Hret; subst. exists s. auto.
  - rewrite (dangling_coercion _ _ _ _ _ _ H). discriminate.
Qed.

(** X9: what the tolerant coercers return passes validation: on the
    column returned by [to_numeric] ([to_datetime]), [validate_numeric]
    ([validate_datetime]) with its default options notifies nothing and
    returns, as [values], a column equal to it. *)
Theorem coerced_column_passes_validation (r r1 r' r1' : ref)
    (st st1 st' st1' : state) (o : dt_options) :
  to_numeric E (ArgSeries r) st = (Returned (ArgSeries r1), st1) ->
  to_datetime E (ArgSeries r') o st' = (Returned (ArgSeries r1'), st1') ->
  (exists c,
      nth_error (heap st1) r1 = Some c /\
      validate_numeric E r1 true false false None None (Some "values") st1
      = (Returned (RValues (S (List.length (heap st1)))),
         mkState (heap st1 ++ [c; c]) (log st1))) /\
  (exists c,
      nth_error (heap st1') r1' = Some c /\
      validate_datetime E r1' true false None None (Some "values") st1'
      = (Returned (RValues (S (List.length (heap st1')))),
         mkState (heap st1' ++ [c; c]) (log st1'))).
Proof.
  intros Hn Hd. split.
  - destruct (to_numeric_series_result _ _ _ _ Hn) as (s & _ & Hout & Hheap).
    inversion Hout; subst r1.
    assert (Hc : nth_error (heap st1) (List.length (heap st))
                 = Some (mkSeries (name s) DNumber
                           (col_apply (numeric_lenient E) (items s))))
      by (rewrite Hheap; apply nth_error_snoc_new).
    eexists. split; [exact Hc|].
    destruct (validate_numeric_default_run _ _ _ Hc) as [_ Hv].
    rewrite Hv. unfold coerced_numeric. cbn [dtype_of dtype_is_number negb].
    rewrite nothing_is_both_missing_and_not.
    unfold nonconvertible_notification.
    now rewrite mask_any_all_false, app_nil_r.
  - destruct (to_datetime_series_result _ _ _ _ _ Hd) as (s & _ & Hout & Hheap).
    inversion Hout; subst r1'.
    assert (Hc : nth_error (heap st1') (List.length (heap st'))
                 = Some (mkSeries (name s) DDatetime
                           (col_apply (datetime_lenient E o) (items s))))
      by (rewrite Hheap; apply nth_error_snoc_new).
    eexists. split; [exact Hc|].
    destruct (validate_datetime_default_run _ _ _ Hc) as [_ Hv].
    rewrite Hv. unfold coerced_datetime. cbn [dtype_of dtype_is_datetime64 negb].
    rewrite nothing_is_both_missing_and_not.
    unfold nonconvertible_notification.
    now rewrite mask_any_all_false, app_nil_r.
Qed.

(** X10: without a [return_type] the mask validators build no frame and
    return [None]: [validate_numeric] without the integer check does so
    for every column and every other option (no key it enters lacks a
    fragment), and [validate_datetime] does so unless the comparison with
    a bound raises, which happens before anything is notified. *)
Theorem validation_without_return_type (r : ref) (s : series) (st : state) :
  nth_error (heap st) r = Some s ->
  (forall nullable unique min_value max_value,
      validate_numeric E r nullable unique false min_value max_value None st
      = (Returned RNone,
         mkState (heap st ++ [coerced_numeric E s])
           (log st ++
              notification (name s)
                (triggered_fragments numeric_error_info
                   (numeric_masks s (coerced_numeric E s) nullable unique
                      false min_value max_value))))) /\
  (forall nullable unique min_datetime max_datetime,
      validate_datetime E r nullable unique min_datetime max_datetime None st
      = match datetime_masks E s (coerced_datetime E s) nullable unique
                min_datetime max_datetime with
        | Returned masks =>
            (Returned RNone,
             mkState (heap st ++ [coerced_datetime E s])
               (log st ++
                  notification (name s)
                    (triggered_fragments datetime_error_info masks)))
        | Raised k msg =>
            (Raised k msg, mkState (heap st ++ [coerced_datetime E s]) (log st))
        end).
Proof.
  intros H. split.
  - intros. now rewrite (validate_numeric_run r s st _ _ _ _ _ _ H).
  - intros. rewrite (validate_datetime_run r s st _ _ _ _ _ H).
    now destruct (datetime_masks E s (coerced_datetime E s) nullable unique
                    min_datetime max_datetime).
Qed.

(** *** validate_string *)

Lemma only_strings_when_no_conversion (c : column value) :
  mask_any (col_apply (fun x => negb (isinstance_str x)) (dropna c)) = false ->
  strings_or_missing c.
Proof.
  rewrite mask_any_col_apply. intros Hnone l v Hin.
  destruct (isnull_value v) eqn:Hnull; [now left | right].
  destruct v; try discriminate; eauto;
    (assert (Hex : existsb (fun kv : label * value => negb (isinstance_str (snd kv)))
                     (dropna c) = true);
     [ apply existsb_exists; eexists; split;
       [ apply filter_In; split; [exact Hin | reflexivity] | reflexivity ]
     | congruence ]).
Qed.

Lemma stringified_by_to_string float_format datetime_format (c : column value) :
  stringified c (col_apply (to_string_value E float_format datetime_format) c).
Proof.
  split; [apply index_col_apply|].
  intros i l v Hi. eexists. split; [apply nth_error_col_apply, Hi|].
  pose proof (to_string_value_shape float_format datetime_format v) as Hv.
  unfold notnull_value in Hv.
  destruct (isnull_value v); cbn [negb] in Hv.
  - split; [intros _; now rewrite Hv | discriminate].
  - split; [discriminate | intros _; exact Hv].
Qed.

Lemma stringified_strings (c : column value) :
  strings_or_missing c -> stringified c c.
Proof.
  intros Hc. split; [reflexivity|].
  intros i l v Hi. exists v. split; [exact Hi|].
  split; [trivial|]. intros Hnn.
  destruct (Hc l v (nth_error_In _ _ Hi)) as [Hnull|Hstr]; [congruence|exact Hstr].
Qed.

(** The object [validate_string] returns: the copy or the result of
    [to_string] it validated, untouched by the checks. *)
Lemma validate_string_validated (r : ref) (s : series) (st : state)
    nullable unique min_length max_length case newlines trailing_whitespace
    whitespace matching_regex non_matching_regex whitelist blacklist
    return_values :
  nth_error (heap st) r = Some s ->
  let res :=
    validate_string E r nullable unique min_length max_length case newlines
      trailing_whitespace whitespace matching_regex non_matching_regex
      whitelist blacklist return_values st in
  forall r', fst res = Returned (Some r') ->
    exists out,
      nth_error (heap (snd res)) r' = Some out /\
      name out = name s /\
      stringified (items s) (items out).
Proof.
  intros H res. subst res. unfold validate_string.
  step ltac:(apply load_ok; find_object).
  assert (Hrest : forall (validated : ref) (v : series) (rest : M (option ref))
                    (st1 : state),
             nth_error (heap st1) validated = Some v ->
             name v = name s ->
             stringified (items s) (items v) ->
             emits (string_notifications (name v) min_length max_length case
                      matching_regex non_matching_regex) rest ->
             returns_only (fun o => o = Some validated \/ o = None) rest ->
             forall r', fst (rest st1) = Returned (Some r') ->
               exists out,
                 nth_error (heap (snd (rest st1))) r' = Some out /\
                 name out = name s /\
                 stringified (items s) (items out)).
  { intros validated v rest st1 Hv Hn Hstr Hemits Hret r' Hr'.
    destruct (Hemits st1) as (msgs & Hh' & _ & _).
    destruct (Hret st1 _ Hr') as [Hr|Hr]; [|discriminate].
    inversion Hr; subst. exists v. rewrite Hh'. auto. }
  destruct (mask_any
              (col_apply (fun x => negb (isinstance_str x)) (dropna (items s))))
    eqn:Hconv.
  - destruct (to_string_run r s st "%g" "%Y-%m-%d" H) as [ext Hts].
    destruct (apply_raising (numeric_formatter E "%g")
                (filter (fun kv => numeric_selected (snd kv)) (items s)))
      as [strs|k msg].
    + destruct (apply_raising (datetime_formatter E "%Y-%m-%d")
                  (filter (fun kv => type_is_datetime (snd kv))
                     (col_apply
                        (render_with numeric_selected (numeric_formatter E "%g"))
                        (items s))))
        as [strs2|k msg].
      * step ltac:(exact Hts).
        step ltac:(apply load_ok; cbn [heap]; rewrite app_assoc;
                   apply nth_error_snoc_new).
        eapply Hrest with (validated := List.length (heap st ++ ext)).
        -- cbn [heap]. rewrite app_assoc. apply nth_error_snoc_new.
        -- reflexivity.
        -- cbn [items]. apply stringified_by_to_string.
        -- cbn [name]. unfold string_notifications. checks.
           destruct return_values; apply emits_ret.
        -- repeat (apply returns_only_bind; intros ?).
           destruct return_values; apply returns_only_ret; auto.
      * erewrite bind_raised by exact Hts. discriminate.
    + erewrite bind_raised by exact Hts. discriminate.
  - step ltac:(apply copy_ok; find_object).
    step ltac:(apply load_ok; find_object).
    eapply Hrest with (validated := List.length (heap st)).
    + apply nth_error_snoc_new.
    + reflexivity.
    + apply stringified_strings. now apply only_strings_when_no_conversion.
    + unfold string_notifications. checks.
      destruct return_values; apply emits_ret.
    + repeat (apply returns_only_bind; intros ?).
      destruct return_values; apply returns_only_ret; auto.
Qed.

(** X11: the column [validate_string] returns holds strings: whatever
    the configuration and whatever was notified, it has the name and the
    index of the input, a string at every position where the input is
    non-missing and a missing marker at every position where the input is
    missing. *)
Theorem validate_string_returns_strings (r r' : ref) (s : series)
    (st st' : state)
    nullable unique min_length max_length case newlines trailing_whitespace
    whitespace matching_regex non_matching_regex whitelist blacklist
    return_values :
  nth_error (heap st) r = Some s ->
  validate_string E r nullable unique min_length max_length case newlines
    trailing_whitespace whitespace matching_regex non_matching_regex
    whitelist blacklist return_values st = (Returned (Some r'), st') ->
  return_values = true /\
  exists out,
    nth_error (heap st') r' = Some out /\
    name out = name s /\
    stringified (items s) (items out).
Proof.
  intros H Hcall. split.
  - destruct return_values; [reflexivity|].
    assert (Hnone : returns_only (fun o : option ref => o = None)
                      (validate_string E r nullable unique min_length max_length
                         case newlines trailing_whitespace whitespace
                         matching_regex non_matching_regex whitelist blacklist
                         false)).
    { unfold validate_string.
      repeat (apply returns_only_bind; intros ?).
      now apply returns_only_ret. }
    specialize (Hnone st (Some r')). rewrite Hcall in Hnone.
    specialize (Hnone eq_refl). discriminate.
  - pose proof (validate_string_validated r s st nullable unique min_length
                  max_length case newlines trailing_whitespace whitespace
                  matching_regex non_matching_regex whitelist blacklist
                  return_values H) as Hval.
    cbv zeta in Hval. rewrite Hcall in Hval. apply (Hval r' eq_refl).
Qed.

(** X12: with its default arguments [validate_string] checks nothing:
    it notifies nothing on any column, and on a column that holds only
    strings and missing values it returns, when asked for the values, a
    new column equal to the input. *)
Theorem validate_string_defaults (r : ref) (s : series) (st : state)
    (return_values : bool) :
  nth_error (heap st) r = Some s ->
  log (snd (validate_string E r true false None None None true true true
              None None None None return_values st)) = log st /\
  (if mask_any (col_apply (fun x => negb (isinstance_str x)) (dropna (items s)))
   then True
   else validate_string E r true false None None None true true true
          None None None None true st
        = (Returned (Some (List.length (heap st))),
           mkState (heap st ++ [s]) (log st))).
Proof.
  intros H. unfold validate_string.
  assert (Hload : forall k : series -> M (option ref),
             (s0 <- load r ;; k s0) st = k s st)
    by (intros k; now step ltac:(apply load_ok; find_object)).
  rewrite !Hload. clear Hload.
  destruct (mask_any
              (col_apply (fun x => negb (isinstance_str x)) (dropna (items s)))).
  - split; [|trivial].
    destruct (to_string_run r s st "%g" "%Y-%m-%d" H) as [ext Hts].
    destruct (apply_raising (numeric_formatter E "%g") _) as [strs|k msg].
    + destruct (apply_raising (datetime_formatter E "%Y-%m-%d") _)
        as [strs2|k msg].
      * step ltac:(exact Hts).
        step ltac:(apply load_ok; cbn [heap]; rewrite app_assoc;
                   apply nth_error_snoc_new).
        now destruct return_values.
      * now erewrite bind_raised by exact Hts.
    + now erewrite bind_raised by exact Hts.
  - split.
    + step ltac:(apply copy_ok; find_object).
      step ltac:(apply load_ok; find_object).
      now destruct return_values.
    + step ltac:(apply copy_ok; find_object).
      step ltac:(apply load_ok; find_object).
      reflexivity.
Qed.

(** *** The length bounds of validate_string *)

Lemma opt_lt_min (a b : option Z) (n : Z) :
  opt_lt (opt_min a b) n = opt_lt a n || opt_lt b n.
Proof.
  destruct a as [x|], b as [y|]; cbn [opt_min opt_lt];
    rewrite ?orb_false_r; try reflexivity.
  destruct (Z.ltb_spec (Z.min x y) n), (Z.ltb_spec x n), (Z.ltb_spec y n);
    cbn [orb]; try reflexivity; lia.
Qed.

Lemma opt_gt_max (a b : option Z) (n : Z) :
  opt_gt (opt_max a b) n = opt_gt a n || opt_gt b n.
Proof.
  destruct a as [x|], b as [y|]; cbn [opt_max opt_gt];
    rewrite ?orb_false_r; try reflexivity.
  destruct (Z.ltb_spec n (Z.max x y)), (Z.ltb_spec n x), (Z.ltb_spec n y);
    cbn [orb]; try reflexivity; lia.
Qed.

Lemma shortest_below_from (n : Z) (c : column value) (acc : option Z) :
  opt_lt (fold_left (fun a kv => opt_min a (snd kv)) (str_len c) acc) n
  = opt_lt acc n || some_shorter n c.
Proof.
  unfold some_shorter, str_len, col_apply. revert acc.
  induction c as [|[l v] c IH]; intros acc; cbn [map fold_left existsb fst snd].
  - now rewrite orb_false_r.
  - rewrite IH, opt_lt_min, <- orb_assoc. do 2 f_equal.
    now destruct v.
Qed.

Lemma shortest_below (n : Z) (c : column value) :
  opt_lt (column_min (str_len c)) n = some_shorter n c.
Proof. unfold column_min. now rewrite shortest_below_from. Qed.

Lemma longest_above_from (n : Z) (c : column value) (acc : option Z) :
  opt_gt (fold_left (fun a kv => opt_max a (snd kv)) (str_len c) acc) n
  = opt_gt acc n || some_longer n c.
Proof.
  unfold some_longer, str_len, col_apply. revert acc.
  induction c as [|[l v] c IH]; intros acc; cbn [map fold_left existsb fst snd].
  - now rewrite orb_false_r.
  - rewrite IH, opt_gt_max, <- orb_assoc. do 2 f_equal.
    now destruct v.
Qed.

Lemma longest_above (n : Z) (c : column value) :
  opt_gt (column_max (str_len c)) n = some_longer n c.
Proof. unfold column_max. now rewrite longest_above_from. Qed.

Lemma no_conversion_when_only_strings (c : column value) :
  strings_or_missing c ->
  mask_any (col_apply (fun x => negb (isinstance_str x)) (dropna c)) = false.
Proof.
  intros Hc. rewrite mask_any_col_apply.
  apply not_true_is_false. intros Hex.
  apply existsb_exists in Hex. destruct Hex as ([l v] & Hin & Hv).
  apply filter_In in Hin. destruct Hin as [Hin Hnn]. cbn [snd] in *.
  destruct (Hc l v Hin) as [Hnull|[x ->]]; [|discriminate].
  unfold notnull_value in Hnn. now rewrite Hnull in Hnn.
Qed.

(** X13: on a column of object dtype that holds only strings and missing
    values, the length bounds of [validate_string] look at the strings
    alone: "too short" is notified exactly when some string has fewer
    characters than [min_length], "too long" exactly when some string has
    more than [max_length], in this order; missing values count for
    neither, and the call returns a copy of the column. *)
Theorem length_bounds_notified (r : ref) (s : series) (st : state)
    (min_length max_length : Z) (return_values : bool) :
  nth_error (heap st) r = Some s ->
  dtype_is_object (dtype_of s) = true ->
  strings_or_missing (items s) ->
  validate_string E r true false (Some min_length) (Some max_length) None
    true true true None None None None return_values st
  = (Returned (if return_values then Some (List.length (heap st)) else None),
     mkState (heap st ++ [s])
       (log st
        ++ (if some_shorter min_length (items s)
            then [(repr_name (name s) ++ ": string(s) too short (< "
                   ++ str_of_Z min_length ++ " characters)")%string]
            else [])
        ++ (if some_longer max_length (items s)
            then [(repr_name (name s) ++ ": string(s) too long (> "
                   ++ str_of_Z max_length ++ " characters)")%string]
            else []))).
Proof.
  intros H Hobj Hstr. unfold validate_string.
  step ltac:(apply load_ok; find_object).
  rewrite (no_conversion_when_only_strings _ Hstr).
  step ltac:(apply copy_ok; find_object).
  step ltac:(apply load_ok; find_object).
  unfold str_accessor. rewrite Hobj.
  unfold bind at 1. cbn [negb andb when ret].
  unfold bind at 1. cbn [negb andb when ret].
  rewrite <- (shortest_below min_length (items s)),
          <- (longest_above max_length (items s)).
  unfold bind, ret, when, warn.
  destruct (opt_lt (column_min (str_len (items s))) min_length),
           (opt_gt (column_max (str_len (items s))) max_length),
           return_values; cbn; rewrite ?app_nil_r, <- ?app_assoc; reflexivity.
Qed.

(** *** The value checks of validate_string *)

Lemma outside_list_dropna (wl : list value) (c : column value) :
  negb (mask_all (isin (dropna c) wl)) = outside_list wl c.
Proof.
  unfold mask_all, isin, outside_list, dropna, col_apply.
  induction c as [|[l v] c IH]; cbn [filter map forallb existsb fst snd];
    [reflexivity|].
  destruct (notnull_value v); cbn [map forallb fst snd andb orb].
  - rewrite negb_andb, IH. reflexivity.
  - exact IH.
Qed.

Lemma inside_list_dropna (bl : list value) (c : column value) :
  mask_any (isin (dropna c) bl) = inside_list bl c.
Proof.
  unfold mask_any, isin, inside_list, dropna, col_apply.
  induction c as [|[l v] c IH]; cbn [filter map existsb fst snd];
    [reflexivity|].
  destruct (notnull_value v); cbn [map existsb fst snd andb orb].
  - now rewrite IH.
  - exact IH.
Qed.

(** X14: on a column that holds only strings and missing values, the
    checks of [validate_string] against [nullable], [whitelist] and
    [blacklist] notify, in this order, "NaN value(s)" when a missing value
    is not allowed and there is one, "not in whitelist" exactly when some
    non-missing value is outside the whitelist, and "in blacklist" exactly
    when some non-missing value is in the blacklist: a missing value is
    never held against either list, and an empty whitelist is not the
    same as none. *)
Theorem value_checks_notified (r : ref) (s : series) (st : state)
    (nullable : bool) (whitelist blacklist : option (list value))
    (return_values : bool) :
  nth_error (heap st) r = Some s ->
  strings_or_missing (items s) ->
  validate_string E r nullable false None None None true true true None None
    whitelist blacklist return_values st
  = (Returned (if return_values then Some (List.length (heap st)) else None),
     mkState (heap st ++ [s])
       (log st
        ++ (if negb nullable && mask_any (isnull (items s))
            then [(repr_name (name s) ++ ": NaN value(s)")%string]
            else [])
        ++ (match whitelist with
            | Some wl =>
                if outside_list wl (items s)
                then [(repr_name (name s) ++ ": Value(s) not in whitelist")%string]
                else []
            | None => []
            end)
        ++ (match blacklist with
            | Some bl =>
                if inside_list bl (items s)
                then [(repr_name (name s) ++ ": Value(s) in blacklist")%string]
                else []
            | None => []
            end))).
Proof.
  intros H Hstr. unfold validate_string.
  step ltac:(apply load_ok; find_object).
  rewrite (no_conversion_when_only_strings _ Hstr).
  step ltac:(apply copy_ok; find_object).
  step ltac:(apply load_ok; find_object).
  assert (Hwl : match whitelist with
                | Some wl => negb (mask_all (isin (dropna (items s)) wl))
                | None => false
                end
                = match whitelist with
                  | Some wl => outside_list wl (items s)
                  | None => false
                  end)
    by (destruct whitelist; [apply outside_list_dropna | reflexivity]).
  assert (Hbl : match blacklist with
                | Some bl => mask_any (isin (dropna (items s)) bl)
                | None => false
                end
                = match blacklist with
                  | Some bl => inside_list bl (items s)
                  | None => false
                  end)
    by (destruct blacklist; [apply inside_list_dropna | reflexivity]).
  rewrite Hwl, Hbl. clear Hwl Hbl.
  unfold bind, ret, when, warn.
  destruct (negb nullable && mask_any (isnull (items s)));
    destruct whitelist as [wl|]; try destruct (outside_list wl (items s));
    destruct blacklist as [bl|]; try destruct (inside_list bl (items s));
    destruct return_values; cbn; rewrite ?app_nil_r, <- ?app_assoc; reflexivity.
Qed.

(** *** What the fragments of a notification stand for *)

Lemma in_triggered_fragments (f : string) error_info masks :
  In f (triggered_fragments error_info masks) <->
  exists k m, In (k, m) masks /\ mask_any m = true /\
              dict_get k error_info = Some f.
Proof.
  unfold triggered_fragments. rewrite in_flat_map. split.
  - intros ([k m] & Hin & Hf). cbn [fst snd] in Hf.
    destruct (mask_any m) eqn:Hany; [|contradiction].
    destruct (dict_get k error_info) eqn:Hget; [|contradiction].
    destruct Hf as [->|[]]. eauto.
  - intros (k & m & Hin & Hany & Hget). exists (k, m). split; [exact Hin|].
    cbn [fst snd]. rewrite Hany, Hget. now left.
Qed.

Ltac split_keys :=
  repeat match goal with
         | |- context [String.eqb ?a ?b] => destruct (String.eqb_spec a b)
         end.

Lemma numeric_fragment_key (k k' f : string) :
  dict_get k numeric_error_info = Some f ->
  dict_get k' numeric_error_info = Some f ->
  k = k'.
Proof.
  unfold numeric_error_info. cbn [dict_get]. split_keys; congruence.
Qed.

Lemma datetime_fragment_key (k k' f : string) :
  dict_get k datetime_error_info = Some f ->
  dict_get k' datetime_error_info = Some f ->
  k = k'.
Proof.
  unfold datetime_error_info. cbn [dict_get]. split_keys; congruence.
Qed.

Ltac mask_at_key H :=
  cbn [negb app In] in H;
  repeat (destruct H as [H|H]; [inversion H; subst; clear H|]);
  try contradiction.

Lemma numeric_nonconvertible_mask s c nullable unique integer minv maxv m :
  In ("nonconvertible", m)
     (numeric_masks s c nullable unique integer minv maxv) ->
  m = mask_and (notnull (items s)) (isnull (items c)).
Proof.
  unfold numeric_masks. intros Hin.
  destruct nullable, unique, integer, minv as [lo|], maxv as [hi|];
    try destruct (truthy_num (Some lo)); try destruct (truthy_num (Some hi));
    mask_at_key Hin; reflexivity.
Qed.

Lemma numeric_isnull_mask s c unique integer minv maxv :
  In ("isnull", isnull (items c))
     (numeric_masks s c false unique integer minv maxv).
Proof.
  unfold numeric_masks.
  destruct unique, integer, minv as [lo|], maxv as [hi|];
    try destruct (truthy_num (Some lo)); try destruct (truthy_num (Some hi));
    cbn [negb app In]; auto.
Qed.

Lemma numeric_bound_masks s c nullable unique integer (lo hi : Q) m :
  truthy_num (Some lo) = true -> truthy_num (Some hi) = true ->
  (In ("too_low", m)
      (numeric_masks s c nullable unique integer (Some lo) (Some hi)) <->
   m = col_apply (num_lt lo) (dropna (items c))) /\
  (In ("too_high", m)
      (numeric_masks s c nullable unique integer (Some lo) (Some hi)) <->
   m = col_apply (num_gt hi) (dropna (items c))).
Proof.
  intros Hlo Hhi. unfold numeric_masks. rewrite Hlo, Hhi.
  destruct nullable, unique, integer; cbn [negb app In];
    (split; (split; [intros Hin; mask_at_key Hin; reflexivity
                    | intros ->; tauto])).
Qed.

Lemma datetime_nonconvertible_mask s c nullable unique mind maxd masks m :
  datetime_masks E s c nullable unique mind maxd = Returned masks ->
  In ("nonconvertible", m) masks ->
  m = mask_and (notnull (items s)) (isnull (items c)).
Proof.
  unfold datetime_masks, outcome_bind.
  destruct nullable, unique, mind as [lo|], maxd as [hi|];
    try destruct (truthy_str (Some lo)); try destruct (truthy_str (Some hi));
    try destruct (parse_bound E lo); try destruct (parse_bound E hi);
    cbn [negb app]; intros Hm; inversion Hm; subst; clear Hm;
    intros Hin; mask_at_key Hin; reflexivity.
Qed.

Lemma datetime_isnull_mask s c unique mind maxd masks :
  datetime_masks E s c false unique mind maxd = Returned masks ->
  In ("isnull", isnull (items c)) masks.
Proof.
  unfold datetime_masks, outcome_bind.
  destruct unique, mind as [lo|], maxd as [hi|];
    try destruct (truthy_str (Some lo)); try destruct (truthy_str (Some hi));
    try destruct (parse_bound E lo); try destruct (parse_bound E hi);
    cbn [negb app]; intros Hm; inversion Hm; subst; clear Hm;
    cbn [In]; auto.
Qed.

Lemma mask_any_and_right (a b : column bool) :
  mask_any (mask_and a b) = true -> mask_any b = true.
Proof.
  unfold mask_any, mask_and. rewrite !existsb_exists.
  intros ([l x] & Hin & Hx). cbn [snd] in Hx.
  apply in_map_iff in Hin. destruct Hin as ([[l1 x1] [l2 x2]] & Heq & Hin).
  cbn [fst snd] in Heq. inversion Heq as [[Hl Hboth]]. rewrite Hx in Hboth.
  apply andb_true_iff in Hboth. destruct Hboth as [_ Hx2].
  exists (l2, x2). split; [eapply in_combine_r, Hin | exact Hx2].
Qed.

Lemma some_below (lo : Q) (c : column value) :
  mask_any (col_apply (num_lt lo) (dropna c)) = true <->
  exists l q, In (l, VNum q) c /\ (q < lo)%Q.
Proof.
  rewrite mask_any_col_apply, existsb_exists. unfold dropna. split.
  - intros ([l v] & Hin & Hlt). apply filter_In in Hin. destruct Hin as [Hin _].
    cbn [snd] in Hlt. destruct v; try discriminate.
    unfold num_lt in Hlt. destruct (Qlt_le_dec q lo); [eauto | discriminate].
  - intros (l & q & Hin & Hlt). exists (l, VNum q). split.
    + apply filter_In. split; [exact Hin | reflexivity].
    + cbn [snd num_lt]. destruct (Qlt_le_dec q lo) as [_|Hle]; [reflexivity|].
      exfalso. exact (Qlt_not_le _ _ Hlt Hle).
Qed.

Lemma some_above (hi : Q) (c : column value) :
  mask_any (col_apply (num_gt hi) (dropna c)) = true <->
  exists l q, In (l, VNum q) c /\ (hi < q)%Q.
Proof.
  rewrite mask_any_col_apply, existsb_exists. unfold dropna. split.
  - intros ([l v] & Hin & Hlt). apply filter_In in Hin. destruct Hin as [Hin _].
    cbn [snd] in Hlt. destruct v; try discriminate.
    unfold num_gt in Hlt. destruct (Qlt_le_dec hi q); [eauto | discriminate].
  - intros (l & q & Hin & Hlt). exists (l, VNum q). split.
    + apply filter_In. split; [exact Hin | reflexivity].
    + cbn [snd num_gt]. destruct (Qlt_le_dec hi q) as [_|Hle]; [reflexivity|].
      exfalso. exact (Qlt_not_le _ _ Hlt Hle).
Qed.

(** X15: when [validate_numeric] does not allow missing values, whatever
    it reports as not converted it also reports as missing: the fragment
    of the [nonconvertible] mask never comes without the fragment
    "NaN value(s)". *)
Theorem nonconvertible_reported_as_missing (s c : series)
    (unique integer : bool) (min_value max_value : option Q)
    (frags : list string) :
  _get_error_messages
    (numeric_masks s c false unique integer min_value max_value)
    numeric_error_info = Returned frags ->
  In "Value(s) not converted to datetime set as NaT" frags ->
  In "NaN value(s)" frags.
Proof.
  rewrite (get_error_messages_triggered _ _
             (numeric_masks_keys s c false unique integer min_value max_value)).
  intros Hf. inversion Hf; subst; clear Hf.
  rewrite !in_triggered_fragments.
  intros (k & m & Hin & Hany & Hget).
  assert (Hk : k = "nonconvertible")
    by (apply (numeric_fragment_key _ _ _ Hget); reflexivity).
  subst k. apply numeric_nonconvertible_mask in Hin. subst m.
  exists "isnull", (isnull (items c)). split; [apply numeric_isnull_mask|].
  split; [exact (mask_any_and_right _ _ Hany) | reflexivity].
Qed.

(** X16: the same holds of [validate_datetime], provided its bounds could
    be compared with the column: the fragment of the [nonconvertible]
    mask never comes without "NaT value(s)" when missing values are not
    allowed. *)
Theorem nonconvertible_datetime_reported_as_missing (s c : series)
    (unique : bool) (min_datetime max_datetime : option string)
    (masks : list (string * column bool)) (frags : list string) :
  datetime_masks E s c false unique min_datetime max_datetime
    = Returned masks ->
  _get_error_messages masks datetime_error_info = Returned frags ->
  In "Value(s) not converted to datetime set as NaT" frags ->
  In "NaT value(s)" frags.
Proof.
  intros Hmasks.
  rewrite (get_error_messages_triggered _ _
             (datetime_masks_keys _ _ _ _ _ _ _ Hmasks)).
  intros Hf. inversion Hf; subst; clear Hf.
  rewrite !in_triggered_fragments.
  intros (k & m & Hin & Hany & Hget).
  assert (Hk : k = "nonconvertible")
    by (apply (datetime_fragment_key _ _ _ Hget); reflexivity).
  subst k. apply (datetime_nonconvertible_mask _ _ _ _ _ _ _ _ Hmasks) in Hin.
  subst m.
  exists "isnull", (isnull (items c)).
  split; [apply (datetime_isnull_mask _ _ _ _ _ _ Hmasks)|].
  split; [exact (mask_any_and_right _ _ Hany) | reflexivity].
Qed.

(** X17: with bounds other than zero, [validate_numeric] reports
    "value(s) too low" exactly when some number of the coerced column is
    below [min_value], and "values(s) too high" exactly when some number
    is above [max_value]; missing values and the other checks have no
    part in either. *)
Theorem bounds_notified_iff_violated (s c : series)
    (nullable unique integer : bool) (lo hi : Q) (frags : list string) :
  ~ (lo == 0)%Q -> ~ (hi == 0)%Q ->
  _get_error_messages
    (numeric_masks s c nullable unique integer (Some lo) (Some hi))
    numeric_error_info = Returned frags ->
  (In "value(s) too low" frags <->
   exists l q, In (l, VNum q) (items c) /\ (q < lo)%Q) /\
  (In "values(s) too high" frags <->
   exists l q, In (l, VNum q) (items c) /\ (hi < q)%Q).
Proof.
  intros Hlo Hhi.
  assert (Htlo : truthy_num (Some lo) = true).
  { cbn [truthy_num]. apply negb_true_iff, not_true_is_false.
    intros Heq. apply Hlo. now apply Qeq_bool_iff. }
  assert (Hthi : truthy_num (Some hi) = true).
  { cbn [truthy_num]. apply negb_true_iff, not_true_is_false.
    intros Heq. apply Hhi. now apply Qeq_bool_iff. }
  rewrite (get_error_messages_triggered _ _
             (numeric_masks_keys s c nullable unique integer (Some lo) (Some hi))).
  intros Hf. inversion Hf; subst; clear Hf.
  rewrite !in_triggered_fragments, <- some_below, <- some_above.
  split; split.
  - intros (k & m & Hin & Hany & Hget).
    assert (Hk : k = "too_low")
      by (apply (numeric_fragment_key _ _ _ Hget); reflexivity).
    subst k.
    apply (numeric_bound_masks s c nullable unique integer lo hi m Htlo Hthi)
      in Hin.
    now subst m.
  - intros Hany. exists "too_low", (col_apply (num_lt lo) (dropna (items c))).
    split; [|split; [exact Hany | reflexivity]].
    now apply (numeric_bound_masks s c nullable unique integer lo hi _ Htlo Hthi).
  - intros (k & m & Hin & Hany & Hget).
    assert (Hk : k = "too_high")
      by (apply (numeric_fragment_key _ _ _ Hget); reflexivity).
    subst k.
    apply (numeric_bound_masks s c nullable unique integer lo hi m Htlo Hthi)
      in Hin.
    now subst m.
  - intros Hany. exists "too_high", (col_apply (num_gt hi) (dropna (items c))).
    split; [|split; [exact Hany | reflexivity]].
    now apply (numeric_bound_masks s c nullable unique integer lo hi _ Htlo Hthi).
Qed.

(** *** The uniqueness check *)

Lemma duplicated_from_spec (seen : list value) (c : column value) :
  mask_any (duplicated_from seen c) = true <->
  (exists j w, nth_error (values c) j = Some w /\
               existsb (value_eqb w) seen = true) \/
  (exists i j v w, i < j /\ nth_error (values c) i = Some v /\
                   nth_error (values c) j = Some w /\ value_eqb w v = true).
Proof.
  revert seen. unfold mask_any, values.
  induction c as [|[l x] c IH]; intros seen;
    cbn [duplicated_from existsb map fst snd].
  - split; [discriminate|].
    intros [(j & w & Hj & _)|(i & j & v & w & _ & Hi & _)];
      [destruct j | destruct i]; discriminate.
  - rewrite orb_true_iff, IH. split.
    + intros [Hx|[(j & w & Hj & Hw)|(i & j & v & w & Hij & Hi & Hj & Hvw)]].
      * left. exists 0, x. auto.
      * rewrite existsb_app, orb_true_iff in Hw. destruct Hw as [Hw|Hw].
        -- left. exists (S j), w. auto.
        -- right. exists 0, (S j), x, w. cbn [existsb] in Hw.
           rewrite orb_false_r in Hw. repeat split; auto. lia.
      * right. exists (S i), (S j), v, w. repeat split; auto. lia.
    + intros [(j & w & Hj & Hw)|(i & j & v & w & Hij & Hi & Hj & Hvw)].
      * destruct j as [|j]; cbn [nth_error] in Hj.
        -- inversion Hj; subst. now left.
        -- right. left. exists j, w. split; [exact Hj|].
           rewrite existsb_app, Hw. reflexivity.
      * destruct j as [|j]; [lia|]. cbn [nth_error] in Hj.
        destruct i as [|i]; cbn [nth_error] in Hi.
        -- inversion Hi; subst. right. left. exists j, w. split; [exact Hj|].
           rewrite existsb_app. cbn [existsb]. rewrite Hvw.
           now rewrite orb_true_r.
        -- right. right. exists i, j, v, w. repeat split; auto. lia.
Qed.

Lemma numeric_nonunique_mask s c nullable integer minv maxv m :
  In ("nonunique", m) (numeric_masks s c nullable true integer minv maxv) <->
  m = duplicated (dropna (items c)).
Proof.
  unfold numeric_masks.
  destruct nullable, integer, minv as [lo|], maxv as [hi|];
    try destruct (truthy_num (Some lo)); try destruct (truthy_num (Some hi));
    cbn [negb app In];
    (split; [intros Hin; mask_at_key Hin; reflexivity | intros ->; tauto]).
Qed.

(** X18: with [unique] set, [validate_numeric] reports "duplicates"
    exactly when two of the non-missing values of the coerced column,
    taken in the order of the column, are equal; missing values are never
    counted as duplicates of one another. *)
Theorem duplicates_notified_iff_repeated (s c : series)
    (nullable integer : bool) (min_value max_value : option Q)
    (frags : list string) :
  _get_error_messages
    (numeric_masks s c nullable true integer min_value max_value)
    numeric_error_info = Returned frags ->
  (In "duplicates" frags <->
   exists i j v w,
     i < j /\
     nth_error (values (dropna (items c))) i = Some v /\
     nth_error (values (dropna (items c))) j = Some w /\
     value_eqb w v = true).
Proof.
  rewrite (get_error_messages_triggered _ _
             (numeric_masks_keys s c nullable true integer min_value max_value)).
  intros Hf. inversion Hf; subst; clear Hf.
  rewrite in_triggered_fragments. split.
  - intros (k & m & Hin & Hany & Hget).
    assert (Hk : k = "nonunique")
      by (apply (numeric_fragment_key _ _ _ Hget); reflexivity).
    subst k. apply numeric_nonunique_mask in Hin. subst m.
    unfold duplicated in Hany. apply duplicated_from_spec in Hany.
    destruct Hany as [(j & w & _ & Hw)|Hpair]; [discriminate | exact Hpair].
  - intros Hpair. exists "nonunique", (duplicated (dropna (items c))).
    split; [now apply numeric_nonunique_mask|].
    split; [|reflexivity].
    unfold duplicated. apply duplicated_from_spec. now right.
Qed.

End Properties.

(** * The statements on the reference instance *)

Ltac distinct_labels :=
  repeat (constructor; [cbn; intuition discriminate|]); constructor.

(** [mask_nonconvertible_spec] on the column ["1", "2", "x", None]. *)
Lemma mask_nonconvertible_spec_witness :
  let st := mkState [column_1_2_x_None] [] in
  nth_error (heap st) 0 = Some column_1_2_x_None /\
  exists m st',
    mask_nonconvertible reference 0 "numeric" None true st = (Returned m, st') /\
    marks_nonconvertible (numeric_lenient reference) column_1_2_x_None m.
Proof.
  split; [reflexivity|].
  exact (proj1 (mask_nonconvertible_spec reference 0 column_1_2_x_None
                  (mkState [column_1_2_x_None] []) None true eq_refl)).
Defined.



(** [validate_numeric_example] with the reference parser. *)
Lemma validate_numeric_example_witness :
  let st := mkState [column_1_2_x_None] [] in
  (nth_error (heap st) 0 = Some column_1_2_x_None /\
   isnull_value (numeric_lenient reference (VStr "1")) = false /\
   isnull_value (numeric_lenient reference (VStr "2")) = false /\
   isnull_value (numeric_lenient reference (VStr "x")) = true) /\
  exists st' msg,
    validate_numeric reference 0 true false false None None (Some "mask_series") st
    = (Returned
         (RMaskSeries [(0%Z, false); (1%Z, false); (2%Z, true); (3%Z, false)]),
       st') /\
    log st' = log st ++ [msg] /\
    occurs_in "Value(s) not converted to datetime set as NaT" msg = true.
Proof.
  split; [repeat split; reflexivity|].
  exact (proj2 (validate_numeric_example reference 0
                  (mkState [column_1_2_x_None] [])
                  eq_refl eq_refl eq_refl eq_refl)).
Defined.






(** The reference parser hands numbers and timestamps back as they are. *)
Lemma reference_numeric_identity v :
  v = VNaN \/ (exists q, v = VNum q) -> numeric_strict reference v = Returned v.
Proof. intros [->|[q ->]]; reflexivity. Defined.

Lemma reference_datetime_identity v :
  v = VNaT \/ (exists t, v = VTime t) ->
  datetime_strict reference dt_defaults v = Returned v.
Proof. intros [->|[t ->]]; reflexivity. Defined.

Lemma column_1_2half_nan_numeric : numeric_column column_1_2half_nan.
Proof.
  split; [reflexivity|]. cbn. intros l v [H|[H|[H|[]]]]; inversion H; eauto.
Defined.

Lemma column_t10_NaT_datetime : datetime_column column_t10_NaT.
Proof.
  split; [reflexivity|]. cbn. intros l v [H|[H|[]]]; inversion H; eauto.
Defined.

(** [coercion_of_typed_column] on [1.0, 2.5, nan] and on [t=10, NaT]. *)
Lemma coercion_of_typed_column_witness :
  let st := mkState [column_1_2half_nan; column_t10_NaT] [] in
  (nth_error (heap st) 0 = Some column_1_2half_nan /\
   numeric_column column_1_2half_nan /\
   nth_error (heap st) 1 = Some column_t10_NaT /\
   datetime_column column_t10_NaT) /\
  to_numeric reference (ArgSeries 0) st
  = (Returned (ArgSeries 2),
     mkState [column_1_2half_nan; column_t10_NaT; column_1_2half_nan] []) /\
  to_datetime reference (ArgSeries 1) dt_defaults st
  = (Returned (ArgSeries 2),
     mkState [column_1_2half_nan; column_t10_NaT; column_t10_NaT] []).
Proof.
  split.
  - repeat split; try reflexivity;
      [apply column_1_2half_nan_numeric | apply column_t10_NaT_datetime].
  - pose proof (coercion_of_typed_column reference 0 1
                  column_1_2half_nan column_t10_NaT
                  (mkState [column_1_2half_nan; column_t10_NaT] []) dt_defaults
                  eq_refl column_1_2half_nan_numeric reference_numeric_identity
                  eq_refl column_t10_NaT_datetime reference_datetime_identity)
      as [(_ & _ & Hn) (_ & _ & Hd)].
    split; [exact Hn | exact Hd].
Defined.


Lemma column_mixed_formattable :
  formattable reference "%g" "%Y-%m-%d" (items column_mixed).
Proof.
  cbn. intros l v [H|[H|[H|[H|[H|[]]]]]]; inversion H; subst;
    try exact I; eexists; reflexivity.
Defined.


(** [public_operations_do_not_mutate] on the mixed column, through
    [validate_string], which formats it. *)
Lemma public_operations_do_not_mutate_witness :
  let st := mkState [column_mixed] [] in
  nth_error (heap st) 0 = Some column_mixed /\
  let res :=
    validate_string reference 0 true false None None None true true true
      None None None None true st in
  store_preserved st (snd res) /\
  nth_error (heap (snd res)) 0 = Some column_mixed /\
  forall r', fst res = Returned (Some r') -> created_between st (snd res) r'.
Proof.
  split; [reflexivity|].
  exact (proj2 (proj2 (proj2 (proj2
           (public_operations_do_not_mutate reference 0 column_mixed
              (mkState [column_mixed] []) eq_refl))))
           true false None None None true true true None None None None true).
Defined.

(** * The further statements on the reference instance *)

Lemma column_mixed_numbers_format :
  forall l v, In (l, v) (items column_mixed) -> numeric_selected v = true ->
    exists x, percent_format reference "%g" v = Returned x.
Proof.
  cbn. intros l v [H|[H|[H|[H|[H|[]]]]]]; inversion H; subst;
    intros Hsel; try discriminate; eexists; reflexivity.
Defined.

Lemma column_mixed_datetimes_format :
  forall l t, In (l, VTime t) (items column_mixed) ->
    exists x, strftime reference "%Y-%m-%d" t = Returned x.
Proof. intros l t _. eexists. reflexivity. Defined.

Lemma column_a_a_None_strings : strings_or_missing (items column_a_a_None).
Proof.
  cbn. intros l v [H|[H|[H|[]]]]; inversion H; subst;
    [right; eauto | right; eauto | left; reflexivity].
Defined.

(** [numeric_to_string_spec] on the mixed column: the number 3 becomes
    the string "3", the rest stays. *)
Lemma numeric_to_string_spec_witness :
  let st := mkState [column_mixed] [] in
  (nth_error (heap st) 0 = Some column_mixed /\
   forall l v, In (l, v) (items column_mixed) -> numeric_selected v = true ->
     exists x, percent_format reference "%g" v = Returned x) /\
  exists out st',
    _numeric_to_string reference 0 "%g" st = (Returned 2, st') /\
    nth_error (heap st') 2 = Some out /\
    nth_error (heap st') 0 = Some column_mixed /\
    log st' = log st /\
    name out = name column_mixed /\
    index (items out) = index (items column_mixed).
Proof.
  split; [split; [reflexivity | apply column_mixed_numbers_format]|].
  destruct (numeric_to_string_spec reference 0 column_mixed
              (mkState [column_mixed] []) "%g" eq_refl
              column_mixed_numbers_format)
    as (out & st' & Hrun & Hout & Hin & Hlog & Hname & Hidx & _).
  exists out, st'. repeat split; assumption.
Defined.


(** [to_string_of_strings] on the column ["a", "a", None]. *)
Lemma to_string_of_strings_witness :
  let st := mkState [column_a_a_None] [] in
  (nth_error (heap st) 0 = Some column_a_a_None /\
   strings_or_missing (items column_a_a_None)) /\
  exists r' st',
    to_string reference 0 "%g" "%Y-%m-%d" st = (Returned r', st') /\
    nth_error (heap st') r'
    = Some (mkSeries (Some "a") DObject
              [(0%Z, VStr "a"); (1%Z, VStr "a"); (2%Z, VNaN)]) /\
    created_between st st' r' /\
    nth_error (heap st') 0 = Some column_a_a_None /\
    log st' = log st.
Proof.
  split; [split; [reflexivity | apply column_a_a_None_strings]|].
  exact (to_string_of_strings reference 0 column_a_a_None
           (mkState [column_a_a_None] []) "%g" "%Y-%m-%d" eq_refl
           column_a_a_None_strings).
Defined.

(** [to_string_idempotent] on the mixed column. *)
Lemma to_string_idempotent_witness :
  let st := mkState [column_mixed] [] in
  let st1 := snd (to_string reference 0 "%g" "%Y-%m-%d" st) in
  to_string reference 0 "%g" "%Y-%m-%d" st = (Returned 6, st1) /\
  exists o r2 st2,
    nth_error (heap st1) 6 = Some o /\
    to_string reference 6 "%.2f" "%d/%m/%Y" st1 = (Returned r2, st2) /\
    nth_error (heap st2) r2 = Some o /\
    r2 <> 6.
Proof.
  split; [reflexivity|].
  exact (to_string_idempotent reference 0 6 (mkState [column_mixed] [])
           (snd (to_string reference 0 "%g" "%Y-%m-%d"
                   (mkState [column_mixed] [])))
           "%g" "%Y-%m-%d" "%.2f" "%d/%m/%Y" eq_refl).
Defined.

(** [default_validation_is_the_coercion] on the column
    ["1", "2", "x", None], numeric side. *)
Lemma default_validation_is_the_coercion_witness :
  let st := mkState [column_1_2_x_None] [] in
  nth_error (heap st) 0 = Some column_1_2_x_None /\
  let c := coerced_numeric reference column_1_2_x_None in
  let nonconv := mask_and (notnull (items column_1_2_x_None)) (isnull (items c)) in
  let lg := log st ++ nonconvertible_notification None nonconv in
  validate_numeric reference 0 true false false None None (Some "mask_series") st
  = (Returned (RMaskSeries nonconv), mkState (heap st ++ [c]) lg) /\
  validate_numeric reference 0 true false false None None (Some "values") st
  = (Returned (RValues 2), mkState (heap st ++ [c; c]) lg).
Proof.
  split; [reflexivity|].
  exact (proj1 (default_validation_is_the_coercion reference 0
                  column_1_2_x_None (mkState [column_1_2_x_None] []) eq_refl)).
Defined.

(** [typed_column_passes_default_validation] on [1.0, 2.5, nan] and on
    [t=10, NaT]. *)
Lemma typed_column_passes_default_validation_witness :
  let st := mkState [column_1_2half_nan; column_t10_NaT] [] in
  (nth_error (heap st) 0 = Some column_1_2half_nan /\
   dtype_of column_1_2half_nan = DNumber /\
   nth_error (heap st) 1 = Some column_t10_NaT /\
   dtype_of column_t10_NaT = DDatetime) /\
  validate_numeric reference 0 true false false None None (Some "values") st
  = (Returned (RValues 3),
     mkState (heap st ++ [column_1_2half_nan; column_1_2half_nan]) []) /\
  validate_datetime reference 1 true false None None (Some "values") st
  = (Returned (RValues 3),
     mkState (heap st ++ [column_t10_NaT; column_t10_NaT]) []).
Proof.
  split; [repeat split; reflexivity|].
  pose proof (typed_column_passes_default_validation reference 0 1
                column_1_2half_nan column_t10_NaT
                (mkState [column_1_2half_nan; column_t10_NaT] [])
                eq_refl eq_refl eq_refl eq_refl)
    as [[_ Hn] [_ Hd]].
  split; [exact Hn | exact Hd].
Defined.

(** [probe_agrees_with_validators] on the column ["1", "2", "x", None]. *)
Lemma probe_agrees_with_validators_witness :
  let st := mkState [column_1_2_x_None] [] in
  (nth_error (heap st) 0 = Some column_1_2_x_None /\
   dtype_is_number (dtype_of column_1_2_x_None) = false /\
   dtype_is_datetime64 (dtype_of column_1_2_x_None) = false) /\
  exists m,
    fst (mask_nonconvertible reference 0 "numeric" None true st) = Returned m /\
    fst (validate_numeric reference 0 true false false None None
           (Some "mask_series") st)
    = Returned (RMaskSeries m).
Proof.
  split; [repeat split; reflexivity|].
  exact (proj1 (probe_agrees_with_validators reference 0 column_1_2_x_None
                  (mkState [column_1_2_x_None] []) None true
                  eq_refl eq_refl eq_refl)).
Defined.

(** [coerced_column_passes_validation] on what the coercers return for
    ["1", "2", "x", None]. *)
Lemma coerced_column_passes_validation_witness :
  let st := mkState [column_1_2_x_None] [] in
  let st1 := snd (to_numeric reference (ArgSeries 0) st) in
  let st1' := snd (to_datetime reference (ArgSeries 0) dt_defaults st) in
  (to_numeric reference (ArgSeries 0) st = (Returned (ArgSeries 1), st1) /\
   to_datetime reference (ArgSeries 0) dt_defaults st
   = (Returned (ArgSeries 1), st1')) /\
  (exists c,
      nth_error (heap st1) 1 = Some c /\
      validate_numeric reference 1 true false false None None (Some "values") st1
      = (Returned (RValues (S (List.length (heap st1)))),
         mkState (heap st1 ++ [c; c]) (log st1))) /\
  (exists c,
      nth_error (heap st1') 1 = Some c /\
      validate_datetime reference 1 true false None None (Some "values") st1'
      = (Returned (RValues (S (List.length (heap st1')))),
         mkState (heap st1' ++ [c; c]) (log st1'))).
Proof.
  split; [split; reflexivity|].
  exact (coerced_column_passes_validation reference 0 1 0 1
           (mkState [column_1_2_x_None] [])
           (snd (to_numeric reference (ArgSeries 0)
                   (mkState [column_1_2_x_None] [])))
           (mkState [column_1_2_x_None] [])
           (snd (to_datetime reference (ArgSeries 0) dt_defaults
                   (mkState [column_1_2_x_None] [])))
           dt_defaults eq_refl eq_refl).
Defined.

(** [validation_without_return_type] on the column ["1", "2", "x", None]
    with every check of [validate_numeric] but the integer one. *)
Lemma validation_without_return_type_witness :
  let st := mkState [column_1_2_x_None] [] in
  nth_error (heap st) 0 = Some column_1_2_x_None /\
  validate_numeric reference 0 false true false (Some 2%Q) (Some 1%Q) None st
  = (Returned RNone,
     mkState (heap st ++ [coerced_numeric reference column_1_2_x_None])
       (log st ++
          notification None
            (triggered_fragments numeric_error_info
               (numeric_masks column_1_2_x_None
                  (coerced_numeric reference column_1_2_x_None)
                  false true false (Some 2%Q) (Some 1%Q))))).
Proof.
  split; [reflexivity|].
  exact (proj1 (validation_without_return_type reference 0 column_1_2_x_None
                  (mkState [column_1_2_x_None] []) eq_refl)
           false true (Some 2%Q) (Some 1%Q)).
Defined.

(** [validate_string_returns_strings] on the mixed column. *)
Lemma validate_string_returns_strings_witness :
  let st := mkState [column_mixed] [] in
  let st' :=
    snd (validate_string reference 0 false true None None None true true true
           None None None None true st) in
  (nth_error (heap st) 0 = Some column_mixed /\
   validate_string reference 0 false true None None None true true true
     None None None None true st = (Returned (Some 6), st')) /\
  exists out,
    nth_error (heap st') 6 = Some out /\
    name out = name column_mixed /\
    stringified (items column_mixed) (items out).
Proof.
  split; [split; reflexivity|].
  exact (proj2 (validate_string_returns_strings reference 0 6 column_mixed
                  (mkState [column_mixed] [])
                  (snd (validate_string reference 0 false true None None None
                          true true true None None None None true
                          (mkState [column_mixed] [])))
                  false true None None None true true true None None None None
                  true eq_refl eq_refl)).
Defined.

(** [validate_string_defaults] on the column ["a", "a", None]. *)
Lemma validate_string_defaults_witness :
  let st := mkState [column_a_a_None] [] in
  nth_error (heap st) 0 = Some column_a_a_None /\
  log (snd (validate_string reference 0 true false None None None
              true true true None None None None true st)) = log st.
Proof.
  split; [reflexivity|].
  exact (proj1 (validate_string_defaults reference 0 column_a_a_None
                  (mkState [column_a_a_None] []) true eq_refl)).
Defined.

(** [length_bounds_notified] on the column ["a", "a", None] with at
    least two and at most three characters: too short, not too long. *)
Lemma length_bounds_notified_witness :
  let st := mkState [column_a_a_None] [] in
  (nth_error (heap st) 0 = Some column_a_a_None /\
   dtype_is_object (dtype_of column_a_a_None) = true /\
   strings_or_missing (items column_a_a_None)) /\
  validate_string reference 0 true false (Some 2%Z) (Some 3%Z) None
    true true true None None None None true st
  = (Returned (Some 1),
     mkState [column_a_a_None; column_a_a_None]
       ["'a': string(s) too short (< 2 characters)"]).
Proof.
  split; [repeat split; apply column_a_a_None_strings|].
  exact (length_bounds_notified reference 0 column_a_a_None
           (mkState [column_a_a_None] []) 2 3 true eq_refl eq_refl
           column_a_a_None_strings).
Defined.

(** [value_checks_notified] on the column ["a", "a", None]: a missing
    value that is not allowed, an empty whitelist and a blacklist that
    holds "a". *)
Lemma value_checks_notified_witness :
  let st := mkState [column_a_a_None] [] in
  (nth_error (heap st) 0 = Some column_a_a_None /\
   strings_or_missing (items column_a_a_None)) /\
  validate_string reference 0 false false None None None true true true
    None None (Some []) (Some [VStr "a"]) false st
  = (Returned None,
     mkState [column_a_a_None; column_a_a_None]
       ["'a': NaN value(s)"; "'a': Value(s) not in whitelist";
        "'a': Value(s) in blacklist"]).
Proof.
  split; [split; [reflexivity | apply column_a_a_None_strings]|].
  exact (value_checks_notified reference 0 column_a_a_None
           (mkState [column_a_a_None] []) false (Some []) (Some [VStr "a"])
           false eq_refl column_a_a_None_strings).
Defined.

(** [nonconvertible_reported_as_missing] on the column
    ["1", "2", "x", None] and its coercion. *)
Lemma nonconvertible_reported_as_missing_witness :
  let s := column_1_2_x_None in
  let c := coerced_numeric reference s in
  let frags := ["Value(s) not converted to datetime set as NaT"; "NaN value(s)"] in
  (_get_error_messages (numeric_masks s c false false false None None)
     numeric_error_info = Returned frags /\
   In "Value(s) not converted to datetime set as NaT" frags) /\
  In "NaN value(s)" frags.
Proof.
  split; [split; [reflexivity | now left]|].
  exact (nonconvertible_reported_as_missing column_1_2_x_None
           (coerced_numeric reference column_1_2_x_None) false false None None
           ["Value(s) not converted to datetime set as NaT"; "NaN value(s)"]
           eq_refl (or_introl eq_refl)).
Defined.

(** [nonconvertible_datetime_reported_as_missing] on the column
    ["1", "2", "x", None] and its coercion. *)
Lemma nonconvertible_datetime_reported_as_missing_witness :
  let s := column_1_2_x_None in
  let c := coerced_datetime reference s in
  let masks :=
    [("nonconvertible", mask_and (notnull (items s)) (isnull (items c)));
     ("isnull", isnull (items c))] in
  let frags := ["Value(s) not converted to datetime set as NaT"; "NaT value(s)"] in
  (datetime_masks reference s c false false None None = Returned masks /\
   _get_error_messages masks datetime_error_info = Returned frags /\
   In "Value(s) not converted to datetime set as NaT" frags) /\
  In "NaT value(s)" frags.
Proof.
  split; [repeat split; now left|].
  exact (nonconvertible_datetime_reported_as_missing reference
           column_1_2_x_None (coerced_datetime reference column_1_2_x_None)
           false None None
           [("nonconvertible",
             mask_and (notnull (items column_1_2_x_None))
               (isnull (items (coerced_datetime reference column_1_2_x_None))));
            ("isnull",
             isnull (items (coerced_datetime reference column_1_2_x_None)))]
           ["Value(s) not converted to datetime set as NaT"; "NaT value(s)"]
           eq_refl eq_refl (or_introl eq_refl)).
Defined.

Lemma two_is_not_zero : ~ (2 == 0)%Q.
Proof. intros H. discriminate H. Defined.

(** [bounds_notified_iff_violated] on the column [1.0, 2.5, nan] with
    both bounds at 2: 1.0 is below, 2.5 is above. *)
Lemma bounds_notified_iff_violated_witness :
  let c := column_1_2half_nan in
  let frags := ["value(s) too low"; "values(s) too high"] in
  (~ (2 == 0)%Q /\
   _get_error_messages (numeric_masks c c true false false (Some 2%Q) (Some 2%Q))
     numeric_error_info = Returned frags) /\
  (In "value(s) too low" frags <->
   exists l q, In (l, VNum q) (items c) /\ (q < 2)%Q) /\
  (In "values(s) too high" frags <->
   exists l q, In (l, VNum q) (items c) /\ (2 < q)%Q).
Proof.
  split; [split; [exact two_is_not_zero | reflexivity]|].
  exact (bounds_notified_iff_violated column_1_2half_nan column_1_2half_nan
           true false false 2%Q 2%Q
           ["value(s) too low"; "values(s) too high"]
           two_is_not_zero two_is_not_zero eq_refl).
Defined.

(** [duplicates_notified_iff_repeated] on the column ["a", "a", None]
    taken as the coerced column: the two equal strings are reported. *)
Lemma duplicates_notified_iff_repeated_witness :
  let c := column_a_a_None in
  let frags := ["duplicates"] in
  _get_error_messages (numeric_masks c c true true false None None)
    numeric_error_info = Returned frags /\
  (In "duplicates" frags <->
   exists i j v w,
     i < j /\
     nth_error (values (dropna (items c))) i = Some v /\
     nth_error (values (dropna (items c))) j = Some w /\
     value_eqb w v = true).
Proof.
  split; [reflexivity|].
  exact (duplicates_notified_iff_repeated column_a_a_None column_a_a_None
           true false None None ["duplicates"] eq_refl).
Defined.
